(** * PyExpLabSys: the UDP data sockets and the websocket relay

    A shallow embedding of

    - [PyExpLabSys/common/sockets.py]: the pull sockets
      ([CommonDataPullSocket], [DataPullSocket], [DateDataPullSocket],
      [LiveSocket], [PullUDPHandler]) and the push socket
      ([DataPushSocket], [PushUDPHandler]);
    - [machines/websocketserver/websocket_server.py]: the websocket handler
      ([CinfWebSocketHandler]) and the UDP poller ([UDPConnection]).

    The module variable [DATA] is a [gmap] from the port (or from
    [host:port]) to the dictionary of the socket, which is a record; the
    dictionaries keyed by codename inside it are [gmap string _].  The
    dictionaries that the push socket stores and hands out are objects of a
    heap.  Exceptions are values of type [exn] carried by [result], and a
    function that changes [DATA] returns the new [DATA] besides.  Python
    floats are IEEE binary64 numbers, that is Rocq's primitive [float].
    What belongs to the interpreter and its library rather than to the
    repository ([int], [float], [str] of a float, [repr], [json.loads]) is a
    field of the class [PyRuntime]; the time read by [time.time()] and the
    answers of the network are arguments. *)

From stdpp Require Import base option list gmap strings.
From Stdlib Require Import ZArith Ascii String Floats DecimalString.

Set Warnings "-register-all,-clear-no-such-hyp".
Local Open Scope Z_scope.
Local Open Scope string_scope.

(** ** Python strings *)

Module PyStr.

(** [s.count(c)] for a one-character [c]. *)
Fixpoint count (c : ascii) (s : string) : nat :=
  match s with
  | EmptyString => 0%nat
  | String a rest => ((if decide (a = c) then 1 else 0) + count c rest)%nat
  end.

(** [c in s] for a one-character [c]. *)
Fixpoint contains (c : ascii) (s : string) : bool :=
  match s with
  | EmptyString => false
  | String a rest => if decide (a = c) then true else contains c rest
  end.

(** [s.split(c)] for a one-character separator: never the empty list. *)
Fixpoint split (c : ascii) (s : string) : list string :=
  match s with
  | EmptyString => [EmptyString]
  | String a rest =>
      if decide (a = c) then EmptyString :: split c rest
      else match split c rest with
           | [] => [String a EmptyString]
           | piece :: pieces => String a piece :: pieces
           end
  end.

(** [sep.join(pieces)]. *)
Fixpoint join (sep : string) (pieces : list string) : string :=
  match pieces with
  | [] => ""
  | [piece] => piece
  | piece :: rest => piece +:+ sep +:+ join sep rest
  end.

(** [s.startswith(prefix)]. *)
Definition startswith (prefix s : string) : bool := String.prefix prefix s.

(** [str(n)] of an integer. *)
Definition of_Z (z : Z) : string := NilZero.string_of_int (Z.to_int z).
Definition of_nat (n : nat) : string := of_Z (Z.of_nat n).

End PyStr.

(** ** Exceptions *)

Inductive exn_class :=
  | ValueError | KeyError | TypeError | IndexError | AttributeError
  | OverflowError | IOError
  | NotImplementedError | PortStillReserved | SocketError.

Record exn := Exn { exn_kind : exn_class; message : string }.

Inductive result (A : Type) :=
  | Ok (a : A)
  | Raise (e : exn).
Arguments Ok {A} a.
Arguments Raise {A} e.

Global Instance result_ret : MRet result := λ A, Ok.
Global Instance result_bind : MBind result := λ A B k r,
  match r with
  | Ok a => k a
  | Raise e => Raise e
  end.

Global Instance result_fmap : FMap result := λ A B f r,
  match r with
  | Ok a => Ok (f a)
  | Raise e => Raise e
  end.

(** [for a in l: body], threading the local state [s]; [k] counts the
    iterations. *)
Fixpoint for_each {A St} (body : nat → St → A → result St) (k : nat)
    (s : St) (l : list A) : result St :=
  match l with
  | [] => Ok s
  | a :: rest => s ← body k s a; for_each body (S k) s rest
  end.

Definition is_ok {A} (r : result A) : bool :=
  match r with Ok _ => true | Raise _ => false end.

(** [d[key]] on a dictionary: a [KeyError] when the key is missing. *)
Definition getitem {V} (d : gmap string V) (key : string) : result V :=
  match d !! key with
  | Some v => Ok v
  | None => Raise (Exn KeyError key)
  end.

(** [d[key]] where the dictionary [d] is the per-socket dictionary and [key]
    one of its entries, which exists only once it has been assigned. *)
Definition entry {V} (field : string) (o : option V) : result V :=
  match o with
  | Some v => Ok v
  | None => Raise (Exn KeyError field)
  end.

(** ** Module constants of [sockets.py] *)

(** The message of the exception [PortStillReserved]. *)
Definition PortStillReserved_message : string :=
  let newline := String (ascii_of_nat 10) "" in
  "Even when a socket server has been requested " +:+
  "closed, the socket module will still keep it reserved for some " +:+
  "time (maybe up to a minute), to allow for clearing up lower " +:+
  "level networking components. If it is required to open and " +:+
  "close socket servers fast on the same ports, this behavior can " +:+
  "be changed by invoking:" +:+
  newline +:+ "    import SocketServer" +:+
  newline +:+ "    SocketServer.UDPServer.allow_reuse_address = True" +:+
  newline +:+ "before instantiation.".

Definition BAD_CHARS : list ascii :=
  ["#"; ","; ";"; ":"; "&"]%char.
Definition UNKNOWN_COMMAND : string := "UNKNOWN_COMMMAND".
Definition OLD_DATA : string := "OLD_DATA".
Definition PUSH_ERROR : string := "ERROR".
Definition PUSH_ACK : string := "ACK".
Definition PUSH_EXCEP : string := "EXCEP".
Definition PUSH_RET : string := "RET".

(** ** Python values and the interpreter's part *)

(** The values that travel through the push socket and the websocket relay:
    what [json.loads] and the [raw_wn] conversions produce and what a callback
    may return.  [VInt] and [VLong] are Python 2's [int] and [long]; a
    dictionary is the list of its items in iteration order.  A string is
    given by its characters: [VStr] is a [str], and it also stands for the
    [unicode] string of the same characters that [json.loads] returns.  The
    two are equal and hash alike; they differ in their type, which is not
    kept. *)
Inductive pyval :=
  | VNone
  | VBool (b : bool)
  | VInt (z : Z)
  | VLong (z : Z)
  | VFloat (f : float)
  | VStr (s : string)
  | VList (l : list pyval)
  | VDict (items : list (string * pyval)).

(** A dictionary with string keys, as the list of its items: the keys are
    pairwise different, and the order of the list is the iteration order. *)
Abbreviation dict := (list (string * pyval)).

(** What the interpreter and its library compute.  A conversion from a string
    either gives a value or raises [ValueError] with a message ([inl]). *)
Class PyRuntime := {
  (** [int(s)]: an [int] or a [long] *)
  int_of_str : string → string + pyval;
  (** [float(s)] *)
  float_of_str : string → string + float;
  (** [str(f)] and [format(f)] of a float *)
  str_of_float : float → string;
  (** [str(v)] of a list or a dictionary *)
  repr : pyval → string;
  (** [json.loads(s)] *)
  json_loads : string → string + pyval;
  (** the rendering of [TYPE_FROM_STRING.keys()] *)
  TYPE_FROM_STRING_keys : string;
}.

Definition value_error {A} (r : string + A) : result A :=
  match r with
  | inl msg => Raise (Exn ValueError msg)
  | inr a => Ok a
  end.

(** * The pull sockets *)

Module Pull.

(** A point [(x, y)]: two floats, as [set_point] documents. *)
Abbreviation point := (float * float)%type.

(** [DATA[port]['type']]: ['date'], ['data'] or ['live']. *)
Inductive socket_type := type_date | type_data | type_live.

(** [DATA[port]] of a pull socket.  The entries that are assigned only by
    some constructors, or only after [CommonDataPullSocket.__init__] has
    returned, are optional: reading a missing one is a [KeyError]. *)
Record socket_data := SocketData {
  codenames : list string;
  data : gmap string point;
  name : string;
  timeouts : option (gmap string (option float));
  type : option socket_type;
  timestamps : option (gmap string float);
  sane_interval : option float;
  last_served : option (gmap string point);
}.

Definition set_data (f : gmap string point → gmap string point)
    (d : socket_data) : socket_data :=
  SocketData (codenames d) (f (data d)) (name d) (timeouts d) (type d)
    (timestamps d) (sane_interval d) (last_served d).
Definition set_timeouts (ts : option (gmap string (option float)))
    (d : socket_data) : socket_data :=
  SocketData (codenames d) (data d) (name d) ts (type d)
    (timestamps d) (sane_interval d) (last_served d).
Definition set_type (ty : socket_type) (d : socket_data) : socket_data :=
  SocketData (codenames d) (data d) (name d) (timeouts d) (Some ty)
    (timestamps d) (sane_interval d) (last_served d).
Definition set_timestamps (ts : gmap string float)
    (d : socket_data) : socket_data :=
  SocketData (codenames d) (data d) (name d) (timeouts d) (type d)
    (Some ts) (sane_interval d) (last_served d).
Definition set_sane_interval (i : float) (d : socket_data) : socket_data :=
  SocketData (codenames d) (data d) (name d) (timeouts d) (type d)
    (timestamps d) (Some i) (last_served d).
Definition set_last_served (ls : gmap string point)
    (d : socket_data) : socket_data :=
  SocketData (codenames d) (data d) (name d) (timeouts d) (type d)
    (timestamps d) (sane_interval d) (Some ls).

(** The module variable [DATA], keyed by port. *)
Abbreviation DATA_t := (gmap Z socket_data).

(** ** Construction *)

(** The [timeouts] argument: a value without [__len__] ([None] or one float),
    or a list. *)
Inductive timeouts_arg :=
  | timeouts_single (timeout : option float)
  | timeouts_list (l : list (option float)).

(** The two checks at the head of the loop body of
    [CommonDataPullSocket.__init__]. *)
Definition check_codename (codenames : list string) (name : string)
    : result unit :=
  if decide (1 < count_occ string_dec codenames name)%nat then
    Raise (Exn ValueError
      ("Codenames must be unique; '" +:+ name +:+
       "' is present more than once"))
  else
    match find (λ char, PyStr.contains char name) BAD_CHARS with
    | Some char =>
        Raise (Exn ValueError
          ("The character '" +:+ String char "" +:+
           "' is not allowed in the codenames"))
    | None => Ok ()
    end.

(** [for name, timeout in zip(codenames, timeouts): ...]; what has been put
    in [DATA[port]] stays there when an iteration raises. *)
Fixpoint init_points (codenames : list string) (default_x default_y : float)
    (init_timeouts : bool) (pairs : list (string * option float))
    (d : socket_data) : result unit * socket_data :=
  match pairs with
  | [] => (Ok (), d)
  | (name, timeout) :: rest =>
      match check_codename codenames name with
      | Raise e => (Raise e, d)
      | Ok _ =>
          let d := set_data <[name := (default_x, default_y)]> d in
          let d :=
            if init_timeouts
            then set_timeouts (insert name timeout <$> timeouts d) d
            else d in
          init_points codenames default_x default_y init_timeouts rest d
      end
  end.

(** [CommonDataPullSocket.__init__].  [bind_error] is the [errno] of the
    [socket.error] raised by [SocketServer.UDPServer], if it raises. *)
Definition CommonDataPullSocket_init (DATA : DATA_t) (name : string)
    (codenames : list string) (port : Z) (default_x default_y : float)
    (timeouts : timeouts_arg) (init_timeouts : bool) (bind_error : option Z)
    : result unit * DATA_t :=
  if decide (is_Some (DATA !! port)) then
    (Raise (Exn ValueError
       ("A UDP server already exists on port: " +:+ PyStr.of_Z port)), DATA)
  else
    let checked :=
      match timeouts with
      | timeouts_list l =>
          if decide (List.length l ≠ List.length codenames) then
            Raise (Exn ValueError
              ("If a list of timeouts is supplied, it must have " +:+
               "as many items as there are in codenames"))
          else Ok l
      | timeouts_single timeout =>
          Ok (replicate (List.length codenames) timeout)
      end in
    match checked with
    | Raise e => (Raise e, DATA)
    | Ok timeouts =>
        let d := SocketData codenames ∅ name None None None None None in
        let d := if init_timeouts then set_timeouts (Some ∅) d else d in
        let '(r, d) :=
          init_points codenames default_x default_y init_timeouts
            (zip codenames timeouts) d in
        let DATA := <[port := d]> DATA in
        match r with
        | Raise e => (Raise e, DATA)
        | Ok _ =>
            match bind_error with
            | Some errno =>
                if decide (errno = 98)
                then (Raise (Exn PortStillReserved PortStillReserved_message), DATA)
                else (Raise (Exn SocketError (PyStr.of_Z errno)), DATA)
            | None => (Ok (), DATA)
            end
        end
    end.

(** Assignment to an entry of [DATA[port]]. *)
Definition update (port : Z) (f : socket_data → socket_data)
    (DATA : DATA_t) : DATA_t :=
  alter f port DATA.

(** [DataPullSocket.__init__] *)
Definition DataPullSocket_init (DATA : DATA_t) (name : string)
    (codenames : list string) (port : Z) (default_x default_y : float)
    (timeouts : timeouts_arg) (bind_error : option Z)
    : result unit * DATA_t :=
  match CommonDataPullSocket_init DATA name codenames port default_x
          default_y timeouts true bind_error with
  | (Raise e, DATA) => (Raise e, DATA)
  | (Ok _, DATA) =>
      let DATA := update port (set_type type_data) DATA in
      let timestamps :=
        foldl (λ timestamps name, <[name := 0%float]> timestamps)
          ∅ codenames in
      (Ok (), update port (set_timestamps timestamps) DATA)
  end.

(** [DateDataPullSocket.__init__] *)
Definition DateDataPullSocket_init (DATA : DATA_t) (name : string)
    (codenames : list string) (port : Z) (default_x default_y : float)
    (timeouts : timeouts_arg) (bind_error : option Z)
    : result unit * DATA_t :=
  match CommonDataPullSocket_init DATA name codenames port default_x
          default_y timeouts true bind_error with
  | (Raise e, DATA) => (Raise e, DATA)
  | (Ok _, DATA) => (Ok (), update port (set_type type_date) DATA)
  end.

(** [LiveSocket.__init__] *)
Definition LiveSocket_init (DATA : DATA_t) (name : string)
    (codenames : list string) (sane_interval : float) (port : Z)
    (default_x default_y : float) (bind_error : option Z)
    : result unit * DATA_t :=
  match CommonDataPullSocket_init DATA name codenames port default_x
          default_y (timeouts_single None) false bind_error with
  | (Raise e, DATA) => (Raise e, DATA)
  | (Ok _, DATA) =>
      let DATA := update port (set_type type_live) DATA in
      let DATA := update port (set_sane_interval sane_interval) DATA in
      let last_served :=
        foldl (λ last_served codename,
                 <[codename := (default_x, default_y)]> last_served)
          ∅ codenames in
      (Ok (), update port (set_last_served last_served) DATA)
  end.

(** ** Setting points *)

(** [DATA[self.port]]: a [KeyError] once the socket has been stopped. *)
Definition socket (DATA : DATA_t) (port : Z) : result socket_data :=
  match DATA !! port with
  | Some d => Ok d
  | None => Raise (Exn KeyError (PyStr.of_Z port))
  end.

(** [DataPullSocket.set_point]; [now] is [time.time()]. *)
Definition DataPullSocket_set_point (DATA : DATA_t) (port : Z) (now : float)
    (codename : string) (point : point) (timestamp : option float)
    : result unit * DATA_t :=
  match socket DATA port with
  | Raise e => (Raise e, DATA)
  | Ok _ =>
      let DATA := update port (set_data <[codename := point]>) DATA in
      let timestamp := default now timestamp in
      match socket DATA port ≫= λ d, entry "timestamps" (timestamps d) with
      | Raise e => (Raise e, DATA)
      | Ok ts =>
          (Ok (),
           update port (set_timestamps (<[codename := timestamp]> ts)) DATA)
      end
  end.

(** [DateDataPullSocket.set_point] *)
Definition DateDataPullSocket_set_point (DATA : DATA_t) (port : Z)
    (codename : string) (point : point) : result unit * DATA_t :=
  match socket DATA port with
  | Raise e => (Raise e, DATA)
  | Ok _ => (Ok (), update port (set_data <[codename := point]>) DATA)
  end.

(** [DateDataPullSocket.set_point_now] *)
Definition DateDataPullSocket_set_point_now (DATA : DATA_t) (port : Z)
    (now : float) (codename : string) (value : float)
    : result unit * DATA_t :=
  DateDataPullSocket_set_point DATA port codename (now, value).

(** [LiveSocket.set_point] *)
Definition LiveSocket_set_point {rt : PyRuntime} (DATA : DATA_t) (port : Z)
    (codename : string) (point : point) : result unit * DATA_t :=
  match socket DATA port with
  | Raise e => (Raise e, DATA)
  | Ok d =>
      if decide (codename ∉ codenames d) then
        (Raise (Exn ValueError
           ("Codename '" +:+ codename +:+ "' not recognized. Use one of: "
            +:+ repr (VList (VStr <$> codenames d)))), DATA)
      else (Ok (), update port (set_data <[codename := point]>) DATA)
  end.

(** [LiveSocket.set_point_now] *)
Definition LiveSocket_set_point_now {rt : PyRuntime} (DATA : DATA_t) (port : Z)
    (now : float) (codename : string) (value : float)
    : result unit * DATA_t :=
  LiveSocket_set_point DATA port codename (now, value).

(** The UDP server of a socket, by what has become of its [serve_forever],
    which [run] calls in the thread of the socket: not called, as long as
    the socket is made and not started; running; or returned. *)
Inductive server_state := not_started | serving | shut_down.

(** [CommonDataPullSocket.stop].  [self.server.shutdown()] asks the loop of
    [serve_forever] to end and waits until [serve_forever] has returned:
    when [serve_forever] was never called it waits for ever, so that [stop]
    does not return ([None]) and deletes nothing; when [serve_forever] has
    returned already there is nothing to wait for.  Then comes
    [del DATA[self.port]].  The socket of the server is not closed. *)
Definition stop (DATA : DATA_t) (port : Z) (server : server_state)
    : option (result unit * (DATA_t * server_state)) :=
  match server with
  | not_started => None
  | serving | shut_down =>
      Some match DATA !! port with
           | Some _ => (Ok (), (delete port DATA, shut_down))
           | None =>
               (Raise (Exn KeyError (PyStr.of_Z port)), (DATA, shut_down))
           end
  end.

(** ** The request handler [PullUDPHandler] *)

(** What stands for one codename in a reply: its point, or the string
    [OLD_DATA]. *)
Inductive value := real (p : point) | old.

(** The datagram sent back.  A reply produced by [json.dumps] is given by
    the object that is encoded. *)
Inductive reply :=
  | raw (s : string)
  | json_value (v : value)
  | json_values (vs : list value)
  | json_named (m : gmap string value)
  | json_names (l : list string)
  | json_number (f : float)
  | json_string (s : string).

Section handler.
Context {rt : PyRuntime}.

(** ['{},{}'.format] applied to the two components of the point *)
Definition format_point (p : point) : string :=
  str_of_float p.1 +:+ "," +:+ str_of_float p.2.

(** [PullUDPHandler._old_data]; [now] is the [time.time()] it reads. *)
Definition _old_data (DATA : DATA_t) (port : Z) (now : float)
    (codename : string) : result bool :=
  d ← socket DATA port;
  ty ← entry "type" (type d);
  match ty with
  | type_date =>
      timeouts ← entry "timeouts" (timeouts d);
      match mjoin (timeouts !! codename) with
      | None => Ok false
      | Some timeout =>
          p ← getitem (data d) codename;
          let point_time := p.1 in
          Ok (PrimFloat.ltb timeout (PrimFloat.sub now point_time))
      end
  | type_data =>
      timeouts ← entry "timeouts" (timeouts d);
      match mjoin (timeouts !! codename) with
      | None => Ok false
      | Some timeout =>
          timestamps ← entry "timestamps" (timestamps d);
          timestamp ← getitem timestamps codename;
          Ok (PrimFloat.ltb timeout (PrimFloat.sub now timestamp))
      end
  | type_live =>
      Raise (Exn NotImplementedError
        ("Checking for timeout is not yet implemented for type " +:+
         "'live'"))
  end.

(** [command == word and name in DATA[self.port]['data']]: [DATA] is looked
    at only when the command is the word. *)
Definition command_for (DATA : DATA_t) (port : Z) (word command name : string)
    : result bool :=
  if decide (command = word) then
    d ← socket DATA port; Ok (bool_decide (is_Some (data d !! name)))
  else Ok false.

(** [DATA[self.port]['data'][codename]] *)
Definition point_of (DATA : DATA_t) (port : Z) (codename : string)
    : result point :=
  d ← socket DATA port; getitem (data d) codename.

(** [PullUDPHandler._single_value] *)
Definition _single_value (DATA : DATA_t) (port : Z) (now : float)
    (command : string) : result reply :=
  match PyStr.split "#" command with
  | [name; command] =>
      is_raw ← command_for DATA port "raw" command name;
      if (is_raw : bool) then
        is_old ← _old_data DATA port now name;
        if (is_old : bool) then Ok (raw OLD_DATA)
        else p ← point_of DATA port name; Ok (raw (format_point p))
      else
        is_json ← command_for DATA port "json" command name;
        if (is_json : bool) then
          is_old ← _old_data DATA port now name;
          if (is_old : bool) then Ok (json_value old)
          else p ← point_of DATA port name; Ok (json_value (real p))
        else Ok (raw UNKNOWN_COMMAND)
  | _ => Raise (Exn ValueError "need exactly 2 values to unpack")
  end.

(** [PullUDPHandler._all_values]; [clock k] is the [time.time()] read by the
    [k]-th call of [_old_data] of the request. *)
Definition _all_values (DATA : DATA_t) (port : Z) (clock : nat → float)
    (command : string) : result reply :=
  if decide (command = "raw") then
    d ← socket DATA port;
    strings ← for_each (λ k strings codename,
        is_old ← _old_data DATA port (clock k) codename;
        item ← (if (is_old : bool) then Ok OLD_DATA
                else format_point <$> point_of DATA port codename);
        Ok (strings ++ [item])%list) 0%nat [] (codenames d);
    Ok (raw (PyStr.join ";" strings))
  else if decide (command = "json") then
    d ← socket DATA port;
    points ← for_each (λ k points codename,
        is_old ← _old_data DATA port (clock k) codename;
        data ← (if (is_old : bool) then Ok old
                else real <$> point_of DATA port codename);
        Ok (points ++ [data])%list) 0%nat [] (codenames d);
    Ok (json_values points)
  else if decide (command = "raw_wn") then
    d ← socket DATA port;
    strings ← for_each (λ k strings codename,
        is_old ← _old_data DATA port (clock k) codename;
        item ← (if (is_old : bool) then Ok (codename +:+ ":" +:+ OLD_DATA)
                else (λ p, codename +:+ ":" +:+ format_point p)
                       <$> point_of DATA port codename);
        Ok (strings ++ [item])%list) 0%nat [] (codenames d);
    Ok (raw (PyStr.join ";" strings))
  else if decide (command = "json_wn") then
    d ← socket DATA port;
    datacopy ← for_each (λ k datacopy codename,
        is_old ← _old_data DATA port (clock k) codename;
        Ok (if (is_old : bool) then <[codename := old]> datacopy
            else datacopy)) 0%nat (real <$> data d) (codenames d);
    Ok (json_named datacopy)
  else if decide (command = "codenames_raw") then
    d ← socket DATA port; Ok (raw (PyStr.join "," (codenames d)))
  else if decide (command = "codenames_json") then
    d ← socket DATA port; Ok (json_names (codenames d))
  else if decide (command = "name") then
    d ← socket DATA port; Ok (raw (name d))
  else Ok (raw UNKNOWN_COMMAND).

(** [PullUDPHandler.handle]: the datagram sent to the client, or the
    exception that leaves the handler (and then nothing is sent). *)
Definition handle (DATA : DATA_t) (port : Z) (clock : nat → float)
    (command : string) : result reply :=
  if decide (PyStr.count "#" command = 1%nat)
  then _single_value DATA port (clock 0%nat) command
  else _all_values DATA port clock command.

(** ** The request handler [LiveUDPHandler] *)

(** [LiveUDPHandler.handle] *)
Definition LiveUDPHandler_handle (DATA : DATA_t) (port : Z)
    (command : string) : result reply :=
  if decide (command = "data") then
    d ← socket DATA port;
    points ← for_each (λ _ points codename,
        point ← point_of DATA port codename;
        Ok (points ++ [real point])%list) 0%nat [] (codenames d);
    Ok (json_values points)
  else if decide (command = "codenames") then
    d ← socket DATA port; Ok (json_names (codenames d))
  else if decide (command = "sane_interval") then
    d ← socket DATA port;
    json_number <$> entry "sane_interval" (sane_interval d)
  else if decide (command = "name") then
    d ← socket DATA port; Ok (json_string (name d))
  else Ok (raw UNKNOWN_COMMAND).

End handler.

End Pull.

(** * The push socket *)

Module Push.

(** ** Dictionaries *)

(** [d[k] = v] *)
Fixpoint dict_set (k : string) (v : pyval) (d : dict) : dict :=
  match d with
  | [] => [(k, v)]
  | (k', v') :: rest =>
      if decide (k' = k) then (k, v) :: rest
      else (k', v') :: dict_set k v rest
  end.

(** [d.get(k)] *)
Fixpoint dict_get (k : string) (d : dict) : option pyval :=
  match d with
  | [] => None
  | (k', v') :: rest => if decide (k' = k) then Some v' else dict_get k rest
  end.

(** [del d[k]] on a dictionary that has the key [k] *)
Fixpoint dict_del (k : string) (d : dict) : dict :=
  match d with
  | [] => []
  | (k', v') :: rest =>
      if decide (k' = k) then rest else (k', v') :: dict_del k rest
  end.

(** [d.update(other)] *)
Definition dict_update (d other : dict) : dict :=
  foldl (λ d item, dict_set item.1 item.2 d) d other.

(** ** The state *)

(** A dictionary is an object: two names for one dictionary see each other's
    changes.  The heap holds the dictionaries that [DATA[port]] refers to
    ([last], [updated], the items of the queue) and the copies handed out. *)
Abbreviation loc := positive.
Abbreviation heap_t := (gmap loc dict).

Inductive action_t := store_last | enqueue | callback_async | callback_direct.
Inductive return_format_t := format_json | format_raw | format_string.

Global Instance action_eq_dec : EqDecision action_t.
Proof. solve_decision. Defined.

(** [DATA[port]] of a push socket.  [queue], [callback] and [return_format]
    exist for some actions only.  The direct callback is called with the
    dictionary object that [last] refers to, and it may change that object:
    [callback data] is what the call returns or raises, and the items it
    leaves in the dictionary that had the items [data].  The argument is the
    only object of the socket that the callback reaches. *)
Record socket_data := SocketData {
  action : action_t;
  last : option loc;
  updated : loc;
  last_time : option float;
  updated_time : option float;
  name : string;
  queue : option (list loc);
  callback : option (dict → result pyval * dict);
  return_format : option return_format_t;
}.

Record state := State { heap : heap_t; sock : socket_data }.

Definition set_last (l : option loc) (time : option float)
    (d : socket_data) : socket_data :=
  SocketData (action d) l (updated d) time (updated_time d) (name d)
    (queue d) (callback d) (return_format d).
Definition set_updated_time (time : option float)
    (d : socket_data) : socket_data :=
  SocketData (action d) (last d) (updated d) (last_time d) time (name d)
    (queue d) (callback d) (return_format d).
Definition set_queue (q : list loc) (d : socket_data) : socket_data :=
  SocketData (action d) (last d) (updated d) (last_time d) (updated_time d)
    (name d) (Some q) (callback d) (return_format d).

(** A new dictionary object. *)
Definition alloc (h : heap_t) (d : dict) : loc * heap_t :=
  let l := fresh (dom h) in (l, <[l := d]> h).

(** The object behind a reference. *)
Definition deref (h : heap_t) (l : loc) : result dict :=
  match h !! l with
  | Some d => Ok d
  | None => Raise (Exn KeyError "dangling reference")
  end.

(** ** Strings of values *)

Inductive pytype :=
  | t_NoneType | t_bool | t_int | t_long | t_float | t_str | t_list | t_dict.

(** [type(v)].  The type of a string is that of a [str], as the strings of
    a [raw_wn] request are. *)
Definition type_of (v : pyval) : pytype :=
  match v with
  | VNone => t_NoneType
  | VBool _ => t_bool
  | VInt _ => t_int
  | VLong _ => t_long
  | VFloat _ => t_float
  | VStr _ => t_str
  | VList _ => t_list
  | VDict _ => t_dict
  end.

(** [t.__name__] *)
Definition type_name (t : pytype) : string :=
  match t with
  | t_NoneType => "NoneType"
  | t_bool => "bool"
  | t_int => "int"
  | t_long => "long"
  | t_float => "float"
  | t_str => "str"
  | t_list => "list"
  | t_dict => "dict"
  end.

Global Instance pytype_eq_dec : EqDecision pytype.
Proof. solve_decision. Defined.

Section handler.
Context {rt : PyRuntime}.

(** [str(v)], which is also ['{}'.format(v)] *)
Definition str (v : pyval) : string :=
  match v with
  | VNone => "None"
  | VBool b => if b then "True" else "False"
  | VInt z | VLong z => PyStr.of_Z z
  | VFloat f => str_of_float f
  | VStr s => s
  | VList _ | VDict _ => repr v
  end.

(** ** Conversions of [raw_wn] *)

(** [bool_translate] *)
Definition bool_translate (s : string) : result pyval :=
  if decide (s ∉ ["True"; "False"]) then
    Raise (Exn ValueError
      ("Cannot translate the string '{}' to a boolean. Only the " +:+
       "strings 'True' or 'False' are allowed"))
  else Ok (VBool (if decide (s = "True") then true else false)).

(** [TYPE_FROM_STRING[data_type]]; [None] is the [KeyError]. *)
Definition TYPE_FROM_STRING (data_type : string)
    : option (string → result pyval) :=
  if decide (data_type = "int") then
    Some (λ dat, value_error (int_of_str dat))
  else if decide (data_type = "float") then
    Some (λ dat, VFloat <$> value_error (float_of_str dat))
  else if decide (data_type = "str") then
    Some (λ dat, Ok (VStr dat))
  else if decide (data_type = "bool") then
    Some bool_translate
  else None.

(** [try: ... except ValueError as exception: raise ValueError(message)]
    where the message may use [exception.message]; any other exception
    passes. *)
Definition reraise_value_error {A} (r : result A)
    (message : string → string) : result A :=
  match r with
  | Raise (Exn ValueError m) => Raise (Exn ValueError (message m))
  | _ => r
  end.

(** The body of the loop of [_raw_with_names]: one part
    [codename:type:dat1,dat2] of the payload. *)
Definition raw_part (data_out : dict) (part : string) : result dict :=
  match PyStr.split ":" part with
  | [codename; data_type; data_string] =>
      match TYPE_FROM_STRING data_type with
      | None =>
          Raise (Exn ValueError
            ("The data type '" +:+ data_type +:+ "' is unknown. Only " +:+
             TYPE_FROM_STRING_keys +:+ " are allowed"))
      | Some type_function =>
          data_converted ←
            reraise_value_error
              (mapM type_function (PyStr.split "," data_string))
              (λ m, "Unable to convert values to '" +:+ data_type +:+
                    "'. Error is: " +:+ m);
          let data_converted :=
            match data_converted with
            | [single] => single
            | _ => VList data_converted
            end in
          Ok (dict_set codename data_converted data_out)
      end
  | _ =>
      Raise (Exn ValueError
        ("The data part '" +:+ part +:+ "' did not match the expected " +:+
         "format of 3 parts divided by ':'"))
  end.

(** The dictionary [data_out] that [_raw_with_names] builds before it calls
    [_set_data]. *)
Definition raw_parse (data : string) : result dict :=
  for_each (λ _ data_out part, raw_part data_out part) 0%nat []
    (PyStr.split ";" data).

(** The dictionary that [_json_with_names] passes to [_set_data]. *)
Definition json_parse (data : string) : result dict :=
  data_dict ←
    reraise_value_error (value_error (json_loads data))
      (λ _, "The string '" +:+ data +:+ "' could not be decoded as JSON");
  match data_dict with
  | VDict items => Ok items
  | _ =>
      Raise (Exn ValueError
        ("The object '" +:+ str data_dict +:+
         "' returned after decoding the JSON string is not a dict"))
  end.

(** ** Formatting the return value of a direct callback *)

(** The string [json.dumps(v)], named by the value that is encoded. *)
Inductive json_text := json_dumps (v : pyval).

(** The datagram sent back by the push handler: the prefix, and after the
    [#] either a string or the JSON encoding of a value. *)
Inductive reply :=
  | text (prefix : string) (payload : string)
  | json (prefix : string) (payload : json_text).

(** [_format_return_json].  [json.dumps] raises [TypeError] on what it cannot
    encode; every [pyval] can be encoded. *)
Definition _format_return_json (value : pyval) : reply :=
  json PUSH_RET (json_dumps value).

(** [_format_return_string] *)
Definition _format_return_string (value : pyval) : reply :=
  text PUSH_RET (str value).

(** What [element_type] holds in [_format_return_raw_dict]: a type, or the
    empty string of the empty-list branch. *)
Inductive element_type_t :=
  | a_type (t : pytype)
  | a_string (s : string).

(** [element_type not in [int, float, bool, str]] *)
Definition not_raw_type (element_type : element_type_t) : bool :=
  match element_type with
  | a_type t => bool_decide (t ∉ [t_int; t_float; t_bool; t_str])
  | a_string _ => true
  end.

(** [element_type.__name__] *)
Definition __name__ (element_type : element_type_t) : result string :=
  match element_type with
  | a_type t => Ok (type_name t)
  | a_string _ =>
      Raise (Exn AttributeError "'str' object has no attribute '__name__'")
  end.

Definition raw_type_message : string :=
  "With return format raw, the item type can " +:+
  "only be one of 'int', 'float', 'bool' and " +:+
  "'str'".

(** The body of the loop of [_format_return_raw_dict]: the string for one
    item of the dictionary. *)
Definition raw_dict_item (key : string) (value : pyval) : result string :=
  '(element_type, value_string) ←
    match value with
    | VList ((first :: _) as elements) =>
        let types := type_of <$> elements in
        let element_type := type_of first in
        if decide (types ≠ replicate (List.length types) element_type) then
          Raise (Exn ValueError
            ("With return format raw, value in list " +:+
             "must have same type"))
        else Ok (a_type element_type, PyStr.join "," (str <$> elements))
    | VList [] => Ok (a_string "", "")
    | _ => Ok (a_type (type_of value), str value)
    end;
  if not_raw_type element_type then Raise (Exn TypeError raw_type_message)
  else
    type_name ← __name__ element_type;
    Ok (key +:+ ":" +:+ type_name +:+ ":" +:+ value_string).

(** [_format_return_raw_dict] *)
Definition _format_return_raw_dict (argument : dict) : result reply :=
  items ← for_each (λ _ items '(key, value),
      item_str ← raw_dict_item key value;
      Ok (items ++ [item_str])%list) 0%nat [] argument;
  Ok (text PUSH_RET (PyStr.join ";" items)).

(** [_format_return_raw_list] *)
Definition _format_return_raw_list (argument : list pyval) : result reply :=
  '(types, items) ← for_each (λ _ '(types, items) item,
      match item with
      | VList elements =>
          Ok ((types ++ (type_of <$> elements))%list,
              (items ++ [PyStr.join "," (str <$> elements)])%list)
      | _ =>
          Raise (Exn ValueError
            ("With return format raw on a list, the elements " +:+
             "themselves be lists"))
      end) 0%nat ([], []) argument;
  match types with
  | [] => Raise (Exn IndexError "list index out of range")
  | element_type :: _ =>
      if decide (types ≠ replicate (List.length types) element_type) then
        Raise (Exn ValueError
          ("With return format raw on a list of lists, all values " +:+
           " in list must have same type"))
      else if not_raw_type (a_type element_type) then
        Raise (Exn TypeError
          ("With return format raw, the item type can only be one " +:+
           "of 'int', 'float', 'bool' and 'str'"))
      else
        Ok (text PUSH_RET
              (type_name element_type +:+ ":" +:+ PyStr.join "&" items))
  end.

(** [_format_return_raw] *)
Definition _format_return_raw (argument : pyval) : reply :=
  let out :=
    match argument with
    | VNone => Ok (text PUSH_RET "None")
    | VDict items => _format_return_raw_dict items
    | VList l => _format_return_raw_list l
    | _ =>
        Raise (Exn ValueError
          ("Return value must be a dict or list with return " +:+
           "format 'raw'"))
    end in
  match out with
  | Ok out => out
  | Raise exception =>
      text PUSH_EXCEP
        ("Raw conversion failed with message" +:+ ":" +:+ message exception)
  end.

(** ** Storing the data *)

(** [_set_data].  [data] is the dictionary built by the parser, which becomes
    an object of the heap here, where [DATA[port]] starts to refer to it;
    [timestamp] is the [time.time()] it reads.  The direct callback gets the
    same object, after [updated] has taken its items. *)
Definition _set_data (st : state) (timestamp : float) (data : dict)
    : result reply * state :=
  let '(data_ref, h) := alloc (heap st) data in
  let d := set_last (Some data_ref) (Some timestamp) (sock st) in
  let h := alter (λ updated, dict_update updated data) (updated d) h in
  let d := set_updated_time (Some timestamp) d in
  let queued :=
    if decide (action d ∈ [enqueue; callback_async]) then
      q ← entry "queue" (queue d); Ok (set_queue (q ++ [data_ref]) d)
    else Ok d in
  match queued with
  | Raise e => (Raise e, State h d)
  | Ok d =>
      if decide (action d = callback_direct) then
        match entry "callback" (callback d) with
        | Raise exception =>
            (Ok (text PUSH_EXCEP (message exception)), State h d)
        | Ok callback =>
            let '(returned, data_left) := callback data in
            let h := <[data_ref := data_left]> h in
            let out :=
              return_value ← returned;
              return_format ← entry "return_format" (return_format d);
              Ok match return_format with
                 | format_json => _format_return_json return_value
                 | format_raw => _format_return_raw return_value
                 | format_string => _format_return_string return_value
                 end in
            match out with
            | Ok out => (Ok out, State h d)
            | Raise exception =>
                (Ok (text PUSH_EXCEP (message exception)), State h d)
            end
        end
      else (Ok (text PUSH_ACK (repr (VDict data))), State h d)
  end.

(** [_raw_with_names] *)
Definition _raw_with_names (st : state) (timestamp : float) (data : string)
    : result reply * state :=
  match raw_parse data with
  | Raise e => (Raise e, st)
  | Ok data_out => _set_data st timestamp data_out
  end.

(** [_json_with_names] *)
Definition _json_with_names (st : state) (timestamp : float) (data : string)
    : result reply * state :=
  match json_parse data with
  | Raise e => (Raise e, st)
  | Ok data_dict => _set_data st timestamp data_dict
  end.

(** [PushUDPHandler.handle]: the datagram sent to the client, or the
    exception that leaves the handler, and the state it leaves behind. *)
Definition handle (st : state) (timestamp : float) (request : string)
    : result reply * state :=
  if decide (request = "name") then
    (Ok (text PUSH_RET (name (sock st))), st)
  else if decide (PyStr.count "#" request ≠ 1%nat) then
    (Ok (text PUSH_ERROR UNKNOWN_COMMAND), st)
  else
    match PyStr.split "#" request with
    | [command; data] =>
        let '(return_value, st) :=
          if decide (command = "json_wn") then
            _json_with_names st timestamp data
          else if decide (command = "raw_wn") then
            _raw_with_names st timestamp data
          else (Ok (text PUSH_ERROR UNKNOWN_COMMAND), st) in
        match return_value with
        | Raise (Exn ValueError m) => (Ok (text PUSH_ERROR m), st)
        | _ => (return_value, st)
        end
    | _ => (Raise (Exn ValueError "need exactly 2 values to unpack"), st)
    end.

End handler.

(** ** The properties of [DataPushSocket] *)

(** [DataPushSocket.last]: the pair of the time and of the copy (or of
    [None] and [None]). *)
Definition last_property (st : state)
    : result (option float * option loc) * state :=
  match last (sock st) with
  | None => (Ok (last_time (sock st), None), st)
  | Some l =>
      match deref (heap st) l with
      | Raise e => (Raise e, st)
      | Ok d =>
          let '(copy, h) := alloc (heap st) d in
          (Ok (last_time (sock st), Some copy), State h (sock st))
      end
  end.

(** [DataPushSocket.updated] *)
Definition updated_property (st : state)
    : result (option float * loc) * state :=
  match deref (heap st) (updated (sock st)) with
  | Raise e => (Raise e, st)
  | Ok d =>
      let '(copy, h) := alloc (heap st) d in
      (Ok (updated_time (sock st), copy), State h (sock st))
  end.

(** [DataPushSocket.queue] *)
Definition queue_property (st : state) : option (list loc) :=
  queue (sock st).

(** [DataPushSocket.set_last_to_none] *)
Definition set_last_to_none (st : state) : state :=
  State (heap st) (set_last None None (sock st)).

(** [DataPushSocket.clear_updated] *)
Definition clear_updated (st : state) : state :=
  State (alter (λ _, []) (updated (sock st)) (heap st))
    (set_updated_time None (sock st)).

(** [DataPushSocket.__init__]: the content of [DATA[port]], with the new
    dictionary [updated] in the heap.  [queue] is the queue given by the
    caller, if any; [bind_error] as for the pull sockets. *)
Definition DataPushSocket_init (h : heap_t) (name : string) (action : string)
    (queue : option (list loc))
    (callback : option (dict → result pyval * dict))
    (return_format : string) (bind_error : option Z) : result state :=
  if decide (is_Some queue ∧ action ≠ "enqueue") then
    Raise (Exn ValueError
      ("The 'queue' argument can only be used when the " +:+
       "action is 'enqueue'"))
  else if decide (is_Some callback ∧
                  action ∉ ["callback_async"; "callback_direct"]) then
    Raise (Exn ValueError
      ("The 'callback' argument can only be used when the " +:+
       "action is 'callback_async' or 'callback_direct'"))
  else if decide (action ∈ ["callback_async"; "callback_direct"] ∧
                  ¬ is_Some callback) then
    Raise (Exn ValueError "Value for callback: 'None' is not callable")
  else
    match
      (if decide (return_format = "json") then Some format_json
       else if decide (return_format = "raw") then Some format_raw
       else if decide (return_format = "string") then Some format_string
       else None)
    with
    | None =>
        Raise (Exn ValueError
          ("The 'return_format' argument may only be one of the " +:+
           "'json', 'raw' or 'string' values"))
    | Some format =>
        let '(updated, h) := alloc h [] in
        let content a q c f :=
          SocketData a None updated None None name q c f in
        content ←
          (if decide (action = "store_last") then
             Ok (content store_last None None None)
           else if decide (action = "enqueue") then
             Ok (content enqueue (Some (default [] queue)) None None)
           else if decide (action = "callback_async") then
             Ok (content callback_async (Some []) None None)
           else if decide (action = "callback_direct") then
             Ok (content callback_direct None callback (Some format))
           else
             Raise (Exn ValueError
               ("Unknown action '" +:+ action +:+ "'. Must be one of: " +:+
                "['store_last', 'enqueue', 'callback_async', " +:+
                "'callback_direct']")));
        match bind_error with
        | Some errno =>
            if decide (errno = 98)
            then Raise (Exn PortStillReserved PortStillReserved_message)
            else Raise (Exn SocketError (PyStr.of_Z errno))
        | None => Ok (State h content)
        end
    end.

(** ** Changes to a dictionary by its holder *)

(** The methods of a dictionary that change it. *)
Inductive dict_op :=
  | setitem (k : string) (v : pyval)
  | delitem (k : string)
  | clear
  | update_with (other : dict)
  | pop (k : string)
  | popitem
  | setdefault (k : string) (v : pyval).

(** One method call on the dictionary at [l]. *)
Definition apply_op (h : heap_t) (l : loc) (op : dict_op)
    : result unit * heap_t :=
  match h !! l with
  | None => (Raise (Exn KeyError "dangling reference"), h)
  | Some d =>
      match op with
      | setitem k v => (Ok (), <[l := dict_set k v d]> h)
      | delitem k | pop k =>
          match dict_get k d with
          | Some _ => (Ok (), <[l := dict_del k d]> h)
          | None => (Raise (Exn KeyError k), h)
          end
      | clear => (Ok (), <[l := []]> h)
      | update_with other => (Ok (), <[l := dict_update d other]> h)
      | popitem =>
          match d with
          | [] => (Raise (Exn KeyError "popitem(): dictionary is empty"), h)
          | _ :: rest => (Ok (), <[l := rest]> h)
          end
      | setdefault k v =>
          match dict_get k d with
          | Some _ => (Ok (), h)
          | None => (Ok (), <[l := dict_set k v d]> h)
          end
      end
  end.

(** A sequence of method calls on the dictionary at [l]; a call that raises
    changes nothing, and the holder goes on. *)
Definition apply_ops (h : heap_t) (l : loc) (ops : list dict_op) : heap_t :=
  foldl (λ h op, (apply_op h l op).2) h ops.

End Push.

(** * The websocket relay *)

Module WebSocketServer.

Definition MALFORMED_SUBSCRIPTION (msg : string) : string :=
  "Error: Malformed subscription line: " +:+ msg.

(** [DATA[ip_port]] of the relay: the three entries are created, as [None],
    by [UDPConnectionSteward._add_new_connections] and are filled by the
    [UDPConnection] with what the upstream answers. *)
Record source := Source {
  data : pyval;
  codenames : pyval;
  sane_interval : pyval;
}.

Definition set_data (v : pyval) (s : source) : source :=
  Source v (codenames s) (sane_interval s).
Definition set_codenames (v : pyval) (s : source) : source :=
  Source (data s) v (sane_interval s).
Definition set_sane_interval (v : pyval) (s : source) : source :=
  Source (data s) (codenames s) v.

Abbreviation DATA_t := (gmap string source).

(** ** [CinfWebSocketHandler] *)

(** [self.subscriptions] *)
Abbreviation subscriptions_t := (list (string * list string)).

(** What is handed to [json_send_message]. *)
Abbreviation message_t := pyval.

(** The upstream as the connection sees it: [network k] is what [recvfrom]
    gives after the [k]-th datagram has been sent, [None] when nothing
    arrives within the timeout of the socket. *)
Abbreviation network_t := (nat → option string).

Section handler.
Context {rt : PyRuntime}.

(** [str(v)] for the values formatted here. *)
Definition str (v : pyval) : string := Push.str v.

(** [CinfWebSocketHandler.subscribe]: the message sent, or the exception
    that leaves the method, and [self.subscriptions] afterwards. *)
Definition subscribe (DATA : DATA_t) (subscriptions : subscriptions_t)
    (msg : string) : result message_t * subscriptions_t :=
  match PyStr.split "#" msg with
  | [_; args] =>
      match PyStr.split ";" args with
      | [port_ip; codenames_string] =>
          let codenames := PyStr.split "," codenames_string in
          if decide (port_ip = "" ∨ "" ∈ codenames) then
            (Ok (VStr (MALFORMED_SUBSCRIPTION msg)), subscriptions)
          else
            let number := List.length subscriptions in
            let subscriptions :=
              (subscriptions ++ [(port_ip, codenames)])%list in
            match DATA !! port_ip with
            | None => (Raise (Exn KeyError port_ip), subscriptions)
            | Some source =>
                (Ok (VStr (msg +:+ "#" +:+ PyStr.of_nat number +:+ "#" +:+
                           str (sane_interval source))),
                 subscriptions)
            end
      | _ =>
          (Raise (Exn ValueError "need exactly 2 values to unpack"),
           subscriptions)
      end
  | _ =>
      (Raise (Exn ValueError "need exactly 2 values to unpack"),
       subscriptions)
  end.

(** [l.index(x)] for a string [x] and a list [l]: the position of the first
    item that is the string [x]. *)
Fixpoint list_index (x : string) (l : list pyval) : result nat :=
  match l with
  | [] => Raise (Exn ValueError (x +:+ " is not in list"))
  | y :: rest =>
      match y with
      | VStr s => if decide (s = x) then Ok 0%nat else S <$> list_index x rest
      | _ => S <$> list_index x rest
      end
  end.

(** [v.index(x)] for a string [x]: lists and strings have the method. *)
Definition index (v : pyval) (x : string) : result nat :=
  match v with
  | VList l => list_index x l
  | VStr s =>
      match String.index 0 x s with
      | Some i => Ok i
      | None => Raise (Exn ValueError "substring not found")
      end
  | _ =>
      Raise (Exn AttributeError
        ("'" +:+ Push.type_name (Push.type_of v) +:+
         "' object has no attribute 'index'"))
  end.

(** [v[i]] for an index [i] that [index] returned. *)
Definition getitem_at (v : pyval) (i : nat) : result pyval :=
  match v with
  | VList l =>
      match l !! i with
      | Some item => Ok item
      | None => Raise (Exn IndexError "list index out of range")
      end
  | VStr s =>
      match String.get i s with
      | Some c => Ok (VStr (String c ""))
      | None => Raise (Exn IndexError "string index out of range")
      end
  | VDict _ => Raise (Exn KeyError (PyStr.of_nat i))
  | _ =>
      Raise (Exn TypeError
        ("'" +:+ Push.type_name (Push.type_of v) +:+
         "' object has no attribute '__getitem__'"))
  end.

(** The integer of an [int] or a [long]. *)
Definition integer (v : pyval) : option Z :=
  match v with
  | VInt z | VLong z => Some z
  | _ => None
  end.

(** [CinfWebSocketHandler.get_data].  [int(msg)] raises [ValueError] on a
    string that is no numeral; the handler catches [TypeError]. *)
Definition get_data (DATA : DATA_t) (subscriptions : subscriptions_t)
    (msg : string) : result message_t :=
  match value_error (int_of_str msg) with
  | Raise (Exn TypeError _) => Ok (VStr ("Invalid subscription: " +:+ msg))
  | Raise e => Raise e
  | Ok number =>
      match integer number ≫= λ z,
            guard (0 ≤ z)%Z;; subscriptions !! Z.to_nat z with
      | Some (port_ip, codenames) =>
          points ← for_each (λ _ points codename,
              source ← getitem DATA port_ip;
              index_in_global ← index (WebSocketServer.codenames source)
                                  codename;
              point ← getitem_at (data source) index_in_global;
              Ok (points ++ [point])%list) 0%nat [] codenames;
          Ok (VList [number; VList points])
      | None => Ok (VStr ("Invalid subscription number: " +:+ msg))
      end
  end.

(** [CinfWebSocketHandler.onMessage]: what is sent, if anything. *)
Definition onMessage (DATA : DATA_t) (subscriptions : subscriptions_t)
    (msg : string) (binary : bool)
    : result (option message_t) * subscriptions_t :=
  if binary then (Ok None, subscriptions)
  else if PyStr.startswith "subscribe" msg then
    let '(sent, subscriptions) := subscribe DATA subscriptions msg in
    (Some <$> sent, subscriptions)
  else (Some <$> get_data DATA subscriptions msg, subscriptions).

(** ** [UDPConnection] *)

(** The thread object.  [timeout] is the receive timeout of its socket and
    [sent] the datagrams it has sent to the upstream, oldest first. *)
Record connection := Connection {
  _stop : bool;
  ip_port : string;
  ip_address : string;
  port : pyval;
  timeout : pyval;
  sent : list string;
}.

Definition set_stop (c : connection) : connection :=
  Connection true (ip_port c) (ip_address c) (port c) (timeout c) (sent c).
Definition set_timeout (t : pyval) (c : connection) : connection :=
  Connection (_stop c) (ip_port c) (ip_address c) (port c) t (sent c).
Definition sendto (command : string) (c : connection) : connection :=
  Connection (_stop c) (ip_port c) (ip_address c) (port c) (timeout c)
    (sent c ++ [command]).

(** [UDPConnection.stop] *)
Definition stop (c : connection) : connection := set_stop c.

(** [UDPConnection._send_and_get] *)
Definition _send_and_get (network : network_t) (c : connection)
    (command : string) : result pyval * connection :=
  let k := List.length (sent c) in
  let c := sendto command c in
  match network k with
  | Some datagram => (value_error (json_loads datagram), c)
  | None => (Ok VNone, stop c)
  end.

(** The argument [sane_interval * 2] of [settimeout], checked as
    [settimeout] checks it: a number that is not negative. *)
Definition timeout_of (sane_interval : pyval) : result pyval :=
  match sane_interval with
  | VBool b => Ok (VInt (if b then 2 else 0))
  | VInt z | VLong z =>
      if decide (2 ^ 1024 - 2 ^ 970 ≤ Z.abs (z * 2))%Z then
        Raise (Exn OverflowError "long int too large to convert to float")
      else if decide (z < 0)%Z then
        Raise (Exn ValueError "Timeout value out of range")
      else Ok (VInt (z * 2))
  | VFloat f =>
      let t := PrimFloat.mul f 2 in
      if PrimFloat.ltb t 0 then
        Raise (Exn ValueError "Timeout value out of range")
      else Ok (VFloat t)
  | _ => Raise (Exn TypeError "a float is required")
  end.

(** [time.sleep(v)]: only the exceptions matter here. *)
Definition sleep (v : pyval) : result unit :=
  match v with
  | VBool _ => Ok ()
  | VInt z | VLong z =>
      if decide (z < 0)%Z then Raise (Exn IOError "[Errno 22] Invalid argument")
      else Ok ()
  | VFloat f =>
      if PrimFloat.ltb f 0
      then Raise (Exn IOError "[Errno 22] Invalid argument")
      else Ok ()
  | _ => Raise (Exn TypeError "a float is required")
  end.

(** Assignment to an entry of [DATA[ip_port]]. *)
Definition assign (DATA : DATA_t) (ip_port : string) (f : source → source)
    : result DATA_t :=
  source ← getitem DATA ip_port; Ok (<[ip_port := f source]> DATA).

(** [UDPConnection.__init__]: the new thread object, unless an exception
    leaves the constructor, and [DATA] afterwards. *)
Definition UDPConnection_init (network : network_t) (DATA : DATA_t)
    (ip_port : string) : result connection * DATA_t :=
  match PyStr.split ":" ip_port with
  | [ip_address; port] =>
      match value_error (int_of_str port) with
      | Raise e => (Raise e, DATA)
      | Ok port =>
          let c := Connection false ip_port ip_address port (VInt 2) [] in
          match _send_and_get network c "sane_interval" with
          | (Raise e, _) => (Raise e, DATA)
          | (Ok sane_interval, c) =>
              match _send_and_get network c "codenames" with
              | (Raise e, _) => (Raise e, DATA)
              | (Ok codenames, c) =>
                  match sane_interval, codenames with
                  | VNone, _ | _, VNone => (Ok (set_stop c), DATA)
                  | _, _ =>
                      match assign DATA ip_port
                              (set_sane_interval sane_interval) with
                      | Raise e => (Raise e, DATA)
                      | Ok DATA =>
                          match timeout_of sane_interval with
                          | Raise e => (Raise e, DATA)
                          | Ok t =>
                              match assign DATA ip_port
                                      (set_codenames codenames) with
                              | Raise e => (Raise e, DATA)
                              | Ok DATA => (Ok (set_timeout t c), DATA)
                              end
                          end
                      end
                  end
              end
          end
      end
  | _ => (Raise (Exn ValueError "need exactly 2 values to unpack"), DATA)
  end.

(** One iteration of the loop of [UDPConnection.run]. *)
Definition run_step (network : network_t) (DATA : DATA_t) (c : connection)
    : result unit * connection * DATA_t :=
  match _send_and_get network c "data" with
  | (Raise e, c) => (Raise e, c, DATA)
  | (Ok data, c) =>
      let '(r, c, DATA) :=
        match data with
        | VNone => (Ok (), set_stop c, DATA)
        | _ =>
            match assign DATA (ip_port c) (set_data data) with
            | Raise e => (Raise e, c, DATA)
            | Ok DATA => (Ok (), c, DATA)
            end
        end in
      (r ;; source ← getitem DATA (ip_port c); sleep (sane_interval source),
       c, DATA)
  end.

(** [UDPConnection.run]: [while not self._stop: ...], for at most [fuel]
    iterations; [None] when the loop has not ended by then. *)
Fixpoint run (network : network_t) (fuel : nat) (DATA : DATA_t)
    (c : connection) : option (result unit * connection * DATA_t) :=
  if _stop c then Some (Ok (), c, DATA)
  else
    match fuel with
    | O => None
    | S fuel =>
        match run_step network DATA c with
        | (Raise e, c, DATA) => Some (Raise e, c, DATA)
        | (Ok _, c, DATA) => run network fuel DATA c
        end
    end.

End handler.

End WebSocketServer.

(** * A runtime to run the model on examples *)

Module Sample.

(** [float(z)] for a small integer *)
Definition float_of_Z (z : Z) : float :=
  match z with
  | Z0 => 0%float
  | Zpos p => SF2Prim (S754_finite false p 0)
  | Zneg p => SF2Prim (S754_finite true p 0)
  end.

(** Decimal numerals with an optional minus sign. *)
Definition int_of_str (s : string) : string + pyval :=
  match NilZero.int_of_string s with
  | Some i => inr (VInt (Z.of_int i))
  | None => inl ("invalid literal for int() with base 10: '" +:+ s +:+ "'")
  end.

Definition float_of_str (s : string) : string + float :=
  match NilZero.int_of_string s with
  | Some i => inr (float_of_Z (Z.of_int i))
  | None => inl ("could not convert string to float: " +:+ s)
  end.

(** Whole numbers print as Python prints them; other finite numbers print
    as mantissa and binary exponent. *)
Definition str_of_float (f : float) : string :=
  match Prim2SF f with
  | S754_zero sign => if sign then "-0.0" else "0.0"
  | S754_infinity sign => if sign then "-inf" else "inf"
  | S754_nan => "nan"
  | S754_finite sign m e =>
      let sign := if sign then "-" else "" in
      let whole :=
        if decide (0 ≤ e)%Z then Some (Zpos m * 2 ^ e)%Z
        else if decide ((Zpos m) mod 2 ^ (- e) = 0)%Z
             then Some (Zpos m / 2 ^ (- e))%Z
             else None in
      match whole with
      | Some z => sign +:+ PyStr.of_Z z +:+ ".0"
      | None => sign +:+ PyStr.of_Z (Zpos m) +:+ "p" +:+ PyStr.of_Z e
      end
  end.

Fixpoint repr (v : pyval) : string :=
  match v with
  | VNone => "None"
  | VBool b => if b then "True" else "False"
  | VInt z => PyStr.of_Z z
  | VLong z => PyStr.of_Z z +:+ "L"
  | VFloat f => str_of_float f
  | VStr s => "'" +:+ s +:+ "'"
  | VList l => "[" +:+ PyStr.join ", " (map repr l) +:+ "]"
  | VDict items =>
      "{" +:+
      PyStr.join ", "
        (map (λ item : string * pyval,
                let (k, v) := item in "'" +:+ k +:+ "': " +:+ repr v) items)
      +:+ "}"
  end.

(** The empty object, [null] and decimal numerals. *)
Definition json_loads (s : string) : string + pyval :=
  if decide (s = "{}") then inr (VDict [])
  else if decide (s = "null") then inr VNone
  else match NilZero.int_of_string s with
       | Some i => inr (VInt (Z.of_int i))
       | None => inl "No JSON object could be decoded"
       end.

Definition runtime : PyRuntime :=
  Build_PyRuntime int_of_str float_of_str str_of_float repr json_loads
    "['int', 'float', 'str', 'bool']".

End Sample.

(** * What the claims speak of *)

(** ** Pull sockets *)

Section pull_notions.
Import Pull.
Context {rt : PyRuntime}.

(** A codename without any of the characters of [BAD_CHARS]. *)
Definition allowed (name : string) : Prop :=
  ∀ char, char ∈ BAD_CHARS → PyStr.contains char name = false.

(** A list of timeouts has one item for each codename. *)
Definition arity_ok (timeouts : timeouts_arg) (codenames : list string)
    : Prop :=
  match timeouts with
  | timeouts_single _ => True
  | timeouts_list l => List.length l = List.length codenames
  end.

(** The keys of the values mapping are the channels of the store. *)
Definition keys_are_channels (d : socket_data) : Prop :=
  dom (data d) = list_to_set (codenames d).

(** The timeout configured for a codename, if any. *)
Definition configured_timeout (d : socket_data) (codename : string)
    : option float :=
  timeouts d ≫= λ ts, mjoin (ts !! codename).

(** The time a point is dated with: its own first component in a date
    store, the time it was set at in an x, y store. *)
Definition reference_time (d : socket_data) (codename : string)
    : option float :=
  match type d with
  | Some type_date => fst <$> data d !! codename
  | Some type_data => timestamps d ≫= λ ts, ts !! codename
  | _ => None
  end.

(** A codename is stale at [now] when it has a timeout [T] and
    [now - reference_time > T]. *)
Definition stale (d : socket_data) (now : float) (codename : string) : bool :=
  match configured_timeout d codename, reference_time d codename with
  | Some T, Some t => PrimFloat.ltb T (PrimFloat.sub now t)
  | _, _ => false
  end.

(** What a read at [now] shows for a codename whose point is [p]. *)
Definition shown (d : socket_data) (now : float) (codename : string)
    (p : point) : value :=
  if stale d now codename then old else real p.

Definition answer (d : socket_data) (now : float) (codename : string)
    : option value :=
  shown d now codename <$> data d !! codename.

(** The string of a value in the raw replies. *)
Definition render (v : value) : string :=
  match v with
  | old => OLD_DATA
  | real p => format_point p
  end.

(** A date or x, y store as the constructors and [set_point] leave it. *)
Record timed (d : socket_data) : Prop := Timed {
  timed_type : type d = Some type_date ∨ type d = Some type_data;
  timed_timeouts :
    ∃ ts, timeouts d = Some ts ∧ dom ts ⊆ list_to_set (codenames d);
  timed_channels : list_to_set (codenames d) ⊆ dom (data d);
  timed_nodup : NoDup (codenames d);
  timed_timestamps :
    type d = Some type_data →
    ∃ ts, timestamps d = Some ts ∧ list_to_set (codenames d) ⊆ dom ts;
}.

(** The loop of [json_wn]: the codenames marked as old. *)
Fixpoint marked (g : nat → string → bool) (k : nat) (l : list string)
    (m : gmap string value) : gmap string value :=
  match l with
  | [] => m
  | c :: l => marked g (S k) l (if g k c then <[c := old]> m else m)
  end.

(** The values shown by a request that reads all codenames. *)
Definition views (d : socket_data) (clock : nat → float) : list value :=
  imap (λ k c, shown d (clock k) c (default (0, 0)%float (data d !! c)))
    (codenames d).

End pull_notions.

(** ** The push socket *)

Section push_notions.
Import Push.
Context {rt : PyRuntime}.



(** The exception of a raising computation is a [ValueError]. *)
Definition raises_value_error {A} (r : result A) : Prop :=
  ∃ m, r = Raise (Exn ValueError m).
Definition ok_or_value_error {A} (r : result A) : Prop :=
  is_ok r = true ∨ raises_value_error r.

(** One value stands for itself, several values make a list. *)
Definition collapse (converted : list pyval) : pyval :=
  match converted with
  | [single] => single
  | _ => VList converted
  end.

(** The value that a string stands for under a type tag of the protocol:
    the string itself under [str], a boolean under [bool] for the literals
    [True] and [False] and for no other string, and under [int] and [float]
    the number that the interpreter reads.  Under another tag a string
    stands for nothing. *)
Definition stands_for (data_type dat : string) : option pyval :=
  if decide (data_type = "str") then Some (VStr dat)
  else if decide (data_type = "bool") then
    if decide (dat = "True") then Some (VBool true)
    else if decide (dat = "False") then Some (VBool false)
    else None
  else if decide (data_type = "int") then
    match int_of_str dat with inr number => Some number | inl _ => None end
  else if decide (data_type = "float") then
    match float_of_str dat with
    | inr number => Some (VFloat number)
    | inl _ => None
    end
  else None.

(** The codename and the converted values of a well-formed part
    [codename:type:value,value]. *)
Definition field_of (part : string) : option (string * list pyval) :=
  match PyStr.split ":" part with
  | [codename; data_type; data_string] =>
      converted ← mapM (stands_for data_type) (PyStr.split "," data_string);
      Some (codename, converted)
  | _ => None
  end.

(** The fields of a well-formed payload [part;part]. *)
Definition fields_of (payload : string)
    : option (list (string * list pyval)) :=
  mapM field_of (PyStr.split ";" payload).

(** The mapping that a payload writes: each codename with its collapsed
    values, the last field of a codename counting. *)
Definition written (fields : list (string * list pyval))
    : gmap string pyval :=
  list_to_map (reverse (prod_map id collapse <$> fields)).

(** The references of [DATA[port]] point into the heap. *)
Definition valid (st : state) : Prop :=
  is_Some (heap st !! updated (sock st)) ∧
  ∀ l, last (sock st) = Some l → is_Some (heap st !! l).

(** The items of a dictionary pushed with the items [data] once the request
    is handled: what the direct callback left in it, on a socket that has
    one, and [data] on the others. *)
Definition after_callback (d : socket_data) (data : dict) : dict :=
  match action d, callback d with
  | callback_direct, Some callback_function => (callback_function data).2
  | _, _ => data
  end.

(** The direct callback of the socket, if it has one, leaves the dictionary
    it is given as it is. *)
Definition callback_keeps (d : socket_data) : Prop :=
  ∀ data, after_callback d data = data.

(** A value of type [int], [float], [bool] or [str]. *)
Definition simple (v : pyval) : Prop :=
  type_of v ∈ [t_int; t_float; t_bool; t_str].

(** A simple value, or a list that is not empty of simple values of one
    type. *)
Inductive raw_value : pyval → Prop :=
  | raw_scalar v : simple v → raw_value v
  | raw_list first rest :
      simple first → Forall (λ v, type_of v = type_of first) rest →
      raw_value (VList (first :: rest)).

(** The item [name:type:v1,v2] of a value. *)
Definition raw_item (key : string) (value : pyval) : string :=
  match value with
  | VList (first :: rest) =>
      key +:+ ":" +:+ type_name (type_of first) +:+ ":" +:+
      PyStr.join "," (str <$> first :: rest)
  | _ => key +:+ ":" +:+ type_name (type_of value) +:+ ":" +:+ str value
  end.

End push_notions.

(** ** The relay *)

Section relay_notions.
Import WebSocketServer.

(** A source with the values of two codenames, as the poller stores them. *)
Definition mirrored : DATA_t :=
  {[ "host:8000" :=
       Source (VList [VList [VInt 5; VFloat 1]; VList [VInt 5; VFloat 2]])
         (VList [VStr "t1"; VStr "t2"]) (VInt 1) ]}.

End relay_notions.

(** * What the further properties speak of *)

(** ** Pull sockets: ports, commands and writes *)

Section pull_port_notions.
Import Pull.
Context {rt : PyRuntime}.

(** The exception of a constructor on a port that [DATA] has. *)
Definition port_taken (port : Z) : exn :=
  Exn ValueError ("A UDP server already exists on port: " +:+ PyStr.of_Z port).

(** The exception of [DATA[self.port]] when [DATA] has not the port. *)
Definition no_socket (port : Z) : exn := Exn KeyError (PyStr.of_Z port).

(** The commands of [PullUDPHandler._all_values]. *)
Definition all_values_commands : list string :=
  ["raw"; "json"; "raw_wn"; "json_wn"; "codenames_raw"; "codenames_json";
   "name"].

(** Calls of [LiveSocket.set_point] one after the other, the ones that
    raise included. *)
Definition LiveSocket_set_points (DATA : DATA_t) (port : Z)
    (writes : list (string * point)) : DATA_t :=
  foldl (λ DATA write, (LiveSocket_set_point DATA port write.1 write.2).2)
    DATA writes.

(** The point written last for a codename, or the point it had before. *)
Definition last_written (writes : list (string * point)) (before : point)
    (codename : string) : point :=
  match last (filter (λ write, write.1 = codename) writes) with
  | Some write => write.2
  | None => before
  end.

(** What a read at [now] shows for a point dated [t] under the timeout
    [timeout]. *)
Definition served (timeout : option float) (t now : float) (p : point)
    : value :=
  match timeout with
  | Some T => if PrimFloat.ltb T (PrimFloat.sub now t) then old else real p
  | None => real p
  end.

End pull_port_notions.

(** ** The push socket: requests one after the other *)

Section push_request_notions.
Import Push.
Context {rt : PyRuntime}.

(** A socket whose action puts the data in a queue has a queue. *)
Definition queue_ready (st : state) : Prop :=
  action (sock st) ∈ [enqueue; callback_async] → is_Some (queue (sock st)).

(** The dictionary that a request pushes, when it is [json_wn#data] or
    [raw_wn#data] with data that the parser accepts. *)
Definition pushed (request : string) : option dict :=
  if decide (request = "name") then None
  else
    match PyStr.split "#" request with
    | [command; data] =>
        if decide (command = "json_wn") then
          match json_parse data with Ok d => Some d | Raise _ => None end
        else if decide (command = "raw_wn") then
          match raw_parse data with Ok d => Some d | Raise _ => None end
        else None
    | _ => None
    end.




End push_request_notions.

(** * The thread of the asynchronous callback *)

(** [CallBackThread] takes the dictionaries out of the queue of a
    [DataPushSocket] made with the action [callback_async] and calls the
    callback with each.  The queue of the thread is the queue of
    [DATA[port]], one object; the handler of the socket puts the
    dictionaries into it while the thread runs.  The run of the two threads
    is a sequence of events: a request that is handled, one pass of the
    thread through its loop, a call of [stop]. *)
Module CallBack.
Import Push.

(** The thread object, and what it has done: [called] has the arguments of
    the calls of the callback, oldest first, each with the items it had when
    the call was made; [ended] is [None] while [run] has not returned, and
    then how it returned. *)
Record thread := Thread {
  _stop : bool;
  callback : dict → result pyval;
  called : list dict;
  ended : option (result unit);
}.

(** [CallBackThread.__init__] *)
Definition CallBackThread_init (callback : dict → result pyval) : thread :=
  Thread false callback [] None.

(** [CallBackThread.stop] *)
Definition stop (t : thread) : thread :=
  Thread true (callback t) (called t) (ended t).

(** [self.queue.get(True, 1)]: the oldest item, which leaves the queue, or
    [None] for the exception [Queue.Empty] when no item has come after a
    second. *)
Definition get (st : state) : result (option loc * state) :=
  q ← entry "queue" (queue (sock st));
  match q with
  | [] => Ok (None, st)
  | item :: rest => Ok (Some item, State (heap st) (set_queue rest (sock st)))
  end.

(** One pass through the loop of [CallBackThread.run]: the test of
    [_stop], and the body.  An exception of the callback is not caught: it
    leaves [run]. *)
Definition run_pass (t : thread) (st : state) : thread * state :=
  match ended t with
  | Some _ => (t, st)
  | None =>
      if _stop t then (Thread true (callback t) (called t) (Some (Ok ())), st)
      else
        match get st with
        | Raise e => (Thread false (callback t) (called t) (Some (Raise e)), st)
        | Ok (None, st) => (t, st)
        | Ok (Some item, st) =>
            match deref (heap st) item with
            | Raise e =>
                (Thread false (callback t) (called t) (Some (Raise e)), st)
            | Ok d =>
                let called := (called t ++ [d])%list in
                match callback t d with
                | Ok _ => (Thread false (callback t) called None, st)
                | Raise e =>
                    (Thread false (callback t) called (Some (Raise e)), st)
                end
            end
        end
  end.

Inductive event :=
  | request (timestamp : float) (data : string)
  | pass
  | stop_called.

Section run.
Context {rt : PyRuntime}.

(** One event. *)
Definition step (s : thread * state) (ev : event) : thread * state :=
  match ev with
  | request timestamp data => (s.1, (handle s.2 timestamp data).2)
  | pass => run_pass s.1 s.2
  | stop_called => (stop s.1, s.2)
  end.

(** The events one after the other. *)
Definition steps (s : thread * state) (events : list event)
    : thread * state :=
  foldl step s events.

End run.

End CallBack.

(** ** The asynchronous callback *)

Section callback_notions.
Import Push CallBack.
Context {rt : PyRuntime}.

(** The dictionaries pushed by the requests among the events, in the order
    of their arrival. *)
Definition arrived (events : list event) : list dict :=
  omap (λ ev, match ev with
              | request _ data => pushed data
              | _ => None
              end) events.

(** The dictionaries that wait in the queue. *)
Definition waiting (st : state) : option (list dict) :=
  q ← queue (sock st); mapM (λ item, heap st !! item) q.

(** The queue of a socket and the thread that empties it. *)
Record queued (s : thread * state) (pushes : list dict) : Prop := Queued {
  queued_valid : valid s.2;
  queued_action : action (sock s.2) = callback_async;
  queued_fresh :
    ∀ q, queue (sock s.2) = Some q → updated (sock s.2) ∉ q;
  queued_all :
    ∃ pending, waiting s.2 = Some pending ∧
      (called s.1 ++ pending)%list = pushes;
}.

End callback_notions.

(** ** The relay: look-ups and polls *)

Section relay_lookup_notions.
Import WebSocketServer.
Context {rt : PyRuntime}.

(** The point of a codename in a mirrored source: the point at the position
    that the codename has in the list of the codenames of the source. *)
Definition mirrored_point (known : list string) (points : list pyval)
    (codename : string) : option pyval :=
  position ← fst <$> list_find (λ name, name = codename) known;
  points !! position.

(** What the upstream answers to the datagrams from the [k]-th on: the
    values of [answers], each in a datagram that decodes to it and none of
    them [None], and then nothing, or a datagram for [None]. *)
Definition answers_then_silence (network : network_t) (k : nat)
    (answers : list pyval) : Prop :=
  (∀ i v, answers !! i = Some v →
     v ≠ VNone ∧
     ∃ datagram, network (k + i)%nat = Some datagram ∧
       json_loads datagram = inr v) ∧
  (network (k + List.length answers)%nat = None ∨
   ∃ datagram, network (k + List.length answers)%nat = Some datagram ∧
     json_loads datagram = inr VNone).

End relay_lookup_notions.

(** * The steward of the pollers *)

(** [UDPConnectionSteward] keeps one [UDPConnection] for each source that the
    file [web_sockets.xml] defines.  What is embedded is one check of the
    connections, that is the body of the [if] in the loop of [run], with the
    four methods it calls.  The file is given by what [XML.parse] makes of
    it, the elements of its root having a text; [is_alive ip_port] is what
    [is_alive()] answers for the thread of a connection; the iteration over
    a set or over the items of a dictionary follows [order], which the
    interpreter chooses.  The pollers run in threads of their own and assign
    [DATA[ip_port]['data']] meanwhile: the steward reads none of it. *)
Module Steward.
Import WebSocketServer.

(** The thread object of the steward. *)
Record steward := Steward {
  _stop : bool;
  update_interval : Z;
  main_interval : Z;
  udp_definitions : gset string;
  udp_connections : gmap string connection;
}.

Definition set_definitions (definitions : gset string) (s : steward)
    : steward :=
  Steward (_stop s) (update_interval s) (main_interval s) definitions
    (udp_connections s).
Definition set_connections (connections : gmap string connection)
    (s : steward) : steward :=
  Steward (_stop s) (update_interval s) (main_interval s)
    (udp_definitions s) connections.

(** [UDPConnectionSteward.__init__] *)
Definition UDPConnectionSteward_init : steward := Steward false 300 1 ∅ ∅.

(** What [XML.parse('web_sockets.xml')] gives: the texts of the elements of
    the root, the exception [XML.ParseError], or another exception (the file
    cannot be read). *)
Inductive xml_file :=
  | xml_tree (texts : list string)
  | xml_parse_error
  | xml_raises (e : exn).

(** [for a in l: body] on a state that is kept when the body raises. *)
Fixpoint for_each_in {A St} (body : St → A → result unit * St) (s : St)
    (l : list A) : result unit * St :=
  match l with
  | [] => (Ok (), s)
  | a :: rest =>
      match body s a with
      | (Ok _, s) => for_each_in body s rest
      | (Raise e, s) => (Raise e, s)
      end
  end.

(** [del d[key]] *)
Definition del {V} (d : gmap string V) (key : string)
    : result (gmap string V) :=
  match d !! key with
  | Some _ => Ok (delete key d)
  | None => Raise (Exn KeyError key)
  end.

(** [2 * v] *)
Definition twice (v : pyval) : result pyval :=
  match v with
  | VBool b => Ok (VInt (if b then 2 else 0))
  | VInt z => Ok (VInt (2 * z))
  | VLong z => Ok (VLong (2 * z))
  | VFloat f => Ok (VFloat (PrimFloat.mul 2 f))
  | VStr s => Ok (VStr (s +:+ s))
  | VList l => Ok (VList (l ++ l))
  | VNone | VDict _ =>
      Raise (Exn TypeError
        ("unsupported operand type(s) for *: 'int' and '" +:+
         Push.type_name (Push.type_of v) +:+ "'"))
  end.

Section steward.
Context {rt : PyRuntime}.
Context (order : gset string → list string).

(** [_update_udp_definitions]: the set is emptied once the file is parsed;
    [XML.ParseError] is caught. *)
Definition _update_udp_definitions (file : xml_file) (s : steward)
    : result steward :=
  match file with
  | xml_tree texts =>
      Ok (set_definitions
            (foldl (λ definitions text, {[text]} ∪ definitions) ∅ texts) s)
  | xml_parse_error => Ok s
  | xml_raises e => Raise e
  end.

(** [_delete_dead_connections] *)
Definition _delete_dead_connections (is_alive : string → bool)
    (w : steward * DATA_t) : result unit * (steward * DATA_t) :=
  for_each_in (λ '(s, DATA) ip_port,
      if is_alive ip_port then (Ok (), (s, DATA))
      else
        match del (udp_connections s) ip_port with
        | Raise e => (Raise e, (s, DATA))
        | Ok connections =>
            let s := set_connections connections s in
            match del DATA ip_port with
            | Raise e => (Raise e, (s, DATA))
            | Ok DATA => (Ok (), (s, DATA))
            end
        end) w (order (dom (udp_connections w.1))).

(** [_delete_removed_connections] *)
Definition _delete_removed_connections (removed_connections : gset string)
    (w : steward * DATA_t) : result unit * (steward * DATA_t) :=
  for_each_in (λ '(s, DATA) ip_port,
      match getitem DATA ip_port with
      | Raise e => (Raise e, (s, DATA))
      | Ok source =>
          let sane := sane_interval source in
          match getitem (udp_connections s) ip_port with
          | Raise e => (Raise e, (s, DATA))
          | Ok connection =>
              let s :=
                set_connections
                  (<[ip_port := stop connection]> (udp_connections s)) s in
              match twice sane ≫= sleep with
              | Raise e => (Raise e, (s, DATA))
              | Ok _ =>
                  match del (udp_connections s) ip_port with
                  | Raise e => (Raise e, (s, DATA))
                  | Ok connections =>
                      let s := set_connections connections s in
                      match del DATA ip_port with
                      | Raise e => (Raise e, (s, DATA))
                      | Ok DATA => (Ok (), (s, DATA))
                      end
                  end
              end
          end
      end) w (order removed_connections).

(** [_add_new_connections]; [upstream ip_port] is what the source answers
    to the new connection. *)
Definition _add_new_connections (upstream : string → network_t)
    (new_connections : gset string) (w : steward * DATA_t)
    : result unit * (steward * DATA_t) :=
  for_each_in (λ '(s, DATA) ip_port,
      let DATA := <[ip_port := Source VNone VNone VNone]> DATA in
      match UDPConnection_init (upstream ip_port) DATA ip_port with
      | (Raise e, DATA) => (Raise e, (s, DATA))
      | (Ok connection, DATA) =>
          (Ok (),
           (set_connections (<[ip_port := connection]> (udp_connections s)) s,
            DATA))
      end) w (order new_connections).

(** One check of the connections, as [run] makes it when the update
    interval has passed. *)
Definition check (is_alive : string → bool) (file : xml_file)
    (upstream : string → network_t) (w : steward * DATA_t)
    : result unit * (steward * DATA_t) :=
  match _delete_dead_connections is_alive w with
  | (Raise e, w) => (Raise e, w)
  | (Ok _, (s, DATA)) =>
      match _update_udp_definitions file s with
      | Raise e => (Raise e, (s, DATA))
      | Ok s =>
          let udp_connection_keys := dom (udp_connections s) in
          let add := udp_definitions s ∖ udp_connection_keys in
          let delete := udp_connection_keys ∖ udp_definitions s in
          match _delete_removed_connections delete (s, DATA) with
          | (Raise e, w) => (Raise e, w)
          | (Ok _, w) => _add_new_connections upstream add w
          end
      end
  end.

End steward.

End Steward.

(** ** The steward *)

Section steward_notions.
Import WebSocketServer Steward.

(** An iteration over a set meets each element once. *)
Definition iterates (order : gset string → list string) : Prop :=
  ∀ X, order X ≡ₚ elements X.

(** There is a connection and an entry of [DATA] for each of the sources
    defined, and for no other. *)
Definition in_step (w : steward * DATA_t) : Prop :=
  dom (udp_connections w.1) = udp_definitions w.1 ∧
  dom w.2 = udp_definitions w.1.

End steward_notions.

(** ** Pull sockets as they are made *)

Section made_notions.
Import Pull.
Context {rt : PyRuntime}.

(** The timeout that the argument [timeouts] has for the codename at a
    position. *)
Definition timeout_at (timeouts : timeouts_arg) (position : nat)
    : option float :=
  match timeouts with
  | timeouts_single timeout => timeout
  | timeouts_list l => mjoin (l !! position)
  end.

(** A socket as its constructor leaves it: with the name and the codenames
    given, the default point for each codename, and for each codename the
    timeout at its position. *)
Definition made_with (d : socket_data) (name : string) (cs : list string)
    (dx dy : float) (timeouts : timeouts_arg) : Prop :=
  Pull.name d = name ∧ codenames d = cs ∧
  (∀ c, c ∈ cs → data d !! c = Some (dx, dy)) ∧
  ∀ position c, cs !! position = Some c →
    configured_timeout d c = timeout_at timeouts position.

(** The conditions under which a pull socket can be made. *)
Definition can_be_made (DATA : DATA_t) (cs : list string) (port : Z)
    (timeouts : timeouts_arg) (bind_error : option Z) : Prop :=
  DATA !! port = None ∧ arity_ok timeouts cs ∧ NoDup cs ∧
  Forall allowed cs ∧ bind_error = None.

End made_notions.

(** ** Values that the raw format carries *)

Section readable_notions.
Import Push.
Context {rt : PyRuntime}.

(** A string without any of the separators of the raw format. *)
Definition clean (s : string) : Prop :=
  ∀ c, c ∈ [","; ";"; ":"]%char → PyStr.count c s = 0%nat.

(** A value of a simple type whose string has no separator and is
    converted back to the value by the conversion of its type. *)
Definition readable (v : pyval) : Prop :=
  simple v ∧ clean (str v) ∧
  ∃ type_function,
    TYPE_FROM_STRING (type_name (type_of v)) = Some type_function ∧
    type_function (str v) = Ok v.

(** A readable value, or a list of two or more readable values of one
    type. *)
Inductive carried : pyval → Prop :=
  | carried_scalar v : readable v → carried v
  | carried_list first second rest :
      Forall readable (first :: second :: rest) →
      Forall (λ v, type_of v = type_of first) (second :: rest) →
      carried (VList (first :: second :: rest)).

End readable_notions.

(** * Properties *)

(** ** Strings *)

Section strings.
Implicit Types (c : ascii) (s : string).

Lemma split_not_nil c s : PyStr.split c s ≠ [].
Proof. induction s as [|a s IH]; simpl; repeat case_match; done. Qed.

Lemma split_length c s :
  List.length (PyStr.split c s) = S (PyStr.count c s).
Proof.
  induction s as [|a s IH]; simpl; [done|].
  destruct (decide (a = c)); simpl; [by rewrite IH|].
  destruct (PyStr.split c s); simpl in *; done.
Qed.

Lemma split_none c s : PyStr.count c s = 0%nat → PyStr.split c s = [s].
Proof.
  induction s as [|a s IH]; simpl; [done|].
  destruct (decide (a = c)); [done|]. intros Hc. by rewrite IH.
Qed.

Lemma split_app c s1 s2 :
  PyStr.count c s1 = 0%nat →
  PyStr.split c (s1 +:+ String c s2) = s1 :: PyStr.split c s2.
Proof.
  induction s1 as [|a s1 IH]; simpl.
  - intros _. by rewrite decide_True.
  - destruct (decide (a = c)); [done|]. intros Hc. by rewrite IH.
Qed.

Lemma contains_count c s :
  PyStr.contains c s = false ↔ PyStr.count c s = 0%nat.
Proof.
  induction s as [|a s IH]; simpl; [done|].
  destruct (decide (a = c)); [done|]. by rewrite IH.
Qed.

Lemma contains_app c s1 s2 :
  PyStr.contains c (s1 +:+ s2) = PyStr.contains c s1 || PyStr.contains c s2.
Proof.
  induction s1 as [|a s1 IH]; simpl; [done|]. by destruct (decide (a = c)).
Qed.

End strings.

(** ** Construction of a pull socket *)

Section construction.
Import Pull.

Lemma check_codename_ok codenames name :
  check_codename codenames name = Ok () ↔
  (count_occ string_dec codenames name ≤ 1)%nat ∧ allowed name.
Proof.
  unfold check_codename. destruct (decide _) as [Hdup|Hdup].
  { split; [done|]. intros [? _]. lia. }
  destruct (find _ BAD_CHARS) as [char|] eqn:Hfind.
  - apply find_some in Hfind as [Hin Hc]. split; [done|].
    intros [_ Hall]. apply list_elem_of_In, Hall in Hin. congruence.
  - split; [|done]. intros _. split; [lia|].
    intros char Hin%list_elem_of_In. by apply (find_none _ _ Hfind).
Qed.

Lemma init_points_ok cs dx dy it pairs d :
  (init_points cs dx dy it pairs d).1 = Ok () ↔
  Forall (λ p, check_codename cs p.1 = Ok ()) pairs.
Proof.
  revert d. induction pairs as [|[name timeout] pairs IH]; intros d; simpl.
  { split; [constructor|done]. }
  rewrite Forall_cons. simpl.
  destruct (check_codename cs name) as [[]|e]; simpl.
  - rewrite IH. naive_solver.
  - naive_solver.
Qed.

(** What a run of the loop that does not raise leaves in [DATA[port]]. *)
Lemma init_points_data cs dx dy it pairs d :
  (init_points cs dx dy it pairs d).1 = Ok () →
  let d' := (init_points cs dx dy it pairs d).2 in
  codenames d' = codenames d ∧ name d' = name d ∧ type d' = type d ∧
  timestamps d' = timestamps d ∧
  dom (data d') = list_to_set pairs.*1 ∪ dom (data d) ∧
  (∀ c p, data d' !! c = Some p →
     data d !! c = Some p ∨ p = (dx, dy)) ∧
  match timeouts d with
  | None => timeouts d' = None
  | Some ts =>
      ∃ ts', timeouts d' = Some ts' ∧
        dom ts' = (if it then list_to_set pairs.*1 else ∅) ∪ dom ts
  end.
Proof.
  revert d. induction pairs as [|[name timeout] pairs IH]; intros d; simpl.
  { intros _. repeat split; [set_solver|naive_solver|].
    destruct (timeouts d) as [ts|]; [|done]. exists ts.
    split; [done|]. destruct it; set_solver. }
  destruct (check_codename cs name) as [[]|e]; [|done].
  intros Hok. specialize (IH _ Hok). simpl in IH.
  destruct IH as (Hc & Hn & Hty & Hts & Hdom & Hval & Hto).
  rewrite Hc, Hn, Hty, Hts, Hdom.
  split; [by destruct it|]. split; [by destruct it|].
  split; [by destruct it|]. split; [by destruct it|split; [|split]].
  - destruct it; simpl; rewrite dom_insert_L; set_solver.
  - intros c p Hp. destruct (Hval _ _ Hp) as [Hd|]; [|by right].
    assert (data (set_data <[name:=(dx, dy)]> d) !! c = Some p) as Hd'.
    { by destruct it. }
    simpl in Hd'. apply lookup_insert_Some in Hd'. naive_solver.
  - destruct it; simpl in *.
    + destruct (timeouts d) as [ts|]; simpl in *; [|done].
      destruct Hto as (ts' & -> & Hdom'). exists ts'. split; [done|].
      rewrite Hdom', dom_insert_L. set_solver.
    + destruct (timeouts d) as [ts|]; simpl in *; [|done].
      destruct Hto as (ts' & -> & Hdom'). by exists ts'.
Qed.

Lemma zip_fst_replicate {A} (cs : list string) (x : A) :
  (zip cs (replicate (List.length cs) x)).*1 = cs.
Proof. apply fst_zip. by rewrite length_replicate. Qed.

Lemma NoDup_count (cs : list string) :
  NoDup cs ↔ Forall (λ c, count_occ string_dec cs c ≤ 1)%nat cs.
Proof.
  rewrite NoDup_ListNoDup, (List.NoDup_count_occ string_dec), Forall_forall.
  split; [naive_solver|]. intros Hall c.
  destruct (decide (c ∈ cs)) as [Hin|Hin]; [by apply Hall|].
  rewrite list_elem_of_In in Hin.
  apply (count_occ_not_In string_dec) in Hin. lia.
Qed.

(** [CommonDataPullSocket.__init__] returns without an exception exactly
    when the port is free, a list of timeouts has the right length, the
    codenames are pairwise different and without [BAD_CHARS], and the UDP
    server can be bound. *)
Lemma CommonDataPullSocket_init_succeeds
    DATA name cs port dx dy timeouts it bind_error :
  (CommonDataPullSocket_init DATA name cs port dx dy timeouts it
     bind_error).1 = Ok () ↔
  DATA !! port = None ∧ arity_ok timeouts cs ∧ NoDup cs ∧
  Forall allowed cs ∧ bind_error = None.
Proof.
  unfold CommonDataPullSocket_init.
  destruct (decide (is_Some (DATA !! port))) as [Hport|Hport].
  { simpl. split; [done|]. intros [Hnone _]. rewrite Hnone in Hport.
    by destruct Hport. }
  apply eq_None_not_Some in Hport.
  assert (∀ l : list (option float),
    List.length l = List.length cs →
    (let '(r, d) := init_points cs dx dy it (zip cs l)
        (if it then set_timeouts (Some ∅)
                      (SocketData cs ∅ name None None None None None)
         else SocketData cs ∅ name None None None None None) in
     match r with
     | Ok _ =>
         match bind_error with
         | Some errno =>
             if decide (errno = 98)
             then (Raise (Exn PortStillReserved PortStillReserved_message),
                   <[port:=d]> DATA)
             else (Raise (Exn SocketError (PyStr.of_Z errno)),
                   <[port:=d]> DATA)
         | None => (Ok (), <[port:=d]> DATA)
         end
     | Raise e => (Raise e, <[port:=d]> DATA)
     end).1 = Ok () ↔
    NoDup cs ∧ Forall allowed cs ∧ bind_error = None) as Hloop.
  { intros l Hlen.
    pose proof (init_points_ok cs dx dy it (zip cs l)
      (if it then set_timeouts (Some ∅)
                    (SocketData cs ∅ name None None None None None)
       else SocketData cs ∅ name None None None None None)) as Hok.
    destruct (init_points _ _ _ _ _ _) as [r d]. simpl in Hok.
    assert (Forall (λ p : string * option float,
                      check_codename cs p.1 = Ok ()) (zip cs l) ↔
            NoDup cs ∧ Forall allowed cs) as Hall.
    { rewrite <-(Forall_fmap fst (λ c, check_codename cs c = Ok ())).
      rewrite fst_zip by lia. rewrite NoDup_count, <-Forall_and.
      apply Forall_iff. intros c. apply check_codename_ok. }
    destruct r as [[]|e]; simpl.
    - destruct bind_error as [errno|]; [|naive_solver].
      destruct (decide (errno = 98)); naive_solver.
    - naive_solver. }
  destruct timeouts as [timeout|l]; simpl.
  - rewrite (Hloop _ (length_replicate _ _)). naive_solver.
  - destruct (decide (List.length l ≠ List.length cs)) as [Hlen|Hlen].
    + simpl. naive_solver.
    + apply dec_stable in Hlen. rewrite (Hloop _ Hlen). naive_solver.
Qed.

End construction.

(** ** The keys of [data] *)

Section keys.
Import Pull.

(** What [CommonDataPullSocket.__init__] leaves in [DATA] when it returns. *)
Lemma CommonDataPullSocket_init_data
    DATA name cs port dx dy tos it bind_error DATA' :
  CommonDataPullSocket_init DATA name cs port dx dy tos it bind_error
    = (Ok (), DATA') →
  ∃ d, DATA' = <[port := d]> DATA ∧ DATA !! port = None ∧
    codenames d = cs ∧ NoDup cs ∧
    dom (data d) = list_to_set cs ∧ type d = None ∧ timestamps d = None ∧
    (∀ c p, data d !! c = Some p → p = (dx, dy)) ∧
    if it then ∃ ts, timeouts d = Some ts ∧ dom ts = list_to_set cs
    else timeouts d = None.
Proof.
  intros Hinit.
  assert ((CommonDataPullSocket_init DATA name cs port dx dy tos it
             bind_error).1 = Ok ()) as Hok by (by rewrite Hinit).
  apply CommonDataPullSocket_init_succeeds in Hok
    as (Hport & Harity & Hnodup & _ & ->).
  revert Hinit. unfold CommonDataPullSocket_init.
  rewrite decide_False by (rewrite Hport; by intros []).
  set (d0 := if it then set_timeouts (Some ∅) _ else _).
  assert (∀ l : list (option float),
    List.length l = List.length cs →
    (let '(r, d) := init_points cs dx dy it (zip cs l) d0 in
     match r with
     | Ok _ => (Ok (), <[port:=d]> DATA)
     | Raise e => (Raise e, <[port:=d]> DATA)
     end) = (Ok (), DATA') →
    ∃ d, DATA' = <[port := d]> DATA ∧ DATA !! port = None ∧
      codenames d = cs ∧ NoDup cs ∧
      dom (data d) = list_to_set cs ∧ type d = None ∧ timestamps d = None ∧
      (∀ c p, data d !! c = Some p → p = (dx, dy)) ∧
      if it then ∃ ts, timeouts d = Some ts ∧ dom ts = list_to_set cs
      else timeouts d = None) as Hloop.
  { intros l Hlen.
    pose proof (init_points_data cs dx dy it (zip cs l) d0) as Hdata.
    destruct (init_points _ _ _ _ _ _) as [r d]. simpl in Hdata.
    destruct r as [[]|e]; [|done]. intros [= <-].
    destruct (Hdata eq_refl) as (Hc & _ & Hty & Hts & Hdom & Hval & Hto).
    rewrite fst_zip in Hdom, Hto by lia.
    exists d. subst d0. destruct it; simpl in *.
    - destruct Hto as (ts' & -> & Hdom').
      repeat split; try done; [set_solver| |exists ts'; set_solver].
      intros c p Hp. destruct (Hval _ _ Hp) as [Hd|]; [|done].
      by rewrite lookup_empty in Hd.
    - repeat split; try done; [set_solver|].
      intros c p Hp. destruct (Hval _ _ Hp) as [Hd|]; [|done].
      by rewrite lookup_empty in Hd. }
  destruct tos as [timeout|l]; simpl in *.
  - apply Hloop, length_replicate.
  - rewrite decide_False by (intros Hne; by apply Hne). by apply Hloop.
Qed.

(** After each of the three constructors the keys of [data] are the
    codenames the socket was made with. *)
Lemma DateDataPullSocket_init_keys
    DATA name cs port dx dy tos bind_error DATA' :
  DateDataPullSocket_init DATA name cs port dx dy tos bind_error
    = (Ok (), DATA') →
  ∃ d, DATA' !! port = Some d ∧ codenames d = cs ∧ keys_are_channels d.
Proof.
  unfold DateDataPullSocket_init.
  destruct (CommonDataPullSocket_init _ _ _ _ _ _ _ _ _) as [[[]|e] D]
    eqn:Hinit; [|done].
  intros [= <-].
  apply CommonDataPullSocket_init_data in Hinit
    as (d & -> & _ & Hc & _ & Hdom & _).
  exists (set_type type_date d). unfold update, keys_are_channels.
  rewrite lookup_alter_eq, lookup_insert_eq. simpl. by rewrite Hc.
Qed.

Lemma DataPullSocket_init_keys
    DATA name cs port dx dy tos bind_error DATA' :
  DataPullSocket_init DATA name cs port dx dy tos bind_error
    = (Ok (), DATA') →
  ∃ d, DATA' !! port = Some d ∧ codenames d = cs ∧ keys_are_channels d.
Proof.
  unfold DataPullSocket_init.
  destruct (CommonDataPullSocket_init _ _ _ _ _ _ _ _ _) as [[[]|e] D]
    eqn:Hinit; [|done].
  intros [= <-].
  apply CommonDataPullSocket_init_data in Hinit
    as (d & -> & _ & Hc & _ & Hdom & _).
  eexists. unfold update, keys_are_channels.
  rewrite !lookup_alter_eq, lookup_insert_eq. simpl.
  split; [done|]. simpl. by rewrite Hc.
Qed.

Lemma LiveSocket_init_keys
    DATA name cs sane_interval port dx dy bind_error DATA' :
  LiveSocket_init DATA name cs sane_interval port dx dy bind_error
    = (Ok (), DATA') →
  ∃ d, DATA' !! port = Some d ∧ codenames d = cs ∧ keys_are_channels d.
Proof.
  unfold LiveSocket_init.
  destruct (CommonDataPullSocket_init _ _ _ _ _ _ _ _ _) as [[[]|e] D]
    eqn:Hinit; [|done].
  intros [= <-].
  apply CommonDataPullSocket_init_data in Hinit
    as (d & -> & _ & Hc & _ & Hdom & _).
  eexists. unfold update, keys_are_channels.
  rewrite !lookup_alter_eq, lookup_insert_eq. simpl.
  split; [done|]. simpl. by rewrite Hc.
Qed.

(** [LiveSocket.set_point] keeps the keys, whatever the codename. *)
Lemma LiveSocket_set_point_keys {rt : PyRuntime} DATA port codename point d :
  DATA !! port = Some d → keys_are_channels d →
  ∃ d', (LiveSocket_set_point DATA port codename point).2 !! port = Some d' ∧
    codenames d' = codenames d ∧ keys_are_channels d'.
Proof.
  intros Hd Hkeys. unfold LiveSocket_set_point, socket. rewrite Hd.
  destruct (decide (codename ∉ codenames d)) as [Hin|Hin]; simpl.
  { by exists d. }
  apply dec_stable in Hin. exists (set_data <[codename := point]> d).
  unfold update, keys_are_channels in *. rewrite lookup_alter_eq, Hd. simpl.
  split; [done|]. split; [done|]. rewrite dom_insert_L, Hkeys. set_solver.
Qed.

(** The two other [set_point]s store the point under any codename. *)
Lemma DateDataPullSocket_set_point_data DATA port codename point d :
  DATA !! port = Some d →
  DateDataPullSocket_set_point DATA port codename point =
    (Ok (), <[port := set_data <[codename := point]> d]> DATA).
Proof.
  intros Hd. unfold DateDataPullSocket_set_point, socket, update.
  rewrite Hd. f_equal. apply map_eq. intros i.
  destruct (decide (i = port)) as [->|].
  - by rewrite lookup_alter_eq, lookup_insert_eq, Hd.
  - by rewrite lookup_alter_ne, lookup_insert_ne.
Qed.

End keys.

Section claims_construction.
Import Pull.

(** C4: [CommonDataPullSocket.__init__] is documented to refuse codenames
    with any of [#,;:] and SPACE, but [BAD_CHARS] has no space: a
    [DateDataPullSocket] with the codename ['a b'] is made without an
    exception.  (The other refusals of the claim hold, see
    [CommonDataPullSocket_init_succeeds].) *)
Theorem codename_with_space_is_accepted :
  (DateDataPullSocket_init ∅ "socket" ["a b"] 9000 0 47
     (timeouts_single None) None).1 = Ok () ∧
  PyStr.contains " " "a b" = true.
Proof. split; reflexivity. Qed.

(** C2: [DateDataPullSocket.set_point] and [DataPullSocket.set_point] store
    the point under any codename: for a codename that is not one of the
    channels they add a key to the values mapping, whose keys are then no
    longer the channels.  ([LiveSocket.set_point] checks the codename, see
    [LiveSocket_set_point_keys].) *)
Theorem set_point_adds_a_key DATA port d now codename point timestamp :
  DATA !! port = Some d → keys_are_channels d → codename ∉ codenames d →
  (∃ d',
     DateDataPullSocket_set_point DATA port codename point
       = (Ok (), <[port := d']> DATA) ∧
     codenames d' = codenames d ∧
     dom (data d') = {[codename]} ∪ dom (data d) ∧
     ¬ keys_are_channels d') ∧
  (is_Some (timestamps d) →
   ∃ d',
     DataPullSocket_set_point DATA port now codename point timestamp
       = (Ok (), <[port := d']> DATA) ∧
     codenames d' = codenames d ∧
     dom (data d') = {[codename]} ∪ dom (data d) ∧
     ¬ keys_are_channels d').
Proof.
  intros Hd Hkeys Hnew.
  assert (∀ d', codenames d' = codenames d →
            dom (data d') = {[codename]} ∪ dom (data d) →
            ¬ keys_are_channels d') as Hbroken.
  { unfold keys_are_channels. intros d' Hc Hdom. rewrite Hc, Hdom.
    intros Heq. apply Hnew.
    apply (elem_of_list_to_set (C := gset string)). rewrite <-Heq.
    set_solver. }
  split.
  - exists (set_data <[codename := point]> d).
    rewrite (DateDataPullSocket_set_point_data _ _ _ _ _ Hd). simpl.
    split; [done|]. split; [done|].
    split; [apply dom_insert_L|]. apply Hbroken; [done|apply dom_insert_L].
  - intros [ts Hts].
    exists (set_timestamps (<[codename := default now timestamp]> ts)
              (set_data <[codename := point]> d)).
    split; [|split; [done|split; [apply dom_insert_L|]]].
    + unfold DataPullSocket_set_point, socket, update. rewrite Hd.
      rewrite lookup_alter_eq, Hd. simpl. rewrite Hts. simpl.
      f_equal. apply map_eq. intros i. destruct (decide (i = port)) as [->|].
      * by rewrite !lookup_alter_eq, lookup_insert_eq, Hd.
      * by rewrite !lookup_alter_ne, lookup_insert_ne.
    + apply Hbroken; [done|apply dom_insert_L].
Qed.

(** A socket made with the channel [a], and a point set for [b]. *)
Lemma set_point_adds_a_key_witness :
  let made :=
    (DateDataPullSocket_init ∅ "socket" ["a"] 9000 0 47
       (timeouts_single None) None).2 in
  let after := (DateDataPullSocket_set_point made 9000 "b" (1, 2)%float).2 in
  ∃ d', after !! 9000 = Some d' ∧ codenames d' = ["a"] ∧
    dom (data d') = {["b"; "a"]}.
Proof.
  intros made after.
  assert (DateDataPullSocket_init ∅ "socket" ["a"] 9000 0 47
            (timeouts_single None) None = (Ok (), made))
    as Hmade by (vm_compute; reflexivity).
  destruct (DateDataPullSocket_init_keys _ _ _ _ _ _ _ _ _ Hmade)
    as (d & Hd & Hc & Hkeys).
  assert ("b" ∉ codenames d) as Hnew.
  { rewrite Hc. intros Hin. apply list_elem_of_singleton in Hin.
    discriminate Hin. }
  destruct (proj1 (set_point_adds_a_key made 9000 d 0 "b" (1, 2)%float None
                     Hd Hkeys Hnew))
    as (d' & Hset & Hc' & Hdom & _).
  exists d'. subst after. rewrite Hset. simpl.
  split; [apply lookup_insert_eq|]. split; [by rewrite Hc', Hc|].
  rewrite Hdom, Hkeys, Hc. simpl. by rewrite (right_id_L ∅ (∪)).
Defined.

End claims_construction.

(** ** Stale data *)

Section staleness.
Import Pull.
Context {rt : PyRuntime}.

Lemma timed_configured d codename T :
  timed d → configured_timeout d codename = Some T →
  codename ∈ codenames d ∧ is_Some (data d !! codename).
Proof.
  intros [_ (ts & Hts & Hdom) Hch _ _]. unfold configured_timeout.
  rewrite Hts. simpl. intros Hc.
  assert (codename ∈ dom ts) as Hin.
  { apply elem_of_dom. destruct (ts !! codename); [done|discriminate]. }
  apply Hdom in Hin. split; [set_solver|].
  apply elem_of_dom. set_solver.
Qed.

Lemma old_data_stale DATA port d now codename :
  DATA !! port = Some d → timed d →
  _old_data DATA port now codename = Ok (stale d now codename).
Proof.
  intros Hport Htimed. unfold stale, _old_data, socket. rewrite Hport.
  simpl.
  destruct (configured_timeout d codename) as [T|] eqn:Hconf.
  - destruct (timed_configured _ _ _ Htimed Hconf) as [Hin [p Hp]].
    destruct Htimed as [Hty (ts & Hts & Hdom) Hch _ Hstamps].
    unfold configured_timeout in Hconf. rewrite Hts in Hconf.
    simpl in Hconf. unfold reference_time.
    destruct Hty as [Hty|Hty]; rewrite Hty, Hts; simpl; rewrite Hconf; simpl.
    + unfold getitem. by rewrite Hp.
    + destruct (Hstamps Hty) as (tss & Htss & Hsub). rewrite Htss. simpl.
      assert (is_Some (tss !! codename)) as [t Ht].
      { apply elem_of_dom. set_solver. }
      unfold getitem. by rewrite Ht.
  - destruct Htimed as [Hty (ts & Hts & Hdom) _ _ _].
    unfold configured_timeout in Hconf. rewrite Hts in Hconf.
    simpl in Hconf.
    destruct Hty as [Hty|Hty]; rewrite Hty, Hts; simpl; by rewrite Hconf.
Qed.

(** A loop that appends one item for each element. *)
Lemma for_each_collect {A B} (body : nat → list B → A → result (list B))
    (g : nat → A → B) k acc l :
  (∀ i a acc, l !! i = Some a →
     body (k + i)%nat acc a = Ok (acc ++ [g (k + i)%nat a])%list) →
  for_each body k acc l = Ok (acc ++ imap (λ i, g (k + i)%nat) l)%list.
Proof.
  revert k acc. induction l as [|a l IH]; intros k acc Hbody; simpl.
  { by rewrite app_nil_r. }
  pose proof (Hbody 0%nat a acc eq_refl) as H0.
  rewrite Nat.add_0_r in H0. rewrite H0. simpl.
  rewrite IH.
  - rewrite <-(assoc_L app). simpl. rewrite Nat.add_0_r. do 3 f_equal.
    apply imap_ext. intros i x _. simpl. f_equal. lia.
  - intros i x acc' Hi. replace (S k + i)%nat with (k + S i)%nat by lia.
    by apply Hbody.
Qed.

Lemma for_each_marked
    (body : nat → gmap string value → string → result (gmap string value))
    (g : nat → string → bool) k m l :
  (∀ i c m, l !! i = Some c →
     body (k + i)%nat m c =
       Ok (if g (k + i)%nat c then <[c := old]> m else m)) →
  for_each body k m l = Ok (marked g k l m).
Proof.
  revert k m. induction l as [|c l IH]; intros k m Hbody; simpl; [done|].
  pose proof (Hbody 0%nat c m eq_refl) as H0.
  rewrite Nat.add_0_r in H0. rewrite H0. simpl. apply IH.
  intros i x m' Hi. replace (S k + i)%nat with (k + S i)%nat by lia.
  by apply Hbody.
Qed.

Lemma marked_notin g k l m c : c ∉ l → marked g k l m !! c = m !! c.
Proof.
  revert k m. induction l as [|x l IH]; intros k m Hc; simpl; [done|].
  apply not_elem_of_cons in Hc as [Hne Hc]. rewrite IH by done.
  destruct (g k x); [|done]. by rewrite lookup_insert_ne.
Qed.

Lemma marked_lookup g k l m i c :
  NoDup l → l !! i = Some c →
  marked g k l m !! c = if g (k + i)%nat c then Some old else m !! c.
Proof.
  revert k m i. induction l as [|x l IH]; intros k m i Hnd Hi; [done|].
  apply NoDup_cons in Hnd as [Hx Hnd]. destruct i as [|i]; simpl in *.
  - injection Hi as ->. rewrite marked_notin, Nat.add_0_r by done.
    destruct (g k c); [|done]. by rewrite lookup_insert_eq.
  - rewrite (IH _ _ i) by done.
    replace (S k + i)%nat with (k + S i)%nat by lia.
    destruct (g (k + S i)%nat c); [done|].
    assert (x ≠ c).
    { intros ->. apply Hx. by eapply list_elem_of_lookup_2. }
    destruct (g k x); [|done]. by rewrite lookup_insert_ne.
Qed.

(** A rendered point has a comma, and [OLD_DATA] has none. *)
Lemma render_old v : render v = OLD_DATA ↔ v = old.
Proof.
  split; [|by intros ->]. destruct v as [p|]; [|done]. simpl.
  unfold format_point. intros Heq.
  assert (PyStr.contains "," OLD_DATA = true) as Habs; [|done].
  rewrite <-Heq, contains_app. simpl. apply orb_true_r.
Qed.

End staleness.

Section reads.
Import Pull.
Context {rt : PyRuntime}.

Lemma timed_channel d k c :
  timed d → codenames d !! k = Some c → ∃ p, data d !! c = Some p.
Proof.
  intros Htimed Hk. apply elem_of_dom, (timed_channels _ Htimed).
  apply elem_of_list_to_set. by eapply list_elem_of_lookup_2.
Qed.

Lemma views_lookup d clock k c :
  timed d → codenames d !! k = Some c →
  views d clock !! k = answer d (clock k) c.
Proof.
  intros Htimed Hk. destruct (timed_channel _ _ _ Htimed Hk) as [p Hp].
  unfold views, answer. rewrite list_lookup_imap, Hk, Hp. simpl.
  by rewrite Hp.
Qed.

Lemma views_length d clock :
  List.length (views d clock) = List.length (codenames d).
Proof. unfold views. by rewrite length_imap. Qed.

Lemma point_of_data DATA port d c p :
  DATA !! port = Some d → data d !! c = Some p → point_of DATA port c = Ok p.
Proof.
  intros Hport Hp. unfold point_of, socket, getitem. rewrite Hport. simpl.
  by rewrite Hp.
Qed.

Lemma all_values_json DATA port d clock :
  DATA !! port = Some d → timed d →
  _all_values DATA port clock "json" = Ok (json_values (views d clock)).
Proof.
  intros Hport Htimed. unfold _all_values, socket. rewrite Hport. simpl.
  erewrite (for_each_collect _
    (λ k c, shown d (clock k) c (default (0, 0)%float (data d !! c)))).
  { done. }
  intros i c acc Hi. simpl.
  destruct (timed_channel _ _ _ Htimed Hi) as [p Hp].
  rewrite (old_data_stale _ _ d), (point_of_data _ _ d c p) by done.
  unfold shown. rewrite Hp. by destruct (stale d (clock i) c).
Qed.

Lemma all_values_raw DATA port d clock :
  DATA !! port = Some d → timed d →
  _all_values DATA port clock "raw" =
    Ok (raw (PyStr.join ";" (render <$> views d clock))).
Proof.
  intros Hport Htimed. unfold _all_values, socket. rewrite Hport. simpl.
  erewrite (for_each_collect _
    (λ k c, render (shown d (clock k) c
                      (default (0, 0)%float (data d !! c))))).
  { simpl. do 3 f_equal. apply list_eq. intros i. unfold views.
    rewrite list_lookup_fmap, !list_lookup_imap.
    by destruct (codenames d !! i). }
  intros i c acc Hi. simpl.
  destruct (timed_channel _ _ _ Htimed Hi) as [p Hp].
  rewrite (old_data_stale _ _ d), (point_of_data _ _ d c p) by done.
  unfold shown. rewrite Hp. by destruct (stale d (clock i) c).
Qed.

Lemma all_values_raw_wn DATA port d clock :
  DATA !! port = Some d → timed d →
  _all_values DATA port clock "raw_wn" =
    Ok (raw (PyStr.join ";"
               (zip_with (λ c v, c +:+ ":" +:+ render v)
                  (codenames d) (views d clock)))).
Proof.
  intros Hport Htimed. unfold _all_values, socket. rewrite Hport. simpl.
  erewrite (for_each_collect _
    (λ k c, c +:+ ":" +:+
            render (shown d (clock k) c
                      (default (0, 0)%float (data d !! c))))).
  { simpl. do 3 f_equal. apply list_eq. intros i. unfold views.
    rewrite lookup_zip_with, !list_lookup_imap.
    by destruct (codenames d !! i). }
  intros i c acc Hi. simpl.
  destruct (timed_channel _ _ _ Htimed Hi) as [p Hp].
  rewrite (old_data_stale _ _ d), (point_of_data _ _ d c p) by done.
  unfold shown. rewrite Hp. by destruct (stale d (clock i) c).
Qed.

Lemma all_values_json_wn DATA port d clock :
  DATA !! port = Some d → timed d →
  ∃ m, _all_values DATA port clock "json_wn" = Ok (json_named m) ∧
    (∀ k c, codenames d !! k = Some c → m !! c = answer d (clock k) c) ∧
    (∀ c, c ∉ codenames d → m !! c = real <$> data d !! c).
Proof.
  intros Hport Htimed.
  exists (marked (λ k c, stale d (clock k) c) 0 (codenames d)
            (real <$> data d)).
  split; [|split].
  - unfold _all_values, socket. rewrite Hport. simpl.
    erewrite (for_each_marked _ (λ k c, stale d (clock k) c)); [done|].
    intros i c m Hi. simpl. by rewrite (old_data_stale _ _ d).
  - intros k c Hk. rewrite (marked_lookup _ _ _ _ k)
      by (done || apply (timed_nodup _ Htimed)).
    unfold answer, shown. simpl. rewrite lookup_fmap.
    destruct (timed_channel _ _ _ Htimed Hk) as [p ->].
    by destruct (stale d (clock k) c).
  - intros c Hc. by rewrite marked_notin, lookup_fmap.
Qed.

Lemma split_command c command :
  PyStr.count "#" c = 0%nat → PyStr.count "#" command = 0%nat →
  PyStr.split "#" (c +:+ String "#" command) = [c; command] ∧
  PyStr.count "#" (c +:+ String "#" command) = 1%nat.
Proof.
  intros Hc Hcommand. rewrite split_app, split_none by done.
  split; [done|]. clear -Hc Hcommand.
  induction c as [|a c IH]; simpl in *.
  - by rewrite Hcommand.
  - destruct (decide (a = "#"%char)); [done|]. by apply IH.
Qed.

Lemma command_for_data DATA port d word command name :
  DATA !! port = Some d →
  command_for DATA port word command name =
    Ok (bool_decide (command = word ∧ is_Some (data d !! name))).
Proof.
  intros Hport. unfold command_for, socket. rewrite Hport.
  destruct (decide (command = word)) as [->|Hne]; simpl.
  - f_equal. apply bool_decide_ext. naive_solver.
  - f_equal. symmetry. apply bool_decide_eq_false. naive_solver.
Qed.

Lemma single_value_raw DATA port d now c p :
  DATA !! port = Some d → timed d →
  data d !! c = Some p → PyStr.count "#" c = 0%nat →
  _single_value DATA port now (c +:+ "#raw")
    = Ok (raw (render (shown d now c p))).
Proof.
  intros Hport Htimed Hp Hc. unfold _single_value.
  destruct (split_command c "raw" Hc eq_refl) as [-> _].
  rewrite (command_for_data _ _ d "raw") by done.
  rewrite (bool_decide_eq_true_2 ("raw" = "raw" ∧ _))
    by (rewrite Hp; eauto).
  simpl.
  rewrite (old_data_stale _ _ d), (point_of_data _ _ d c p) by done.
  unfold shown. by destruct (stale d now c).
Qed.

Lemma single_value_json DATA port d now c p :
  DATA !! port = Some d → timed d →
  data d !! c = Some p → PyStr.count "#" c = 0%nat →
  _single_value DATA port now (c +:+ "#json")
    = Ok (json_value (shown d now c p)).
Proof.
  intros Hport Htimed Hp Hc. unfold _single_value.
  destruct (split_command c "json" Hc eq_refl) as [-> _].
  rewrite !(command_for_data _ _ d) by done.
  rewrite (bool_decide_eq_false_2 ("json" = "raw" ∧ _))
    by (by intros [? _]).
  rewrite (bool_decide_eq_true_2 ("json" = "json" ∧ _))
    by (rewrite Hp; eauto).
  simpl.
  rewrite (old_data_stale _ _ d), (point_of_data _ _ d c p) by done.
  unfold shown. by destruct (stale d now c).
Qed.

(** No command makes the handler of a date or x, y store raise. *)
Lemma handle_never_raises DATA port d clock command :
  DATA !! port = Some d → timed d →
  is_ok (handle DATA port clock command) = true.
Proof.
  intros Hd Htimed. unfold handle.
  destruct (decide (PyStr.count "#" command = 1%nat)) as [Hcount|Hcount].
  - unfold _single_value.
    pose proof (split_length "#" command) as Hlen. rewrite Hcount in Hlen.
    destruct (PyStr.split "#" command) as [|name [|cmd [|]]]; try done.
    rewrite !(command_for_data _ _ d) by done. simpl.
    repeat case_bool_decide; simpl; try done;
      rewrite (old_data_stale _ _ d) by done; simpl;
      destruct (stale d (clock 0%nat) name); try done;
      match goal with H : _ ∧ is_Some _ |- _ => destruct H as [_ [p Hp]] end;
      by rewrite (point_of_data _ _ d name p).
  - destruct (decide (command = "raw")) as [->|?];
      [by rewrite (all_values_raw _ _ d)|].
    destruct (decide (command = "json")) as [->|?];
      [by rewrite (all_values_json _ _ d)|].
    destruct (decide (command = "raw_wn")) as [->|?];
      [by rewrite (all_values_raw_wn _ _ d)|].
    destruct (decide (command = "json_wn")) as [->|?].
    { by destruct (all_values_json_wn _ _ d clock Hd Htimed)
        as (m & -> & _). }
    unfold _all_values, socket. rewrite !decide_False, Hd by done.
    repeat case_decide; done.
Qed.

End reads.

Section timed_stores.
Import Pull.
Context {rt : PyRuntime}.

Lemma DateDataPullSocket_init_timed
    DATA name cs port dx dy tos bind_error DATA' :
  DateDataPullSocket_init DATA name cs port dx dy tos bind_error
    = (Ok (), DATA') →
  ∃ d, DATA' !! port = Some d ∧ timed d.
Proof.
  unfold DateDataPullSocket_init.
  destruct (CommonDataPullSocket_init _ _ _ _ _ _ _ _ _) as [[[]|e] D]
    eqn:Hinit; [|done].
  intros [= <-].
  apply CommonDataPullSocket_init_data in Hinit
    as (d & -> & _ & Hc & Hnd & Hdom & _ & _ & _ & ts & Hts & Hdomts).
  exists (set_type type_date d). unfold update.
  rewrite lookup_alter_eq, lookup_insert_eq. split; [done|].
  split; simpl; rewrite ?Hc; try done.
  - by left.
  - exists ts. by rewrite Hdomts.
  - by rewrite Hdom.
Qed.

Lemma foldl_insert_dom {V} (v : V) (cs : list string) (m : gmap string V) :
  dom (foldl (λ m c, <[c := v]> m) m cs) = list_to_set cs ∪ dom m.
Proof.
  revert m. induction cs as [|c cs IH]; intros m; simpl; [set_solver|].
  rewrite IH, dom_insert_L. set_solver.
Qed.

Lemma DataPullSocket_init_timed
    DATA name cs port dx dy tos bind_error DATA' :
  DataPullSocket_init DATA name cs port dx dy tos bind_error
    = (Ok (), DATA') →
  ∃ d, DATA' !! port = Some d ∧ timed d.
Proof.
  unfold DataPullSocket_init.
  destruct (CommonDataPullSocket_init _ _ _ _ _ _ _ _ _) as [[[]|e] D]
    eqn:Hinit; [|done].
  intros [= <-].
  apply CommonDataPullSocket_init_data in Hinit
    as (d & -> & _ & Hc & Hnd & Hdom & _ & _ & _ & ts & Hts & Hdomts).
  eexists. unfold update.
  rewrite !lookup_alter_eq, lookup_insert_eq. split; [done|].
  split; simpl; rewrite ?Hc; try done.
  - by right.
  - exists ts. by rewrite Hdomts.
  - by rewrite Hdom.
  - intros _. eexists. split; [done|]. rewrite foldl_insert_dom. set_solver.
Qed.

Lemma DateDataPullSocket_set_point_timed DATA port codename point d :
  DATA !! port = Some d → timed d →
  ∃ d', (DateDataPullSocket_set_point DATA port codename point).2 !! port
          = Some d' ∧ timed d'.
Proof.
  intros Hd [Hty Hts Hch Hnd Hstamps].
  rewrite (DateDataPullSocket_set_point_data _ _ _ _ _ Hd). simpl.
  rewrite lookup_insert_eq. eexists. split; [done|].
  split; simpl; try done. rewrite dom_insert_L. set_solver.
Qed.

Lemma DataPullSocket_set_point_timed
    DATA port now codename point timestamp d :
  DATA !! port = Some d → timed d → type d = Some type_data →
  ∃ d', (DataPullSocket_set_point DATA port now codename point
           timestamp).2 !! port = Some d' ∧ timed d'.
Proof.
  intros Hd [Hty Hts Hch Hnd Hstamps] Hdata.
  destruct (Hstamps Hdata) as (ts & Htss & Hsub).
  unfold DataPullSocket_set_point, socket, update. rewrite Hd.
  rewrite lookup_alter_eq, Hd. simpl. rewrite Htss. simpl.
  rewrite !lookup_alter_eq, Hd. simpl. eexists. split; [done|].
  split; simpl; try done.
  - rewrite dom_insert_L. set_solver.
  - intros _. eexists. split; [done|]. rewrite dom_insert_L. set_solver.
Qed.

(** C1: on a date or x, y store, a read shows [OLD_DATA] in place of the
    point of a codename exactly when the codename has a timeout [T] and
    [now - reference_time > T], the reference time being the first
    component of the point in a date store and the timestamp of its last
    [set_point] in an x, y store; a codename without a timeout is never
    stale; and no request makes the handler raise.  [clock k] is the time
    read for the [k]-th codename of the request. *)
Theorem stale_reads DATA port d (clock : nat → float) :
  DATA !! port = Some d → timed d →
  (∀ now c,
     stale d now c = true ↔
     ∃ T t, configured_timeout d c = Some T ∧ reference_time d c = Some t ∧
       PrimFloat.ltb T (PrimFloat.sub now t) = true) ∧
  (∀ now c, configured_timeout d c = None → stale d now c = false) ∧
  (∀ v, render v = OLD_DATA ↔ v = old) ∧
  (∀ command, is_ok (handle DATA port clock command) = true) ∧
  (∀ c p, data d !! c = Some p → PyStr.count "#" c = 0%nat →
     handle DATA port clock (c +:+ "#raw") =
       Ok (raw (render (shown d (clock 0%nat) c p))) ∧
     handle DATA port clock (c +:+ "#json") =
       Ok (json_value (shown d (clock 0%nat) c p))) ∧
  (∃ values,
     List.length values = List.length (codenames d) ∧
     (∀ k c, codenames d !! k = Some c →
        values !! k = answer d (clock k) c) ∧
     handle DATA port clock "json" = Ok (json_values values) ∧
     handle DATA port clock "raw" =
       Ok (raw (PyStr.join ";" (render <$> values))) ∧
     handle DATA port clock "raw_wn" =
       Ok (raw (PyStr.join ";"
                  (zip_with (λ c v, c +:+ ":" +:+ render v)
                     (codenames d) values)))) ∧
  (∃ m,
     handle DATA port clock "json_wn" = Ok (json_named m) ∧
     (∀ k c, codenames d !! k = Some c → m !! c = answer d (clock k) c) ∧
     (∀ c, c ∉ codenames d → m !! c = real <$> data d !! c)).
Proof.
  intros Hd Htimed. split_and!.
  - intros now c. unfold stale. split.
    + destruct (configured_timeout d c) as [T|]; [|done].
      destruct (reference_time d c) as [t|]; [|done]. eauto.
    + intros (T & t & -> & -> & Hlt). done.
  - intros now c Hnone. unfold stale. by rewrite Hnone.
  - apply render_old.
  - intros command. by eapply handle_never_raises.
  - intros c p Hp Hc. unfold handle.
    destruct (split_command c "raw" Hc eq_refl) as [_ Hraw].
    destruct (split_command c "json" Hc eq_refl) as [_ Hjson].
    change (c +:+ String "#" "raw") with (c +:+ "#raw") in Hraw.
    change (c +:+ String "#" "json") with (c +:+ "#json") in Hjson.
    rewrite Hraw, Hjson, !decide_True by done.
    split; [by eapply single_value_raw|by eapply single_value_json].
  - exists (views d clock). unfold handle. simpl.
    split; [apply views_length|].
    split; [intros k c Hk; by apply views_lookup|].
    by rewrite (all_values_json _ _ d), (all_values_raw _ _ d),
      (all_values_raw_wn _ _ d).
  - destruct (all_values_json_wn _ _ d clock Hd Htimed)
      as (m & Hm & Hin & Hout).
    exists m. unfold handle. simpl. by rewrite Hm.
Qed.

End timed_stores.

Section stale_reads_example.
Import Pull.

(** A date store with a timeout of 3 s on [a] and none on [b], both at the
    default point (0, 47), read at time 10. *)
Lemma stale_reads_witness :
  let made :=
    (DateDataPullSocket_init ∅ "socket" ["a"; "b"] 9000 0 47
       (timeouts_list [Some 3%float; None]) None).2 in
  handle (rt := Sample.runtime) made 9000 (λ _, 10%float) "a#raw"
    = Ok (raw "OLD_DATA") ∧
  handle (rt := Sample.runtime) made 9000 (λ _, 10%float) "b#raw"
    = Ok (raw "0.0,47.0").
Proof.
  intros made.
  assert (DateDataPullSocket_init ∅ "socket" ["a"; "b"] 9000 0 47
            (timeouts_list [Some 3%float; None]) None = (Ok (), made))
    as Hmade by (vm_compute; reflexivity).
  destruct (DateDataPullSocket_init_timed _ _ _ _ _ _ _ _ _ Hmade)
    as (d & Hd & Htimed).
  assert (d = SocketData ["a"; "b"]
                (<["a" := (0, 47)%float]> (<["b" := (0, 47)%float]> ∅))
                "socket"
                (Some (<["a" := Some 3%float]> (<["b" := None]> ∅)))
                (Some type_date) None None None) as Heq.
  { vm_compute in Hd. injection Hd as <-. vm_compute. reflexivity. }
  destruct (stale_reads (rt := Sample.runtime) made 9000 d (λ _, 10%float)
              Hd Htimed) as (_ & _ & _ & _ & Hsingle & _).
  subst d. split.
  - exact (proj1 (Hsingle "a" (0, 47)%float eq_refl eq_refl)).
  - exact (proj1 (Hsingle "b" (0, 47)%float eq_refl eq_refl)).
Defined.

End stale_reads_example.

(** ** Malformed pushes *)

Section malformed.
Import Push.
Context {rt : PyRuntime}.

Lemma conversions_raise_value_error data_type type_function dat :
  TYPE_FROM_STRING data_type = Some type_function →
  ok_or_value_error (type_function dat).
Proof.
  unfold TYPE_FROM_STRING, ok_or_value_error, raises_value_error.
  repeat case_decide; intros [= <-].
  - destruct (int_of_str dat); simpl; eauto.
  - destruct (float_of_str dat); simpl; eauto.
  - by left.
  - unfold bool_translate. case_decide; simpl; eauto.
Qed.


Lemma mapM_ok_or_value_error {A B} (f : A → result B) l :
  (∀ x, ok_or_value_error (f x)) → ok_or_value_error (mapM f l).
Proof.
  intros Hf. induction l as [|x l IH]; simpl; [by left|].
  destruct (Hf x) as [Hx|[m Hx]].
  - destruct (f x) as [b|e]; [|done]. simpl.
    destruct IH as [Hl|[m ->]]; [|right; by exists m].
    destruct (mapM f l); [by left|done].
  - rewrite Hx. right. by exists m.
Qed.

Lemma raw_part_ok_or_value_error data_out part :
  ok_or_value_error (raw_part data_out part).
Proof.
  unfold raw_part.
  destruct (PyStr.split ":" part) as [|c [|ty [|vals [|]]]];
    try (right; eexists; done).
  destruct (TYPE_FROM_STRING ty) as [f|] eqn:Hty; [|right; eexists; done].
  destruct (mapM_ok_or_value_error f (PyStr.split "," vals)) as [Hok|[m Hm]].
  { intros x. by eapply conversions_raise_value_error. }
  - destruct (mapM f _); [by left|done].
  - rewrite Hm. right. eexists. done.
Qed.




Lemma count_request command data :
  PyStr.count "#" command = 0%nat →
  PyStr.count "#" (command +:+ String "#" data) = S (PyStr.count "#" data).
Proof.
  induction command as [|a command IH]; simpl; [done|].
  destruct (decide (a = "#"%char)); [done|]. apply IH.
Qed.


End malformed.

Section malformed_example.
Import Push.


End malformed_example.

(** ** Writing with [raw_wn] and reading back *)

Section written.
Import Push.
Context {rt : PyRuntime}.

Lemma dict_get_set c k v d :
  dict_get c (dict_set k v d) = if decide (k = c) then Some v else dict_get c d.
Proof.
  induction d as [|[k' v'] d IH]; simpl.
  - by destruct (decide (k = c)).
  - destruct (decide (k' = k)) as [->|Hne]; simpl.
    + by destruct (decide (k = c)).
    + destruct (decide (k' = c)) as [->|]; [|done].
      by rewrite decide_False.
Qed.


(** The conversion functions of the code give the value that the string
    stands for, and the tags of the table are the tags of the protocol. *)
Lemma stands_for_converted data_type dat v :
  stands_for data_type dat = Some v →
  ∃ type_function,
    TYPE_FROM_STRING data_type = Some type_function ∧
    type_function dat = Ok v.
Proof.
  unfold stands_for, TYPE_FROM_STRING, bool_translate.
  destruct (decide (data_type = "str")) as [->|Hstr].
  { intros [= <-]. by eexists. }
  destruct (decide (data_type = "bool")) as [->|Hbool].
  { destruct (decide (dat = "True")) as [->|Htrue].
    { intros [= <-]. by eexists. }
    destruct (decide (dat = "False")) as [->|Hfalse]; [|done].
    intros [= <-]. by eexists. }
  destruct (decide (data_type = "int")) as [->|Hint].
  { destruct (int_of_str dat) as [m|number] eqn:Hnumber; [done|].
    intros [= <-]. eexists. split; [done|]. simpl. by rewrite Hnumber. }
  destruct (decide (data_type = "float")) as [->|Hfloat]; [|done].
  destruct (float_of_str dat) as [m|number] eqn:Hnumber; [done|].
  intros [= <-]. eexists. split; [done|]. simpl. by rewrite Hnumber.
Qed.

Lemma mapM_converted data_type type_function l converted :
  TYPE_FROM_STRING data_type = Some type_function →
  mapM (stands_for data_type) l = Some converted →
  mapM type_function l = Ok converted.
Proof.
  intros Htype. revert converted.
  induction l as [|x l IH]; intros converted; simpl.
  { by intros [= <-]. }
  destruct (stands_for data_type x) as [v|] eqn:Hx; simpl; [|done].
  destruct (mapM _ l) as [vs|]; simpl; [|done].
  intros [= <-].
  destruct (stands_for_converted _ _ _ Hx) as (f & Hf & Hfx).
  rewrite Htype in Hf. injection Hf as <-. rewrite Hfx. simpl.
  by rewrite (IH vs).
Qed.

Lemma raw_part_field data_out part codename converted :
  field_of part = Some (codename, converted) →
  raw_part data_out part
    = Ok (dict_set codename (collapse converted) data_out).
Proof.
  unfold field_of, raw_part.
  destruct (PyStr.split ":" part) as [|c [|ty [|vals [|]]]]; try done.
  pose proof (split_not_nil "," vals) as Hvals.
  destruct (mapM _ (PyStr.split "," vals)) as [vs|] eqn:Hvs; simpl; [|done].
  intros [= <- <-].
  assert (∃ f, TYPE_FROM_STRING ty = Some f) as [f Hf].
  { destruct (PyStr.split "," vals) as [|dat rest]; [done|]. simpl in Hvs.
    destruct (stands_for ty dat) as [v|] eqn:Hdat; [|done].
    destruct (stands_for_converted _ _ _ Hdat) as (f & Hf & _). by exists f. }
  rewrite Hf, (mapM_converted _ _ _ _ Hf Hvs). simpl.
  by destruct vs as [|? [|]].
Qed.

Lemma raw_parse_fields payload fields :
  fields_of payload = Some fields →
  raw_parse payload
    = Ok (foldl (λ data_out field,
                   dict_set field.1 (collapse field.2) data_out) [] fields).
Proof.
  unfold fields_of, raw_parse. generalize (PyStr.split ";" payload) as parts.
  generalize 0%nat as k. generalize ([] : dict) as data_out.
  intros data_out k parts. revert data_out k fields.
  induction parts as [|part parts IH]; intros data_out k fields; simpl.
  { by intros [= <-]. }
  destruct (field_of part) as [[c vs]|] eqn:Hfield; simpl; [|done].
  destruct (mapM field_of parts) as [fs|] eqn:Hfs; simpl; [|done].
  intros [= <-]. rewrite (raw_part_field _ _ _ _ Hfield). simpl.
  by rewrite (IH _ _ fs).
Qed.

Lemma dict_get_written c fields :
  dict_get c (foldl (λ data_out field,
                       dict_set field.1 (collapse field.2) data_out)
                [] fields)
    = written fields !! c.
Proof.
  unfold written.
  induction fields as [|[k vs] fields IH] using rev_ind; [done|].
  rewrite foldl_snoc, fmap_app, reverse_app. simpl.
  rewrite dict_get_set, IH.
  destruct (decide (k = c)) as [->|].
  - by rewrite lookup_insert_eq.
  - by rewrite lookup_insert_ne.
Qed.

(** The state that [_set_data] leaves: the new object, which [last]
    refers to, has the items that the direct callback left in it. *)
Lemma set_data_state st timestamp data :
  valid st →
  let l := fresh (dom (heap st)) in
  let st' := (_set_data st timestamp data).2 in
  last (sock st') = Some l ∧ last_time (sock st') = Some timestamp ∧
  updated (sock st') = updated (sock st) ∧
  updated_time (sock st') = Some timestamp ∧
  heap st' = alter (λ updated, dict_update updated data) (updated (sock st))
               (<[l := after_callback (sock st) data]> (heap st)).
Proof.
  intros [Hupdated _].
  assert (updated (sock st) ≠ fresh (dom (heap st))) as Hne.
  { intros Heq. apply elem_of_dom in Hupdated. rewrite Heq in Hupdated.
    by apply is_fresh in Hupdated. }
  unfold _set_data, alloc, entry, after_callback.
  repeat (case_match; simplify_eq/=); try done.
  all: split_and!; try done.
  all: by rewrite !alter_insert_ne, insert_insert_eq by done.
Qed.

(** C8: after a [raw_wn] request whose payload has no [#] and whose parts
    are well formed, with values that stand for something under their type
    tags, on a socket whose direct callback, if it has one, leaves its
    argument as it is: [last] is a mapping that gives each codename of the
    payload the one converted value of its field when the field has one
    value, and the list of the converted values otherwise; reading [last]
    gives a mapping with the same items. *)
Theorem raw_write_then_read st timestamp payload fields :
  valid st → callback_keeps (sock st) →
  PyStr.count "#" payload = 0%nat →
  fields_of payload = Some fields →
  let st' := (handle st timestamp ("raw_wn#" +:+ payload)).2 in
  ∃ l stored,
    last (sock st') = Some l ∧ heap st' !! l = Some stored ∧
    (∀ codename, dict_get codename stored = written fields !! codename) ∧
    (NoDup fields.*1 →
     ∀ codename converted, (codename, converted) ∈ fields →
       dict_get codename stored = Some (collapse converted)) ∧
    ∃ copy, (last_property st').1 = Ok (Some timestamp, Some copy) ∧
      heap (last_property st').2 !! copy = Some stored.
Proof.
  intros Hvalid Hkeeps Hcount Hfields. unfold handle.
  rewrite decide_False by done.
  change ("raw_wn#" +:+ payload) with ("raw_wn" +:+ String "#" payload).
  rewrite count_request, Hcount by done. rewrite decide_False by (by intros []).
  rewrite split_app, split_none by done. simpl.
  unfold _raw_with_names. rewrite (raw_parse_fields _ _ Hfields).
  set (data := foldl _ [] fields).
  pose proof (set_data_state st timestamp data Hvalid) as Hset.
  destruct (_set_data st timestamp data) as [r st'] eqn:Hst'. simpl in Hset.
  destruct Hset as (Hlast & Htime & Hupd & _ & Hheap).
  assert (heap st' !! fresh (dom (heap st)) = Some data) as Hstored.
  { rewrite Hheap, lookup_alter_ne, lookup_insert_eq; [by rewrite Hkeeps|].
    intros Heq. destruct Hvalid as [Hu _]. apply elem_of_dom in Hu.
    rewrite Heq in Hu. by apply is_fresh in Hu. }
  assert ((match r with
           | Raise (Exn ValueError m) => (Ok (text PUSH_ERROR m), st')
           | _ => (r, st')
           end).2 = st') as ->.
  { destruct r as [|[[] ?]]; done. }
  exists (fresh (dom (heap st))), data. split_and!; try done.
  - intros c. apply dict_get_written.
  - intros Hnd c vs Hin. unfold data. rewrite dict_get_written.
    unfold written. apply elem_of_list_to_map_1.
    + rewrite fmap_reverse, reverse_Permutation, <-list_fmap_compose.
      erewrite list_fmap_ext; [exact Hnd|]. by intros ? [].
    + apply elem_of_reverse, list_elem_of_fmap. by exists (c, vs).
  - unfold last_property, deref, alloc. rewrite Hlast, Hstored, Htime. simpl.
    eexists. split; [done|]. by rewrite lookup_insert_eq.
Qed.

End written.

Section written_example.
Import Push.

(** The payload [a:int:1;b:str:x,y] writes the integer 1 and a list of two
    strings. *)
Lemma raw_write_then_read_witness :
  let st :=
    State {[1%positive := []]}
      (SocketData store_last None 1%positive None None "push" None None
         None) in
  let st' :=
    (handle (rt := Sample.runtime) st 5 "raw_wn#a:int:1;b:str:x,y").2 in
  ∃ l stored,
    last (sock st') = Some l ∧ heap st' !! l = Some stored ∧
    dict_get "a" stored = Some (VInt 1) ∧
    dict_get "b" stored = Some (VList [VStr "x"; VStr "y"]).
Proof.
  intros st st'.
  assert (valid st) as Hvalid.
  { split; [by eexists|]. intros l Hl. discriminate Hl. }
  destruct (raw_write_then_read (rt := Sample.runtime) st 5
              "a:int:1;b:str:x,y"
              [("a", [VInt 1]); ("b", [VStr "x"; VStr "y"])]
              Hvalid (λ _, eq_refl) eq_refl eq_refl)
    as (l & stored & Hlast & Hstored & _ & Hfields & _).
  assert (NoDup ["a"; "b"]) as Hnd.
  { apply NoDup_cons. split; [|apply NoDup_singleton].
    intros Hin. apply list_elem_of_singleton in Hin. discriminate Hin. }
  exists l, stored. split; [exact Hlast|]. split; [exact Hstored|]. split.
  - apply (Hfields Hnd "a" [VInt 1]). apply list_elem_of_here.
  - apply (Hfields Hnd "b" [VStr "x"; VStr "y"]).
    apply list_elem_of_further, list_elem_of_here.
Defined.

(** A payload with a [#] in a value is well formed and its values convert,
    and the request is refused: nothing is stored.  And a direct callback
    that empties the dictionary it is given leaves [last] without the
    codename that was written. *)
Lemma raw_write_not_stored :
  (let st :=
     State {[1%positive := []]}
       (SocketData store_last None 1%positive None None "push" None None
          None) in
   fields_of (rt := Sample.runtime) "a:str:x#y" = Some [("a", [VStr "x#y"])] ∧
   handle (rt := Sample.runtime) st 5 "raw_wn#a:str:x#y"
     = (Ok (text "ERROR" "UNKNOWN_COMMMAND"), st) ∧
   last (sock st) = None) ∧
  (let st :=
     State {[1%positive := []]}
       (SocketData callback_direct None 1%positive None None "push" None
          (Some (λ _, (Ok VNone, []))) (Some format_json)) in
   let st' := (handle (rt := Sample.runtime) st 5 "raw_wn#a:int:1").2 in
   fields_of (rt := Sample.runtime) "a:int:1" = Some [("a", [VInt 1])] ∧
   ∃ l, last (sock st') = Some l ∧ heap st' !! l = Some [] ∧
     dict_get "a" [] ≠ Some (VInt 1)).
Proof.
  split.
  - split_and!; reflexivity.
  - split; [reflexivity|]. exists 2%positive. split_and!; [reflexivity..|done].
Qed.

End written_example.

(** ** The copies handed out by [last] and [updated] *)

Section copies.
Import Push.

Lemma apply_op_frame h l op l0 :
  l0 ≠ l → (apply_op h l op).2 !! l0 = h !! l0.
Proof.
  intros Hne. unfold apply_op.
  destruct (h !! l) as [d|]; [|done].
  destruct op; simpl; repeat case_match; simpl;
    by rewrite ?lookup_insert_ne.
Qed.

(** Method calls on one dictionary leave the other objects as they are. *)
Lemma apply_ops_frame h l ops l0 :
  l0 ≠ l → apply_ops h l ops !! l0 = h !! l0.
Proof.
  intros Hne. unfold apply_ops. revert h.
  induction ops as [|op ops IH]; intros h; simpl; [done|].
  by rewrite IH, apply_op_frame.
Qed.

Lemma DataPushSocket_init_state
    h name action queue callback return_format bind_error st :
  DataPushSocket_init h name action queue callback return_format bind_error
    = Ok st →
  last (sock st) = None ∧ last_time (sock st) = None ∧
  updated_time (sock st) = None ∧
  heap st !! updated (sock st) = Some [] ∧ valid st.
Proof.
  unfold DataPushSocket_init, alloc, valid.
  repeat (case_decide || case_match); simpl; try done;
    intros; simplify_eq/=; rewrite lookup_insert_eq; naive_solver.
Qed.

(** C10: [last] and [updated] hand out a new dictionary with the items of
    the stored one.  Whatever method calls are then made on the new
    dictionary, every dictionary that existed before (the stored [last] and
    [updated], the items of the queue) keeps its items, and the read leaves
    [DATA[port]] as it was.  Before any data has come, [last] gives
    [(None, None)] and changes nothing, and [updated] gives [None] and an
    empty dictionary. *)
Theorem properties_hand_out_copies :
  (∀ st, valid st →
     match last (sock st) with
     | None => last_property st = (Ok (last_time (sock st), None), st)
     | Some l =>
         ∃ copy st',
           last_property st = (Ok (last_time (sock st), Some copy), st') ∧
           sock st' = sock st ∧ heap st !! copy = None ∧
           heap st' !! copy = heap st !! l ∧
           ∀ ops l0, l0 ≠ copy →
             apply_ops (heap st') copy ops !! l0 = heap st !! l0
     end) ∧
  (∀ st, valid st →
     ∃ copy st',
       updated_property st = (Ok (updated_time (sock st), copy), st') ∧
       sock st' = sock st ∧ heap st !! copy = None ∧
       heap st' !! copy = heap st !! updated (sock st) ∧
       ∀ ops l0, l0 ≠ copy →
         apply_ops (heap st') copy ops !! l0 = heap st !! l0) ∧
  (∀ h name action queue callback return_format bind_error st,
     DataPushSocket_init h name action queue callback return_format
       bind_error = Ok st →
     last_property st = (Ok (None, None), st) ∧
     ∃ copy st',
       updated_property st = (Ok (None, copy), st') ∧
       heap st' !! copy = Some []).
Proof.
  assert (∀ h : heap_t, h !! fresh (dom h) = None) as Hfresh.
  { intros h. apply not_elem_of_dom, is_fresh. }
  split_and!.
  - intros st [_ Hlast]. unfold last_property, deref, alloc.
    destruct (last (sock st)) as [l|]; [|done].
    destruct (Hlast l eq_refl) as [d Hd]. rewrite Hd.
    eexists _, _. split; [done|]. simpl.
    split; [done|]. split; [apply Hfresh|].
    split; [by rewrite lookup_insert_eq|].
    intros ops l0 Hne. by rewrite apply_ops_frame, lookup_insert_ne.
  - intros st [[d Hd] _]. unfold updated_property, deref, alloc.
    rewrite Hd. eexists _, _. split; [done|]. simpl.
    split; [done|]. split; [apply Hfresh|].
    split; [by rewrite lookup_insert_eq|].
    intros ops l0 Hne. by rewrite apply_ops_frame, lookup_insert_ne.
  - intros h name action queue callback return_format bind_error st Hinit.
    apply DataPushSocket_init_state in Hinit
      as (Hlast & Htime & Hutime & Hupdated & _).
    unfold last_property, updated_property, deref, alloc.
    rewrite Hlast, Htime, Hutime, Hupdated. split; [done|].
    eexists _, _. split; [done|]. simpl. by rewrite lookup_insert_eq.
Qed.

End copies.

Section copies_example.
Import Push.

(** [last] holds [{'a': 1}]; the copy is changed and emptied, the stored
    dictionary is not. *)
Lemma properties_hand_out_copies_witness :
  let st :=
    State (<[2%positive := [("a", VInt 1)]]> {[1%positive := []]})
      (SocketData store_last (Some 2%positive) 1%positive (Some 5%float)
         (Some 5%float) "push" None None None) in
  ∃ copy st',
    last_property st = (Ok (Some 5%float, Some copy), st') ∧
    sock st' = sock st ∧
    apply_ops (heap st') copy [setitem "a" (VInt 9); clear] !! 2%positive
      = Some [("a", VInt 1)].
Proof.
  intros st.
  assert (valid st) as Hvalid.
  { split; [by eexists|]. intros l [= <-]. by eexists. }
  destruct (proj1 properties_hand_out_copies st Hvalid)
    as (copy & st' & Hread & Hsock & Hnew & _ & Hframe).
  exists copy, st'. split; [exact Hread|]. split; [exact Hsock|].
  rewrite Hframe; [reflexivity|].
  intros <-. discriminate Hnew.
Defined.

End copies_example.

(** ** The raw format of a returned dictionary *)

Section raw_format.
Import Push.
Context {rt : PyRuntime}.

Lemma raw_dict_item_ok key value :
  raw_value value → raw_dict_item key value = Ok (raw_item key value).
Proof.
  unfold raw_dict_item, raw_item, simple.
  intros [v Hv|first rest Hfirst Hrest].
  - assert (not_raw_type (a_type (type_of v)) = false) as Hraw.
    { simpl. apply bool_decide_eq_false. intros Hn. apply Hn, Hv. }
    destruct v; simpl in *; try (by rewrite ?Hraw);
      repeat (apply elem_of_cons in Hv as [?|Hv]; [done|]);
      by apply elem_of_nil in Hv.
  - assert (not_raw_type (a_type (type_of first)) = false) as Hraw.
    { simpl. apply bool_decide_eq_false. intros Hn. apply Hn, Hfirst. }
    rewrite decide_False.
    + simpl. simpl in Hraw. by rewrite Hraw.
    + intros Hne. apply Hne. simpl. f_equal.
      rewrite length_fmap. clear -Hrest.
      induction Hrest as [|v rest Hv _ IH]; simpl; [done|].
      by rewrite Hv, IH.
Qed.

(** A dictionary of simple values and of lists, not empty, of simple values
    of one type is rendered as [RET#] and the items joined by [;]. *)
Lemma format_return_raw_dict items :
  Forall (λ item, raw_value item.2) items →
  _format_return_raw (VDict items) =
    text PUSH_RET
      (PyStr.join ";" ((λ item, raw_item item.1 item.2) <$> items)).
Proof.
  intros Hitems. unfold _format_return_raw, _format_return_raw_dict.
  assert (∀ k acc,
    for_each (λ _ items0 '(key, value),
                item_str ← raw_dict_item key value;
                Ok (items0 ++ [item_str])%list) k acc items
      = Ok (acc ++ ((λ item, raw_item item.1 item.2) <$> items))%list)
    as Hloop.
  { induction Hitems as [|[key value] items Hv _ IH]; intros k acc; simpl.
    - by rewrite app_nil_r.
    - rewrite (raw_dict_item_ok _ _ Hv). simpl.
      by rewrite IH, <-(assoc_L app). }
  by rewrite Hloop.
Qed.

Lemma raw_dict_loop_raises k acc items key value e :
  (key, value) ∈ items → raw_dict_item key value = Raise e →
  ∃ e', for_each (λ _ items0 '(key, value),
                    item_str ← raw_dict_item key value;
                    Ok (items0 ++ [item_str])%list) k acc items
          = Raise e'.
Proof.
  intros Hin Hraise. revert k acc.
  induction items as [|[key' value'] items IH]; intros k acc.
  { by apply elem_of_nil in Hin. }
  simpl. destruct (raw_dict_item key' value') as [item_str|e'] eqn:Hitem.
  - simpl. apply IH. apply elem_of_cons in Hin as [[= -> ->]|Hin]; [|done].
    congruence.
  - by exists e'.
Qed.

(** C7: the branch of [_format_return_raw_dict] for an empty list sets the
    type to the empty string, which the check of the type that follows
    refuses: for every dictionary with a key whose value is the empty list
    the reply is [EXCEP#...], not [RET#...] with the item [name::]. *)
Theorem empty_list_is_refused items key :
  (key, VList []) ∈ items →
  ∃ m, _format_return_raw (VDict items) = text PUSH_EXCEP m.
Proof.
  intros Hin. unfold _format_return_raw, _format_return_raw_dict.
  destruct (raw_dict_loop_raises 0 [] items key (VList [])
              (Exn TypeError raw_type_message) Hin eq_refl) as [e ->].
  simpl. by eexists.
Qed.

End raw_format.

Section raw_format_example.
Import Push.

(** The reply for [{'a': []}]. *)
Example empty_list_reply :
  _format_return_raw (rt := Sample.runtime) (VDict [("a", VList [])]) =
    text PUSH_EXCEP
      ("Raw conversion failed with message:With return format raw, " +:+
       "the item type can only be one of 'int', 'float', 'bool' and 'str'").
Proof. reflexivity. Qed.

(** The same through the handler: a direct callback with the raw return
    format that returns [{'a': []}] for the request [json_wn#{}]. *)
Example empty_list_push :
  let st :=
    State {[1%positive := []]}
      (SocketData callback_direct None 1%positive None None "push" None
         (Some (λ data, (Ok (VDict [("a", VList [])]), data)))
         (Some format_raw)) in
  (handle (rt := Sample.runtime) st 5 "json_wn#{}").1 =
    Ok (text PUSH_EXCEP
          ("Raw conversion failed with message:With return format raw, " +:+
           "the item type can only be one of 'int', 'float', 'bool' " +:+
           "and 'str'")).
Proof. reflexivity. Qed.

(** The dictionary of the documentation, and one with an empty list. *)
Lemma empty_list_is_refused_witness :
  _format_return_raw (rt := Sample.runtime)
    (VDict [("answer", VInt 42); ("values", VList [VInt 42; VInt 47])])
    = text PUSH_RET "answer:int:42;values:int:42,47" ∧
  ∃ m, _format_return_raw (rt := Sample.runtime)
         (VDict [("answer", VInt 42); ("values", VList [])])
       = text PUSH_EXCEP m.
Proof.
  split; [reflexivity|].
  apply (empty_list_is_refused (rt := Sample.runtime) _ "values").
  apply list_elem_of_further, list_elem_of_here.
Defined.

End raw_format_example.


(** ** Subscriptions *)

Section subscriptions.
Import WebSocketServer.
Context {rt : PyRuntime}.

Lemma count_app c s1 s2 :
  PyStr.count c (s1 +:+ s2) = (PyStr.count c s1 + PyStr.count c s2)%nat.
Proof.
  induction s1 as [|a s1 IH]; simpl; [done|]. rewrite IH.
  by destruct (decide (a = c)).
Qed.

(** The two splits at the head of [subscribe]. *)
Lemma subscribe_splits source_id codenames_string :
  PyStr.count "#" source_id = 0%nat →
  PyStr.count "#" codenames_string = 0%nat →
  PyStr.count ";" source_id = 0%nat →
  PyStr.count ";" codenames_string = 0%nat →
  PyStr.split "#" ("subscribe#" +:+ source_id +:+ ";" +:+ codenames_string)
    = ["subscribe"; source_id +:+ ";" +:+ codenames_string] ∧
  PyStr.split ";" (source_id +:+ ";" +:+ codenames_string)
    = [source_id; codenames_string].
Proof.
  intros Hs Hc Hs' Hc'. split.
  - change ("subscribe#" +:+ source_id +:+ ";" +:+ codenames_string)
      with ("subscribe" +:+
            String "#" (source_id +:+ ";" +:+ codenames_string)).
    rewrite split_app by done. rewrite split_none; [done|].
    rewrite count_app.
    change (PyStr.count "#" (";" +:+ codenames_string))
      with (PyStr.count "#" codenames_string).
    by rewrite Hs, Hc.
  - change (source_id +:+ ";" +:+ codenames_string)
      with (source_id +:+ String ";" codenames_string).
    rewrite split_app by done. by rewrite split_none.
Qed.

(** What [subscribe] does check: that the source is not the empty string
    and that no codename is empty.  When one is empty, it sends the
    malformed-subscription message and keeps the subscriptions; when none
    is and the source is a key of [DATA], it appends the subscription at
    the index that is the number of subscriptions so far and sends
    [subscribe#source;codenames#index#sane_interval]. *)
Theorem subscribe_checks_for_empty_names
    (DATA : DATA_t) (subscriptions : subscriptions_t)
    (source_id codenames_string : string) :
  PyStr.count "#" source_id = 0%nat →
  PyStr.count "#" codenames_string = 0%nat →
  PyStr.count ";" source_id = 0%nat →
  PyStr.count ";" codenames_string = 0%nat →
  let msg := "subscribe#" +:+ source_id +:+ ";" +:+ codenames_string in
  let codenames := PyStr.split "," codenames_string in
  (source_id = "" ∨ "" ∈ codenames →
     onMessage DATA subscriptions msg false =
       (Ok (Some (VStr (MALFORMED_SUBSCRIPTION msg))), subscriptions)) ∧
  (∀ source,
     source_id ≠ "" → "" ∉ codenames → DATA !! source_id = Some source →
     onMessage DATA subscriptions msg false =
       (Ok (Some (VStr (msg +:+ "#" +:+
                        PyStr.of_nat (List.length subscriptions) +:+ "#" +:+
                        str (sane_interval source)))),
        (subscriptions ++ [(source_id, codenames)])%list)).
Proof.
  intros Hs Hc Hs' Hc' msg codenames.
  destruct (subscribe_splits source_id codenames_string Hs Hc Hs' Hc')
    as [Hsplit1 Hsplit2].
  assert (PyStr.startswith "subscribe" msg = true) as Hstart by done.
  unfold onMessage, subscribe. rewrite Hstart. fold msg in Hsplit1.
  rewrite Hsplit1, Hsplit2. fold codenames. split.
  - intros Hempty. by rewrite decide_True.
  - intros source Hsource Hnames Hknown.
    rewrite decide_False by (intros [?|?]; done). by rewrite Hknown.
Qed.

(** C5: [subscribe] does not look the source up before it keeps the
    subscription.  For a source that is not the empty string and is no key
    of [DATA], with codenames none of which is empty, it appends the
    subscription and then raises [KeyError] at [DATA[port_ip]]: the
    malformed-subscription message is not sent, nothing is, and the
    subscription stays in the list, where a look-up with its number raises
    [KeyError] as well. *)
Theorem unknown_source_is_not_refused
    (DATA : DATA_t) (subscriptions : subscriptions_t)
    (source_id codenames_string : string) :
  PyStr.count "#" source_id = 0%nat →
  PyStr.count "#" codenames_string = 0%nat →
  PyStr.count ";" source_id = 0%nat →
  PyStr.count ";" codenames_string = 0%nat →
  source_id ≠ "" → "" ∉ PyStr.split "," codenames_string →
  DATA !! source_id = None →
  let msg := "subscribe#" +:+ source_id +:+ ";" +:+ codenames_string in
  let number := List.length subscriptions in
  let kept :=
    (subscriptions ++ [(source_id, PyStr.split "," codenames_string)])%list in
  onMessage DATA subscriptions msg false
    = (Raise (Exn KeyError source_id), kept) ∧
  onMessage DATA subscriptions msg false
    ≠ (Ok (Some (VStr (MALFORMED_SUBSCRIPTION msg))), subscriptions) ∧
  (int_of_str (PyStr.of_nat number) = inr (VInt (Z.of_nat number)) →
   get_data DATA kept (PyStr.of_nat number)
     = Raise (Exn KeyError source_id)).
Proof.
  intros Hs Hc Hs' Hc' Hsource Hnames Hunknown msg number kept.
  destruct (subscribe_splits source_id codenames_string Hs Hc Hs' Hc')
    as [Hsplit1 Hsplit2].
  assert (onMessage DATA subscriptions msg false
          = (Raise (Exn KeyError source_id), kept)) as Hraises.
  { assert (PyStr.startswith "subscribe" msg = true) as Hstart by done.
    unfold onMessage, subscribe. rewrite Hstart. fold msg in Hsplit1.
    rewrite Hsplit1, Hsplit2.
    rewrite decide_False by (intros [?|?]; done). by rewrite Hunknown. }
  split; [done|]. split; [by rewrite Hraises|].
  intros Hint. unfold get_data. rewrite Hint. simpl.
  rewrite option_guard_True by lia. simpl. unfold kept, number.
  rewrite Nat2Z.id, lookup_app_r, Nat.sub_diag by done. simpl.
  pose proof (split_not_nil "," codenames_string) as Hsome.
  destruct (PyStr.split "," codenames_string) as [|codename rest]; [done|].
  simpl. unfold getitem. by rewrite Hunknown.
Qed.

(** [get_data] for a numeral outside of the range of the subscriptions. *)
Lemma get_data_out_of_range DATA (subscriptions : subscriptions_t) msg z :
  int_of_str msg = inr (VInt z) →
  ¬ (0 ≤ z < Z.of_nat (List.length subscriptions))%Z →
  get_data DATA subscriptions msg
    = Ok (VStr ("Invalid subscription number: " +:+ msg)).
Proof.
  intros Hint Hrange. unfold get_data. rewrite Hint. simpl.
  destruct (guard (0 ≤ z)%Z) as [Hz|] eqn:Hguard; simpl; [|done].
  rewrite lookup_ge_None_2; [done|]. lia.
Qed.

(** C6: [get_data] catches [TypeError] around [int(msg)], but [int] raises
    [ValueError] on a string that is no numeral: the exception leaves the
    handler and no invalid-index string is sent. *)
Theorem get_data_raises_on_non_numeric
    (DATA : DATA_t) (subscriptions : subscriptions_t) (msg m : string) :
  int_of_str msg = inl m →
  get_data DATA subscriptions msg = Raise (Exn ValueError m) ∧
  (PyStr.startswith "subscribe" msg = false →
   onMessage DATA subscriptions msg false
     = (Raise (Exn ValueError m), subscriptions)).
Proof.
  intros Hint. unfold onMessage, get_data. rewrite Hint. simpl.
  split; [done|]. by intros ->.
Qed.

End subscriptions.

Section subscriptions_examples.
Import WebSocketServer.

Lemma subscribe_checks_for_empty_names_witness :
  onMessage (rt := Sample.runtime) mirrored [] "subscribe#host:8000;t2,t1"
    false
  = (Ok (Some (VStr "subscribe#host:8000;t2,t1#0#1")),
     [("host:8000", ["t2"; "t1"])]) ∧
  onMessage (rt := Sample.runtime) mirrored [] "subscribe#host:8000;t2,"
    false
  = (Ok (Some (VStr
       "Error: Malformed subscription line: subscribe#host:8000;t2,")), []).
Proof.
  split.
  - refine (proj2 (subscribe_checks_for_empty_names (rt := Sample.runtime)
                     mirrored [] "host:8000" "t2,t1"
                     eq_refl eq_refl eq_refl eq_refl) _ _ _ eq_refl).
    + discriminate.
    + intros Hin. apply elem_of_cons in Hin as [Hin|Hin]; [discriminate|].
      apply list_elem_of_singleton in Hin. discriminate.
  - refine (proj1 (subscribe_checks_for_empty_names (rt := Sample.runtime)
                     mirrored [] "host:8000" "t2,"
                     eq_refl eq_refl eq_refl eq_refl) _).
    right. apply list_elem_of_further, list_elem_of_here.
Defined.

(** A subscription to [host:9999], which is not mirrored, and the look-up
    with its number. *)
Lemma unknown_source_is_not_refused_witness :
  onMessage (rt := Sample.runtime) mirrored [] "subscribe#host:9999;t1" false
    = (Raise (Exn KeyError "host:9999"), [("host:9999", ["t1"])]) ∧
  get_data (rt := Sample.runtime) mirrored [("host:9999", ["t1"])] "0"
    = Raise (Exn KeyError "host:9999").
Proof.
  destruct (unknown_source_is_not_refused (rt := Sample.runtime) mirrored []
              "host:9999" "t1" eq_refl eq_refl eq_refl eq_refl)
    as (Hraises & _ & Hlookup).
  - discriminate.
  - intros Hin. apply list_elem_of_singleton in Hin. discriminate.
  - reflexivity.
  - split; [exact Hraises|]. by apply Hlookup.
Defined.

(** The source of a subscription is not checked against [DATA]: for a
    source that is not mirrored the subscription is appended, and then the
    lookup of its sane interval raises; no malformed-subscription message
    is sent. *)
Lemma subscribe_to_unknown_source :
  let msg := "subscribe#host:9999;t1" in
  mirrored !! "host:9999" = None ∧
  onMessage (rt := Sample.runtime) mirrored [] msg false
    = (Raise (Exn KeyError "host:9999"), [("host:9999", ["t1"])]) ∧
  onMessage (rt := Sample.runtime) mirrored [] msg false
    ≠ (Ok (Some (VStr (MALFORMED_SUBSCRIPTION msg))), []).
Proof. split_and!; [reflexivity|reflexivity|discriminate]. Qed.

Lemma get_data_raises_on_non_numeric_witness :
  get_data (rt := Sample.runtime) mirrored [("host:8000", ["t1"])] "abc"
    = Raise (Exn ValueError
               "invalid literal for int() with base 10: 'abc'") ∧
  (PyStr.startswith "subscribe" "abc" = false →
   onMessage (rt := Sample.runtime) mirrored [("host:8000", ["t1"])]
     "abc" false
     = (Raise (Exn ValueError
                 "invalid literal for int() with base 10: 'abc'"),
        [("host:8000", ["t1"])])).
Proof.
  exact (get_data_raises_on_non_numeric (rt := Sample.runtime) mirrored
           [("host:8000", ["t1"])] "abc" _ eq_refl).
Defined.

(** A look-up by index gives the points in the order of the subscription,
    and a numeral out of range gives the invalid-number string. *)
Example get_data_in_range :
  get_data (rt := Sample.runtime) mirrored [("host:8000", ["t2"; "t1"])] "0"
    = Ok (VList [VInt 0; VList [VList [VInt 5; VFloat 2];
                                VList [VInt 5; VFloat 1]]]) ∧
  get_data (rt := Sample.runtime) mirrored [("host:8000", ["t2"; "t1"])] "1"
    = Ok (VStr "Invalid subscription number: 1").
Proof. split; reflexivity. Qed.

End subscriptions_examples.

(** ** The handshake of the poller *)

Section handshake.
Import WebSocketServer.
Context {rt : PyRuntime}.

(** C9: when the query for [sane_interval] (answered by [network 0]) or the
    query for [codenames] (answered by [network 1]) gets no answer within
    the timeout, the constructor either raises, and there is no thread, or
    returns a connection that is stopped and has sent the two queries only;
    the loop of [run] then ends at once, whatever the number of iterations
    allowed, without a request for data and without a change to [DATA]. *)
Theorem failed_handshake_never_polls
    (network : network_t) (DATA : DATA_t) (ip_port : string) :
  network 0%nat = None ∨ network 1%nat = None →
  match UDPConnection_init network DATA ip_port with
  | (Ok c, DATA') =>
      DATA' = DATA ∧ _stop c = true ∧
      sent c = ["sane_interval"; "codenames"] ∧
      ∀ fuel, run network fuel DATA' c = Some (Ok (), c, DATA')
  | (Raise _, DATA') => DATA' = DATA
  end.
Proof.
  intros Hfail. unfold UDPConnection_init.
  destruct (PyStr.split ":" ip_port) as [|ip_address [|port [|]]]; try done.
  destruct (value_error (int_of_str port)) as [p|e]; [|done].
  assert (∀ fuel c, _stop c = true →
            run network fuel DATA c = Some (Ok (), c, DATA)) as Hrun.
  { intros [|fuel] c Hc; simpl; by rewrite Hc. }
  unfold _send_and_get. simpl.
  destruct (network 0%nat) as [answer0|] eqn:H0; simpl.
  - destruct Hfail as [?|H1]; [done|].
    destruct (value_error (json_loads answer0)) as [sane_interval|e];
      simpl; [|done].
    rewrite H1.
    destruct sane_interval; simpl; split_and!; try done;
      intros fuel; by apply Hrun.
  - destruct (network 1%nat) as [answer1|] eqn:H1; simpl.
    + destruct (value_error (json_loads answer1)) as [codenames|e];
        simpl; [|done].
      split_and!; try done. intros fuel. by apply Hrun.
    + split_and!; try done. intros fuel. by apply Hrun.
Qed.

End handshake.

Section handshake_example.
Import WebSocketServer.

(** An upstream that answers the first query with [1] and then nothing. *)
Lemma failed_handshake_never_polls_witness :
  let network : network_t :=
    λ k, match k with O => Some "1" | _ => None end in
  let DATA : DATA_t := {[ "host:8000" := Source VNone VNone VNone ]} in
  ∃ c, UDPConnection_init (rt := Sample.runtime) network DATA "host:8000"
         = (Ok c, DATA) ∧
       _stop c = true ∧ sent c = ["sane_interval"; "codenames"] ∧
       run (rt := Sample.runtime) network 100 DATA c = Some (Ok (), c, DATA).
Proof.
  intros network DATA.
  pose proof (failed_handshake_never_polls (rt := Sample.runtime)
                network DATA "host:8000" (or_intror eq_refl)) as Hpoll.
  destruct (UDPConnection_init network DATA "host:8000") as [[c|e] DATA']
    eqn:Hinit.
  - destruct Hpoll as (-> & Hstop & Hsent & Hrun).
    exists c. split; [reflexivity|]. split; [exact Hstop|].
    split; [exact Hsent|]. apply Hrun.
  - vm_compute in Hinit. discriminate Hinit.
Defined.

(** An upstream that answers three times and then no more: the handshake
    succeeds, the loop asks for data twice and stops at the time-out. *)
Example answered_handshake_polls :
  let network : network_t :=
    λ k, if decide (k < 3)%nat then Some "1" else None in
  let DATA : DATA_t := {[ "host:8000" := Source VNone VNone VNone ]} in
  match UDPConnection_init (rt := Sample.runtime) network DATA "host:8000"
  with
  | (Ok c, DATA') =>
      _stop c = false ∧ timeout c = VInt 2 ∧
      DATA' !! "host:8000" = Some (Source VNone (VInt 1) (VInt 1)) ∧
      match run (rt := Sample.runtime) network 5 DATA' c with
      | Some (Ok _, c', DATA'') =>
          _stop c' = true ∧
          sent c' = ["sane_interval"; "codenames"; "data"; "data"] ∧
          DATA'' !! "host:8000" = Some (Source (VInt 1) (VInt 1) (VInt 1))
      | _ => False
      end
  | _ => False
  end.
Proof. vm_compute. repeat split; reflexivity. Qed.

End handshake_example.

(** ** The model at work *)

Section examples.

(** A date socket with a timeout of 3 s on [a] and none on [b]; [a] is set
    at time 8 and read at time 10, then at time 12. *)
Example pull_reads :
  let made :=
    (Pull.DateDataPullSocket_init ∅ "socket" ["a"; "b"] 9000 0 47
       (Pull.timeouts_list [Some 3%float; None]) None).2 in
  let DATA :=
    (Pull.DateDataPullSocket_set_point made 9000 "a" (8, 1)%float).2 in
  Pull.handle (rt := Sample.runtime) DATA 9000 (λ _, 10%float) "raw"
    = Ok (Pull.raw "8.0,1.0;0.0,47.0") ∧
  Pull.handle (rt := Sample.runtime) DATA 9000 (λ _, 12%float) "raw"
    = Ok (Pull.raw "OLD_DATA;0.0,47.0") ∧
  Pull.handle (rt := Sample.runtime) DATA 9000 (λ _, 12%float) "raw_wn"
    = Ok (Pull.raw "a:OLD_DATA;b:0.0,47.0") ∧
  Pull.handle (rt := Sample.runtime) DATA 9000 (λ _, 12%float) "a#json"
    = Ok (Pull.json_value Pull.old) ∧
  Pull.handle (rt := Sample.runtime) DATA 9000 (λ _, 12%float) "c#json"
    = Ok (Pull.raw "UNKNOWN_COMMMAND") ∧
  Pull.handle (rt := Sample.runtime) DATA 9000 (λ _, 12%float) "codenames_raw"
    = Ok (Pull.raw "a,b").
Proof. vm_compute. repeat split; reflexivity. Qed.

(** The constructor refuses a second socket on the port, a duplicate, each
    of the characters of [BAD_CHARS] and a list of timeouts of the wrong
    length. *)
Example pull_refusals :
  let accepted (DATA : Pull.DATA_t) codenames timeouts :=
    is_ok (Pull.DateDataPullSocket_init DATA "socket" codenames 9000 0 47
             timeouts None).1 in
  let made :=
    (Pull.DateDataPullSocket_init ∅ "socket" ["a"] 9000 0 47
       (Pull.timeouts_single None) None).2 in
  accepted made ["b"] (Pull.timeouts_single None) = false ∧
  accepted ∅ ["a"; "a"] (Pull.timeouts_single None) = false ∧
  accepted ∅ ["a#"] (Pull.timeouts_single None) = false ∧
  accepted ∅ ["a,"] (Pull.timeouts_single None) = false ∧
  accepted ∅ ["a;"] (Pull.timeouts_single None) = false ∧
  accepted ∅ ["a:"] (Pull.timeouts_single None) = false ∧
  accepted ∅ ["a&"] (Pull.timeouts_single None) = false ∧
  accepted ∅ ["a"] (Pull.timeouts_list [None; None]) = false ∧
  accepted ∅ ["a"] (Pull.timeouts_list [None]) = true.
Proof. vm_compute. repeat split; reflexivity. Qed.

(** A push socket that stores: the acknowledgement of a [raw_wn] request,
    and the state after it. *)
Example push_write :
  let st :=
    Push.State {[1%positive := []]}
      (Push.SocketData Push.store_last None 1%positive None None "push"
         None None None) in
  let '(reply, st') :=
    Push.handle (rt := Sample.runtime) st 5 "raw_wn#a:int:1;b:str:x,y" in
  reply = Ok (Push.text "ACK" "{'a': 1, 'b': ['x', 'y']}") ∧
  Push.last (Push.sock st') = Some 2%positive ∧
  Push.last_time (Push.sock st') = Some 5%float ∧
  Push.heap st' !! 2%positive
    = Some [("a", VInt 1); ("b", VList [VStr "x"; VStr "y"])] ∧
  Push.heap st' !! 1%positive
    = Some [("a", VInt 1); ("b", VList [VStr "x"; VStr "y"])].
Proof. vm_compute. repeat split; reflexivity. Qed.

End examples.

(** * Further properties *)

(** ** Ports of the pull sockets *)

Section ports.
Import Pull.
Context {rt : PyRuntime}.

Lemma CommonDataPullSocket_init_taken
    DATA name cs port dx dy tos it bind_error :
  is_Some (DATA !! port) →
  CommonDataPullSocket_init DATA name cs port dx dy tos it bind_error
    = (Raise (port_taken port), DATA).
Proof. intros Hport. unfold CommonDataPullSocket_init. by rewrite decide_True. Qed.

(** Past the checks of the port and of the timeouts, the constructor leaves
    an entry for the port, whether it returns or raises. *)
Lemma CommonDataPullSocket_init_registers
    DATA name cs port dx dy tos it bind_error :
  DATA !! port = None → arity_ok tos cs →
  ∃ d, (CommonDataPullSocket_init DATA name cs port dx dy tos it
          bind_error).2 = <[port := d]> DATA.
Proof.
  intros Hport Harity. unfold CommonDataPullSocket_init.
  rewrite decide_False by (rewrite Hport; by intros []).
  assert (∀ l : list (option float),
    ∃ d, (let '(r, d) := init_points cs dx dy it (zip cs l)
             (if it then set_timeouts (Some ∅)
                           (SocketData cs ∅ name None None None None None)
              else SocketData cs ∅ name None None None None None) in
          match r with
          | Ok _ =>
              match bind_error with
              | Some errno =>
                  if decide (errno = 98)
                  then (Raise (Exn PortStillReserved
                                 PortStillReserved_message),
                        <[port:=d]> DATA)
                  else (Raise (Exn SocketError (PyStr.of_Z errno)),
                        <[port:=d]> DATA)
              | None => (Ok (), <[port:=d]> DATA)
              end
          | Raise e => (Raise e, <[port:=d]> DATA)
          end).2 = <[port := d]> DATA) as Hloop.
  { intros l. destruct (init_points _ _ _ _ _ _) as [r d]. exists d.
    destruct r as [[]|e]; [|done].
    destruct bind_error as [errno|]; [|done]. by destruct (decide _). }
  destruct tos as [timeout|l]; simpl in *; [apply Hloop|].
  rewrite decide_False by (intros Hne; by apply Hne). apply Hloop.
Qed.

Lemma derived_init_taken DATA name cs port dx dy tos sane_interval bind_error :
  is_Some (DATA !! port) →
  DateDataPullSocket_init DATA name cs port dx dy tos bind_error
    = (Raise (port_taken port), DATA) ∧
  DataPullSocket_init DATA name cs port dx dy tos bind_error
    = (Raise (port_taken port), DATA) ∧
  LiveSocket_init DATA name cs sane_interval port dx dy bind_error
    = (Raise (port_taken port), DATA).
Proof.
  intros Hport.
  unfold DateDataPullSocket_init, DataPullSocket_init, LiveSocket_init.
  by rewrite !CommonDataPullSocket_init_taken.
Qed.

(** X1: a construction that raises after the checks of the port and of the
    timeouts (a duplicate or a bad character in the codenames, or a server
    that does not bind) leaves its entry in [DATA]; the other ports are as
    before, and from then on every constructor raises on this port, whatever
    its arguments. *)
Theorem failed_construction_keeps_the_port
    DATA name cs port dx dy tos it bind_error e DATA' :
  DATA !! port = None → arity_ok tos cs →
  CommonDataPullSocket_init DATA name cs port dx dy tos it bind_error
    = (Raise e, DATA') →
  is_Some (DATA' !! port) ∧
  (∀ other, other ≠ port → DATA' !! other = DATA !! other) ∧
  ∀ name' cs' dx' dy' tos' sane_interval' bind_error',
    DateDataPullSocket_init DATA' name' cs' port dx' dy' tos' bind_error'
      = (Raise (port_taken port), DATA') ∧
    DataPullSocket_init DATA' name' cs' port dx' dy' tos' bind_error'
      = (Raise (port_taken port), DATA') ∧
    LiveSocket_init DATA' name' cs' sane_interval' port dx' dy' bind_error'
      = (Raise (port_taken port), DATA').
Proof.
  intros Hport Harity Hinit.
  destruct (CommonDataPullSocket_init_registers DATA name cs port dx dy tos it
              bind_error Hport Harity) as [d Hd].
  rewrite Hinit in Hd. simpl in Hd. subst DATA'.
  assert (is_Some (<[port:=d]> DATA !! port)) as Hsome.
  { rewrite lookup_insert_eq. by eexists. }
  split; [done|]. split.
  - intros other Hother. by rewrite lookup_insert_ne.
  - intros. by apply derived_init_taken.
Qed.

(** What the three constructors leave in [DATA] when they return. *)
Lemma constructed DATA name cs port dx dy tos sane_interval bind_error DATA' :
  DateDataPullSocket_init DATA name cs port dx dy tos bind_error
    = (Ok (), DATA') ∨
  DataPullSocket_init DATA name cs port dx dy tos bind_error
    = (Ok (), DATA') ∨
  LiveSocket_init DATA name cs sane_interval port dx dy bind_error
    = (Ok (), DATA') →
  DATA !! port = None ∧ ∃ d, DATA' = <[port := d]> DATA.
Proof.
  unfold DateDataPullSocket_init, DataPullSocket_init, LiveSocket_init.
  intros [H|[H|H]];
    destruct (CommonDataPullSocket_init _ _ _ _ _ _ _ _ _) as [[[]|e] D]
      eqn:Hinit; try done;
    injection H as <-;
    apply CommonDataPullSocket_init_data in Hinit as (d & -> & Hport & _);
    (split; [done|]); unfold update; rewrite ?alter_insert_eq; by eexists.
Qed.

(** X2: [stop] on a socket that is started returns and gives back the
    [DATA] from before the construction, where the port has no socket: the
    check of the port lets a later construction pass (whether its server
    binds is another matter, for [stop] does not close the socket of the
    old one).  On a socket that is made and not started, [stop] does not
    return and the entry stays.  A second [stop], and the three [set_point]
    after a [stop], raise [KeyError]. *)
Theorem stop_frees_the_port
    DATA name cs port dx dy tos sane_interval bind_error DATA' :
  DateDataPullSocket_init DATA name cs port dx dy tos bind_error
    = (Ok (), DATA') ∨
  DataPullSocket_init DATA name cs port dx dy tos bind_error
    = (Ok (), DATA') ∨
  LiveSocket_init DATA name cs sane_interval port dx dy bind_error
    = (Ok (), DATA') →
  stop DATA' port serving = Some (Ok (), (DATA, shut_down)) ∧
  DATA !! port = None ∧
  stop DATA' port not_started = None ∧
  stop DATA port shut_down = Some (Raise (no_socket port), (DATA, shut_down)) ∧
  ∀ now codename point timestamp,
    DateDataPullSocket_set_point DATA port codename point
      = (Raise (no_socket port), DATA) ∧
    DataPullSocket_set_point DATA port now codename point timestamp
      = (Raise (no_socket port), DATA) ∧
    LiveSocket_set_point DATA port codename point
      = (Raise (no_socket port), DATA).
Proof.
  intros Hmade. apply constructed in Hmade as (Hport & d & ->).
  unfold stop, DateDataPullSocket_set_point, DataPullSocket_set_point,
    LiveSocket_set_point, socket.
  rewrite lookup_insert_eq, Hport, delete_insert_id by done. done.
Qed.

End ports.

Section ports_examples.
Import Pull.

(** A duplicate codename on port 9000, and then a second try with good
    codenames. *)
Lemma failed_construction_keeps_the_port_witness :
  let first :=
    DateDataPullSocket_init ∅ "socket" ["a"; "a"] 9000 0 47
      (timeouts_single None) None in
  is_ok first.1 = false ∧
  DateDataPullSocket_init first.2 "socket" ["a"; "b"] 9000 0 47
      (timeouts_single None) None
    = (Raise (Exn ValueError "A UDP server already exists on port: 9000"),
       first.2).
Proof.
  intros first. split; [reflexivity|].
  assert (CommonDataPullSocket_init ∅ "socket" ["a"; "a"] 9000 0 47
            (timeouts_single None) true None
          = (Raise (Exn ValueError
                      "Codenames must be unique; 'a' is present more than once"),
             first.2)) as Hfirst by (vm_compute; reflexivity).
  destruct (failed_construction_keeps_the_port
              ∅ "socket" ["a"; "a"] 9000 0 47
              (timeouts_single None) true None _ _ (lookup_empty _) I Hfirst)
    as (_ & _ & Hagain).
  apply (Hagain "socket" ["a"; "b"] 0%float 47%float (timeouts_single None)
           0%float None).
Defined.

(** A socket on port 9000 is made, started and stopped, and stopped
    again. *)
Lemma stop_frees_the_port_witness :
  let made :=
    (DateDataPullSocket_init ∅ "socket" ["a"] 9000 0 47
       (timeouts_single None) None).2 in
  stop made 9000 serving = Some (Ok (), (∅, shut_down)) ∧
  stop ∅ 9000 shut_down
    = Some (Raise (Exn KeyError "9000"), (∅, shut_down)) ∧
  stop made 9000 not_started = None.
Proof.
  intros made.
  assert (DateDataPullSocket_init ∅ "socket" ["a"] 9000 0 47
            (timeouts_single None) None = (Ok (), made))
    as Hmade by (vm_compute; reflexivity).
  destruct (stop_frees_the_port (rt := Sample.runtime) ∅ "socket" ["a"] 9000
              0 47 (timeouts_single None) 0 None made (or_introl Hmade))
    as (Hstop & _ & Hnever & Hagain & _).
  split; [exact Hstop|]. split; [exact Hagain|exact Hnever].
Defined.

End ports_examples.

(** ** The codenames on the wire *)

Section codenames_raw.
Import Pull.
Context {rt : PyRuntime}.

(** Splitting at the separator undoes joining when no piece has the
    separator. *)
Lemma split_join c l :
  l ≠ [] → Forall (λ s, PyStr.count c s = 0%nat) l →
  PyStr.split c (PyStr.join (String c "") l) = l.
Proof.
  induction l as [|piece [|next rest] IH]; [done|..]; intros _ Hall.
  - simpl. apply split_none. by inversion Hall.
  - apply Forall_cons in Hall as [Hpiece Hrest].
    change (PyStr.join (String c "") (piece :: next :: rest))
      with (piece +:+ String c (PyStr.join (String c "") (next :: rest))).
    rewrite split_app by done. f_equal. by apply IH.
Qed.

(** X3: the reply of a date or x, y socket to [codenames_raw] splits at the
    commas into the codenames the socket was made with, in their order (for
    a socket without codenames the reply is the empty string). *)
Theorem codenames_raw_splits_into_the_codenames
    DATA name cs port dx dy tos bind_error DATA' (clock : nat → float) :
  DateDataPullSocket_init DATA name cs port dx dy tos bind_error
    = (Ok (), DATA') ∨
  DataPullSocket_init DATA name cs port dx dy tos bind_error
    = (Ok (), DATA') →
  ∃ s, handle DATA' port clock "codenames_raw" = Ok (raw s) ∧
    (cs ≠ [] → PyStr.split "," s = cs) ∧ (cs = [] → s = "").
Proof.
  intros Hmade.
  assert (Forall allowed cs ∧ ∃ d, DATA' !! port = Some d ∧ codenames d = cs)
    as (Hallowed & d & Hd & Hcs).
  { unfold DateDataPullSocket_init, DataPullSocket_init in Hmade.
    destruct (CommonDataPullSocket_init _ _ _ _ _ _ _ _ _) as [r D]
      eqn:Hinit.
    assert (r = Ok ()) as ->.
    { destruct r as [[]|e]; [done|]. by destruct Hmade. }
    split.
    - assert ((CommonDataPullSocket_init DATA name cs port dx dy tos true
                 bind_error).1 = Ok ()) as Hok by (by rewrite Hinit).
      by apply CommonDataPullSocket_init_succeeds in Hok as (_ & _ & _ & ? & _).
    - apply CommonDataPullSocket_init_data in Hinit
        as (d & -> & _ & Hc & _).
      destruct Hmade as [[= <-]|[= <-]]; unfold update;
        rewrite ?alter_insert_eq, lookup_insert_eq; by eexists. }
  exists (PyStr.join "," cs). split.
  - unfold handle. rewrite decide_False by done.
    unfold _all_values. do 4 (rewrite decide_False by done).
    rewrite decide_True by done. unfold socket. rewrite Hd. simpl.
    by rewrite Hcs.
  - split; [|by intros ->]. intros Hne. apply split_join; [done|].
    eapply Forall_impl; [exact Hallowed|]. intros c Hc.
    apply contains_count, Hc. unfold BAD_CHARS. set_solver.
Qed.

End codenames_raw.

Section codenames_raw_example.
Import Pull.

Lemma codenames_raw_splits_into_the_codenames_witness :
  let made :=
    (DataPullSocket_init ∅ "socket" ["a b"; "c"] 9010 47 47
       (timeouts_single None) None).2 in
  ∃ s, handle (rt := Sample.runtime) made 9010 (λ _, 0%float) "codenames_raw"
         = Ok (raw s) ∧
       PyStr.split "," s = ["a b"; "c"].
Proof.
  intros made.
  assert (DataPullSocket_init ∅ "socket" ["a b"; "c"] 9010 47 47
            (timeouts_single None) None = (Ok (), made))
    as Hmade by (vm_compute; reflexivity).
  destruct (codenames_raw_splits_into_the_codenames (rt := Sample.runtime)
              ∅ "socket" ["a b"; "c"] 9010 47 47 (timeouts_single None) None
              made (λ _, 0%float) (or_intror Hmade))
    as (s & Hs & Hsplit & _).
  exists s. split; [exact Hs|]. by apply Hsplit.
Defined.

End codenames_raw_example.

(** ** Commands that the pull handler does not know *)

Section unknown_commands.
Import Pull.
Context {rt : PyRuntime}.

(** X4: the handler of the pull sockets answers [UNKNOWN_COMMMAND], and
    looks at no data, for a request without exactly one [#] that is none of
    the seven commands, and for a request [name#word] whose word is neither
    [raw] nor [json]; it answers the same for [name#raw] and [name#json]
    when the socket has no data under the name. *)
Theorem unknown_pull_commands
    (DATA : DATA_t) (port : Z) (clock : nat → float) (command : string) :
  (PyStr.count "#" command ≠ 1%nat → command ∉ all_values_commands →
     handle DATA port clock command = Ok (raw UNKNOWN_COMMAND)) ∧
  (∀ name word,
     PyStr.split "#" command = [name; word] → word ∉ ["raw"; "json"] →
     handle DATA port clock command = Ok (raw UNKNOWN_COMMAND)) ∧
  (∀ d name word,
     PyStr.split "#" command = [name; word] →
     DATA !! port = Some d → data d !! name = None →
     handle DATA port clock command = Ok (raw UNKNOWN_COMMAND)).
Proof.
  assert (∀ name word, PyStr.split "#" command = [name; word] →
            PyStr.count "#" command = 1%nat) as Hone.
  { intros name word Hsplit.
    pose proof (split_length "#" command) as Hlen. rewrite Hsplit in Hlen.
    simpl in Hlen. lia. }
  split_and!.
  - intros Hcount Hword. unfold handle. rewrite decide_False by done.
    unfold all_values_commands in Hword. unfold _all_values.
    repeat (rewrite decide_False by set_solver). done.
  - intros name word Hsplit Hword. unfold handle.
    rewrite decide_True by eauto. unfold _single_value, command_for.
    rewrite Hsplit. repeat (rewrite decide_False by set_solver). done.
  - intros d name word Hsplit Hd Hname. unfold handle.
    rewrite decide_True by eauto. unfold _single_value, command_for, socket.
    rewrite Hsplit, Hd. simpl. rewrite Hname.
    rewrite bool_decide_eq_false_2 by (by intros []).
    destruct (decide (word = "raw")), (decide (word = "json")); done.
Qed.

End unknown_commands.

(** ** The live socket *)

Section live.
Import Pull.
Context {rt : PyRuntime}.

(** What [LiveSocket.__init__] leaves in [DATA] when it returns. *)
Lemma LiveSocket_init_data
    DATA name cs sane_interval port dx dy bind_error DATA' :
  LiveSocket_init DATA name cs sane_interval port dx dy bind_error
    = (Ok (), DATA') →
  ∃ d, DATA' !! port = Some d ∧ codenames d = cs ∧
    Pull.sane_interval d = Some sane_interval ∧
    ∀ c, c ∈ cs → data d !! c = Some (dx, dy).
Proof.
  unfold LiveSocket_init.
  destruct (CommonDataPullSocket_init _ _ _ _ _ _ _ _ _) as [[[]|e] D]
    eqn:Hinit; [|done].
  intros [= <-].
  apply CommonDataPullSocket_init_data in Hinit
    as (d & -> & _ & Hc & _ & Hdom & _ & _ & Hval & _).
  eexists. unfold update. rewrite !alter_insert_eq, lookup_insert_eq.
  split; [done|]. simpl. split; [done|]. split; [done|].
  intros c Hin.
  assert (c ∈ dom (data d)) as [p Hp]%elem_of_dom by (rewrite Hdom; set_solver).
  by rewrite Hp, (Hval _ _ Hp).
Qed.

(** The points of the codenames after a sequence of [set_point]: a call for
    a name that is no codename raises and changes nothing. *)
Lemma LiveSocket_set_points_data DATA port d writes :
  DATA !! port = Some d →
  ∃ d', LiveSocket_set_points DATA port writes !! port = Some d' ∧
    codenames d' = codenames d ∧ name d' = name d ∧
    Pull.sane_interval d' = Pull.sane_interval d ∧
    ∀ c before, c ∈ codenames d → data d !! c = Some before →
      data d' !! c = Some (last_written writes before c).
Proof.
  intros Hd. induction writes as [|[codename point] writes IH] using rev_ind.
  { exists d. by repeat split. }
  destruct IH as (d' & Hd' & Hc & Hn & Hs & Hdata).
  unfold LiveSocket_set_points in *. rewrite foldl_snoc. simpl.
  unfold LiveSocket_set_point at 1, socket. rewrite Hd'.
  assert (∀ c before,
    last_written (writes ++ [(codename, point)]) before c =
      if decide (codename = c) then point else last_written writes before c)
    as Hlast.
  { intros c before. unfold last_written. rewrite filter_app.
    rewrite filter_cons, filter_nil. simpl.
    destruct (decide (codename = c)); [by rewrite last_snoc|].
    by rewrite (right_id_L [] app). }
  destruct (decide (codename ∉ codenames d')) as [Hnew|Hknown]; simpl.
  - exists d'. repeat split; try done.
    intros c before Hin Hbefore. rewrite Hlast, decide_False; [eauto|].
    intros ->. apply Hnew. by rewrite Hc.
  - exists (set_data <[codename := point]> d'). unfold update.
    rewrite lookup_alter_eq, Hd'. repeat split; try done.
    intros c before Hin Hbefore. rewrite Hlast. simpl.
    destruct (decide (codename = c)) as [->|Hne].
    + by rewrite lookup_insert_eq.
    + rewrite lookup_insert_ne by done. eauto.
Qed.

(** The loop of the [data] command. *)
Lemma live_data_loop DATA port d (l : list string) (g : string → point) :
  DATA !! port = Some d → (∀ c, c ∈ l → data d !! c = Some (g c)) →
  for_each (λ (_ : nat) points codename,
      point ← point_of DATA port codename;
      Ok (points ++ [real point])%list) 0%nat [] l
    = Ok ((λ c, real (g c)) <$> l).
Proof.
  intros Hd Hg.
  rewrite (for_each_collect _ (λ _ c, real (g c))).
  - simpl. f_equal. apply (imap_const (λ c, real (g c))).
  - intros i c acc Hi. simpl.
    rewrite (point_of_data _ _ d c (g c)); [done|done|].
    apply Hg. by eapply list_elem_of_lookup_2.
Qed.

(** X5: a live socket serves, for each codename and in the order of the
    codenames, the point of the last [set_point] for that codename, or the
    default point when there was none; a [set_point] for another name
    changes nothing.  It also serves the codenames and the sane interval it
    was made with. *)
Theorem live_socket_serves_the_last_points
    DATA name cs sane_interval port dx dy bind_error DATA' writes :
  LiveSocket_init DATA name cs sane_interval port dx dy bind_error
    = (Ok (), DATA') →
  let DATA'' := LiveSocket_set_points DATA' port writes in
  LiveUDPHandler_handle DATA'' port "data"
    = Ok (json_values ((λ c, real (last_written writes (dx, dy) c)) <$> cs)) ∧
  LiveUDPHandler_handle DATA'' port "codenames" = Ok (json_names cs) ∧
  LiveUDPHandler_handle DATA'' port "sane_interval"
    = Ok (json_number sane_interval).
Proof.
  intros Hmade DATA''.
  apply LiveSocket_init_data in Hmade as (d & Hd & Hc & Hs & Hdata).
  destruct (LiveSocket_set_points_data DATA' port d writes Hd)
    as (d' & Hd' & Hc' & _ & Hs' & Hdata').
  fold DATA'' in Hd'. unfold LiveUDPHandler_handle.
  rewrite Hc in Hc'. split_and!.
  - rewrite decide_True by done. unfold socket at 1. rewrite Hd'. simpl.
    rewrite Hc'.
    rewrite (live_data_loop DATA'' port d' cs
               (last_written writes (dx, dy)) Hd'); [done|].
    intros c Hin. apply Hdata'; [by rewrite Hc|by apply Hdata].
  - rewrite decide_False, decide_True by done. unfold socket.
    rewrite Hd'. simpl. by rewrite Hc'.
  - do 2 rewrite decide_False by done. rewrite decide_True by done.
    unfold socket. rewrite Hd'. simpl. by rewrite Hs', Hs.
Qed.

End live.

Section live_example.
Import Pull.

Lemma live_socket_serves_the_last_points_witness :
  let made :=
    (LiveSocket_init ∅ "live" ["a"; "b"] 1 8000 0 47 None).2 in
  let DATA :=
    LiveSocket_set_points (rt := Sample.runtime) made 8000
      [("a", (1, 2)%float); ("c", (3, 4)%float); ("a", (5, 6)%float)] in
  LiveUDPHandler_handle DATA 8000 "data"
    = Ok (json_values [real (5, 6)%float; real (0, 47)%float]).
Proof.
  intros made DATA.
  assert (LiveSocket_init ∅ "live" ["a"; "b"] 1 8000 0 47 None
          = (Ok (), made)) as Hmade by (vm_compute; reflexivity).
  exact (proj1 (live_socket_serves_the_last_points (rt := Sample.runtime)
                  ∅ "live" ["a"; "b"] 1 8000 0 47 None made
                  [("a", (1, 2)%float); ("c", (3, 4)%float);
                   ("a", (5, 6)%float)] Hmade)).
Defined.

End live_example.

(** ** A point that is set and then read *)

Section set_then_read.
Import Pull.
Context {rt : PyRuntime}.

(** A request for one codename, by what [_old_data] returns for it. *)
Lemma single_value_by_old_data DATA port d clock c p (is_old : bool) :
  DATA !! port = Some d → data d !! c = Some p →
  PyStr.count "#" c = 0%nat →
  _old_data DATA port (clock 0%nat) c = Ok is_old →
  handle DATA port clock (c +:+ "#raw")
    = Ok (raw (if is_old then OLD_DATA else format_point p)) ∧
  handle DATA port clock (c +:+ "#json")
    = Ok (json_value (if is_old then old else real p)).
Proof.
  intros Hd Hp Hc Hold. unfold handle.
  destruct (split_command c "raw" Hc eq_refl) as [Hraw ->].
  destruct (split_command c "json" Hc eq_refl) as [Hjson ->].
  rewrite !decide_True by done. unfold _single_value.
  rewrite Hraw, Hjson, !(command_for_data _ _ d) by done.
  rewrite (bool_decide_eq_true_2 ("raw" = "raw" ∧ _)) by (by rewrite Hp).
  rewrite (bool_decide_eq_false_2 ("json" = "raw" ∧ _)) by (by intros []).
  rewrite (bool_decide_eq_true_2 ("json" = "json" ∧ _)) by (by rewrite Hp).
  simpl. rewrite Hold. simpl.
  rewrite (point_of_data _ _ d c p) by done. by destruct is_old.
Qed.

(** X6: a point set with [DataPullSocket.set_point] is served for its
    codename until the time of the read is more than the timeout of the
    codename after the timestamp given with the point (or after the time of
    the call when none is given); a point set with
    [DateDataPullSocket.set_point_now] is served until the time of the read
    is more than the timeout after the time of the call.  Without a timeout
    for the codename the point is served always. *)
Theorem set_point_then_read
    DATA port d ts (now now' : float) codename p y timestamp :
  DATA !! port = Some d → timeouts d = Some ts →
  PyStr.count "#" codename = 0%nat →
  (∀ tms, type d = Some type_data → timestamps d = Some tms →
     let DATA' :=
       (DataPullSocket_set_point DATA port now codename p timestamp).2 in
     let shown :=
       served (mjoin (ts !! codename)) (default now timestamp) now' p in
     handle DATA' port (λ _, now') (codename +:+ "#json")
       = Ok (json_value shown) ∧
     handle DATA' port (λ _, now') (codename +:+ "#raw")
       = Ok (raw (render shown))) ∧
  (type d = Some type_date →
     let DATA' :=
       (DateDataPullSocket_set_point_now DATA port now codename y).2 in
     let shown := served (mjoin (ts !! codename)) now now' (now, y) in
     handle DATA' port (λ _, now') (codename +:+ "#json")
       = Ok (json_value shown) ∧
     handle DATA' port (λ _, now') (codename +:+ "#raw")
       = Ok (raw (render shown))).
Proof.
  intros Hd Hts Hc. split.
  - intros tms Hty Htms DATA' shown.
    set (d' := set_timestamps (<[codename := default now timestamp]> tms)
                 (set_data <[codename := p]> d)).
    assert (DATA' !! port = Some d') as Hd'.
    { subst DATA'. unfold DataPullSocket_set_point, socket, update.
      rewrite Hd, lookup_alter_eq, Hd. simpl. rewrite Htms. simpl.
      by rewrite !lookup_alter_eq, Hd. }
    destruct (single_value_by_old_data DATA' port d' (λ _, now') codename p
                (match mjoin (ts !! codename) with
                 | Some T =>
                     PrimFloat.ltb T
                       (PrimFloat.sub now' (default now timestamp))
                 | None => false
                 end) Hd') as [Hraw Hjson]; [apply lookup_insert_eq|done|..].
    { unfold _old_data, socket. rewrite Hd'. simpl. rewrite Hty, Hts. simpl.
      destruct (mjoin (ts !! codename)); [|done].
      unfold getitem. by rewrite lookup_insert_eq. }
    rewrite Hraw, Hjson. subst shown. unfold served.
    destruct (mjoin (ts !! codename)) as [T|]; [|done].
    by destruct (PrimFloat.ltb _ _).
  - intros Hty DATA' shown.
    set (d' := set_data <[codename := (now, y)]> d).
    assert (DATA' !! port = Some d') as Hd'.
    { subst DATA'. unfold DateDataPullSocket_set_point_now.
      rewrite (DateDataPullSocket_set_point_data _ _ _ _ d) by done.
      apply lookup_insert_eq. }
    destruct (single_value_by_old_data DATA' port d' (λ _, now') codename
                (now, y)
                (match mjoin (ts !! codename) with
                 | Some T => PrimFloat.ltb T (PrimFloat.sub now' now)
                 | None => false
                 end) Hd') as [Hraw Hjson]; [apply lookup_insert_eq|done|..].
    { unfold _old_data, socket. rewrite Hd'. simpl. rewrite Hty, Hts. simpl.
      destruct (mjoin (ts !! codename)); [|done].
      unfold getitem. by rewrite lookup_insert_eq. }
    rewrite Hraw, Hjson. subst shown. unfold served.
    destruct (mjoin (ts !! codename)) as [T|]; [|done].
    by destruct (PrimFloat.ltb _ _).
Qed.

End set_then_read.

Section set_then_read_example.
Import Pull.

(** An x, y socket with a timeout of 3 s: a point measured at time 8 is
    served at time 10 and is old at time 12. *)
Lemma set_point_then_read_witness :
  let made :=
    (DataPullSocket_init ∅ "socket" ["a"] 9010 47 47
       (timeouts_single (Some 3%float)) None).2 in
  let DATA :=
    (DataPullSocket_set_point made 9010 9 "a" (1, 2)%float
       (Some 8%float)).2 in
  handle (rt := Sample.runtime) DATA 9010 (λ _, 10%float) "a#raw"
    = Ok (raw "1.0,2.0") ∧
  handle (rt := Sample.runtime) DATA 9010 (λ _, 12%float) "a#raw"
    = Ok (raw "OLD_DATA").
Proof.
  intros made DATA.
  assert (∃ d ts tms, made !! 9010 = Some d ∧ timeouts d = Some ts ∧
            type d = Some type_data ∧ timestamps d = Some tms ∧
            mjoin (ts !! "a") = Some 3%float)
    as (d & ts & tms & Hd & Hts & Hty & Htms & Ha).
  { vm_compute. do 3 eexists. repeat split. }
  split.
  - destruct (proj1 (set_point_then_read (rt := Sample.runtime) made 9010 d
                       ts 9 10 "a" (1, 2)%float 0 (Some 8%float) Hd Hts
                       eq_refl) tms Hty Htms) as [_ Hraw].
    rewrite Ha in Hraw. exact Hraw.
  - destruct (proj1 (set_point_then_read (rt := Sample.runtime) made 9010 d
                       ts 9 12 "a" (1, 2)%float 0 (Some 8%float) Hd Hts
                       eq_refl) tms Hty Htms) as [_ Hraw].
    rewrite Ha in Hraw. exact Hraw.
Defined.

End set_then_read_example.

(** ** Requests to the push socket *)

Section push_requests.
Import Push.
Context {rt : PyRuntime}.

Lemma for_each_ok_or_value_error {A St}
    (body : nat → St → A → result St) k s l :
  (∀ k s a, ok_or_value_error (body k s a)) →
  ok_or_value_error (for_each body k s l).
Proof.
  intros Hbody. revert k s. induction l as [|a l IH]; intros k s; simpl.
  { by left. }
  destruct (Hbody k s a) as [Hok|[m Hm]].
  - destruct (body k s a) as [s'|]; [|done]. simpl. apply IH.
  - rewrite Hm. right. by exists m.
Qed.

Lemma raw_parse_ok_or_value_error data :
  ok_or_value_error (raw_parse data).
Proof.
  apply for_each_ok_or_value_error. intros _ data_out part.
  apply raw_part_ok_or_value_error.
Qed.

Lemma json_parse_ok_or_value_error data :
  ok_or_value_error (json_parse data).
Proof.
  unfold json_parse.
  destruct (json_loads data) as [m|v]; simpl; [right; by eexists|].
  destruct v; try (right; by eexists). by left.
Qed.

(** [_set_data] raises only when the action needs a queue and there is
    none. *)
Lemma set_data_answers st timestamp data :
  queue_ready st → ∃ reply, (_set_data st timestamp data).1 = Ok reply.
Proof.
  unfold queue_ready, _set_data, alloc. intros Hq. simpl.
  destruct (decide (action (sock st) ∈ [enqueue; callback_async]))
    as [Hin|Hin]; simpl.
  - destruct (Hq Hin) as [q ->]. simpl.
    destruct (decide (action (sock st) = callback_direct)) as [Heq|];
      [|by eexists].
    rewrite Heq in Hin. set_solver.
  - destruct (decide (action (sock st) = callback_direct)); [|by eexists].
    unfold entry. destruct (callback (sock st)) as [f|]; [|by eexists].
    simpl. destruct (f data) as [returned data_left].
    destruct (_ ≫= _); by eexists.
Qed.

Lemma set_data_config st timestamp data :
  let st' := (_set_data st timestamp data).2 in
  action (sock st') = action (sock st) ∧ name (sock st') = name (sock st) ∧
  callback (sock st') = callback (sock st) ∧
  return_format (sock st') = return_format (sock st) ∧
  (is_Some (queue (sock st)) → is_Some (queue (sock st'))).
Proof.
  unfold _set_data, alloc, entry.
  repeat (case_match; simplify_eq/=); done.
Qed.

(** A request that pushes a dictionary is handled by [_set_data]. *)
Lemma handle_pushed st timestamp request data :
  queue_ready st → pushed request = Some data →
  handle st timestamp request = _set_data st timestamp data.
Proof.
  intros Hq. unfold pushed, handle.
  destruct (decide (request = "name")); [done|].
  destruct (PyStr.split "#" request) as [|command [|payload [|]]] eqn:Hsplit;
    try done.
  pose proof (split_length "#" request) as Hlen. rewrite Hsplit in Hlen.
  assert (PyStr.count "#" request = 1%nat) as Hone by (simpl in Hlen; lia).
  rewrite (decide_False (P := PyStr.count "#" request ≠ 1%nat))
    by (intros Hne; by apply Hne).
  destruct (set_data_answers st timestamp data Hq) as [reply Hreply].
  unfold _json_with_names, _raw_with_names.
  destruct (decide (command = "json_wn")).
  - destruct (json_parse payload); [|done]. intros [= ->].
    destruct (_set_data st timestamp data) as [r st']. simpl in Hreply.
    by subst r.
  - destruct (decide (command = "raw_wn")); [|done].
    destruct (raw_parse payload); [|done]. intros [= ->].
    destruct (_set_data st timestamp data) as [r st']. simpl in Hreply.
    by subst r.
Qed.

(** Any other request is answered and changes nothing. *)
Lemma handle_not_pushed st timestamp request :
  pushed request = None →
  ∃ reply, handle st timestamp request = (Ok reply, st).
Proof.
  unfold pushed, handle.
  destruct (decide (request = "name")); [by eexists|].
  destruct (decide (PyStr.count "#" request ≠ 1%nat)) as [|Hone];
    [by eexists|].
  apply dec_stable in Hone.
  pose proof (split_length "#" request) as Hlen. rewrite Hone in Hlen.
  destruct (PyStr.split "#" request) as [|command [|payload [|]]];
    try done.
  unfold _json_with_names, _raw_with_names.
  destruct (decide (command = "json_wn")).
  - destruct (json_parse_ok_or_value_error payload) as [Hok|[m Hm]].
    + by destruct (json_parse payload).
    + rewrite Hm. by eexists.
  - destruct (decide (command = "raw_wn")); [|by eexists].
    destruct (raw_parse_ok_or_value_error payload) as [Hok|[m Hm]].
    + by destruct (raw_parse payload).
    + rewrite Hm. by eexists.
Qed.


(** X8: a request that is not [name] and has no [#], or more than one, or
    whose command before the [#] is neither [json_wn] nor [raw_wn], is
    answered [ERROR#UNKNOWN_COMMMAND] and changes nothing.  So data with a
    [#] in it cannot be pushed, whatever its format. *)
Theorem unknown_push_commands st timestamp request :
  request ≠ "name" →
  PyStr.count "#" request ≠ 1%nat ∨
  (∃ command data, PyStr.split "#" request = [command; data] ∧
     command ∉ ["json_wn"; "raw_wn"]) →
  handle st timestamp request = (Ok (text PUSH_ERROR UNKNOWN_COMMAND), st).
Proof.
  intros Hname Hunknown. unfold handle. rewrite decide_False by done.
  destruct Hunknown as [Hcount|(command & data & Hsplit & Hcommand)].
  { by rewrite decide_True. }
  pose proof (split_length "#" request) as Hlen. rewrite Hsplit in Hlen.
  assert (PyStr.count "#" request = 1%nat) as Hone by (simpl in Hlen; lia).
  rewrite (decide_False (P := PyStr.count "#" request ≠ 1%nat))
    by (intros Hne; by apply Hne). rewrite Hsplit.
  by do 2 (rewrite decide_False by set_solver).
Qed.

End push_requests.

Section push_requests_examples.
Import Push.


Lemma unknown_push_commands_witness :
  let st :=
    State {[1%positive := []]}
      (SocketData store_last None 1%positive None None "push" None None
         None) in
  handle (rt := Sample.runtime) st 5 "raw_wn#a:str:#1"
    = (Ok (text "ERROR" "UNKNOWN_COMMMAND"), st) ∧
  handle (rt := Sample.runtime) st 5 "json#{}"
    = (Ok (text "ERROR" "UNKNOWN_COMMMAND"), st).
Proof.
  intros st. split.
  - apply (unknown_push_commands (rt := Sample.runtime) st 5
             "raw_wn#a:str:#1"); [done|]. left. vm_compute. lia.
  - apply (unknown_push_commands (rt := Sample.runtime) st 5 "json#{}");
      [done|]. right. exists "json", "{}". split; [reflexivity|].
    set_solver.
Defined.

End push_requests_examples.

(** ** The data kept by the push socket *)

Section kept.
Import Push.
Context {rt : PyRuntime}.

Lemma set_data_valid st timestamp data :
  valid st → valid (_set_data st timestamp data).2.
Proof.
  intros Hvalid.
  destruct (set_data_state st timestamp data Hvalid)
    as (Hlast & _ & Hupd & _ & Hheap).
  destruct Hvalid as [Hu _]. split.
  - rewrite Hupd, Hheap, lookup_alter_is_Some, lookup_insert_is_Some'. auto.
  - intros l. rewrite Hlast. intros [= <-].
    rewrite Hheap, lookup_alter_is_Some, lookup_insert_is_Some'. auto.
Qed.

(** What one request leaves behind. *)
Lemma handle_state st timestamp request :
  queue_ready st →
  (handle st timestamp request).2 =
    match pushed request with
    | Some data => (_set_data st timestamp data).2
    | None => st
    end.
Proof.
  intros Hq. destruct (pushed request) as [data|] eqn:Hpushed.
  - by rewrite (handle_pushed _ _ _ _ Hq Hpushed).
  - by destruct (handle_not_pushed st timestamp request Hpushed) as [? ->].
Qed.







End kept.

Section kept_example.
Import Push.


End kept_example.

(** ** The queue and the callback *)

Section queue.
Import Push.
Context {rt : PyRuntime}.

Lemma set_data_enqueues st timestamp data q :
  action (sock st) ∈ [enqueue; callback_async] → queue (sock st) = Some q →
  queue (sock (_set_data st timestamp data).2)
    = Some (q ++ [fresh (dom (heap st))])%list.
Proof.
  intros Haction Hqueue. unfold _set_data, alloc, entry.
  repeat (case_match; simplify_eq/=); done.
Qed.

(** X10: with the action [enqueue], a push puts at the end of the queue
    the very dictionary that [last] refers to, not a copy of it: a change
    that the reader of the queue makes to the item is seen by every later
    read of [last]. *)
Theorem queue_shares_the_dictionary st timestamp request data q :
  valid st → action (sock st) = enqueue → queue (sock st) = Some q →
  pushed request = Some data →
  let st' := (handle st timestamp request).2 in
  ∃ item,
    queue_property st' = Some (q ++ [item])%list ∧
    last (sock st') = Some item ∧
    heap st !! item = None ∧ heap st' !! item = Some data ∧
    ∀ k v,
      let changed := State (apply_op (heap st') item (setitem k v)).2
                       (sock st') in
      ∃ copy,
        (last_property changed).1 = Ok (Some timestamp, Some copy) ∧
        heap (last_property changed).2 !! copy = Some (dict_set k v data).
Proof.
  intros Hvalid Haction Hqueue Hpushed st'.
  assert (queue_ready st) as Hq by (intros _; by rewrite Hqueue).
  subst st'. rewrite (handle_pushed _ _ _ _ Hq Hpushed).
  destruct (set_data_state st timestamp data Hvalid)
    as (Hlast & Htime & _ & _ & Hheap).
  set (item := fresh (dom (heap st))) in *.
  assert (heap st !! item = None) as Hnew.
  { apply not_elem_of_dom, is_fresh. }
  assert (heap (_set_data st timestamp data).2 !! item = Some data) as Hitem.
  { rewrite Hheap, lookup_alter_ne, lookup_insert_eq.
    - unfold after_callback. by rewrite Haction.
    - intros Heq. destruct Hvalid as [[? Hu] _]. rewrite Heq in Hu.
      congruence. }
  exists item. split_and!; try done.
  - apply set_data_enqueues; [|done]. rewrite Haction. set_solver.
  - intros k v changed. subst changed.
    unfold last_property, apply_op, deref, alloc. simpl.
    rewrite Hlast, Hitem. simpl. rewrite lookup_insert_eq, Htime.
    eexists. split; [done|]. simpl. by rewrite lookup_insert_eq.
Qed.



End queue.

Section queue_examples.
Import Push.

(** A socket that enqueues: the item of the queue is changed, and [last]
    shows the change. *)
Lemma queue_shares_the_dictionary_witness :
  let st :=
    State {[1%positive := []]}
      (SocketData enqueue None 1%positive None None "push" (Some []) None
         None) in
  let st' := (handle (rt := Sample.runtime) st 5 "raw_wn#a:int:1").2 in
  ∃ item,
    queue_property st' = Some [item] ∧
    let changed := State (apply_op (heap st') item (setitem "a" (VInt 9))).2
                     (sock st') in
    ∃ copy,
      (last_property changed).1 = Ok (Some 5%float, Some copy) ∧
      heap (last_property changed).2 !! copy = Some [("a", VInt 9)].
Proof.
  intros st st'.
  destruct (queue_shares_the_dictionary (rt := Sample.runtime) st 5
              "raw_wn#a:int:1" [("a", VInt 1)] [])
    as (item & Hqueue & _ & _ & _ & Hchanged).
  - split; [by eexists|done].
  - reflexivity.
  - reflexivity.
  - reflexivity.
  - exists item. split; [exact Hqueue|]. apply (Hchanged "a" (VInt 9)).
Defined.


End queue_examples.

(** ** The raw format of a returned list *)

Section raw_list.
Import Push.
Context {rt : PyRuntime}.

(** The loop of [_format_return_raw_list] over a list of lists. *)
Lemma raw_list_loop k types items (rows : list (list pyval)) :
  for_each (λ (_ : nat) '(types, items) item,
      match item with
      | VList elements =>
          Ok ((types ++ (type_of <$> elements))%list,
              (items ++ [PyStr.join "," (str <$> elements)])%list)
      | _ =>
          Raise (Exn ValueError
            ("With return format raw on a list, the elements " +:+
             "themselves be lists"))
      end) k (types, items) (VList <$> rows)
  = Ok ((types ++ (type_of <$> List.concat rows))%list,
        (items ++ ((λ row, PyStr.join "," (str <$> row)) <$> rows))%list).
Proof.
  revert k types items. induction rows as [|row rows IH];
    intros k types items; simpl.
  { by rewrite !(right_id_L [] app). }
  rewrite IH, fmap_app. by rewrite <-!(assoc_L app).
Qed.

Lemma raw_list_loop_raises k acc (argument : list pyval) item :
  item ∈ argument → type_of item ≠ t_list →
  ∃ e, for_each (λ (_ : nat) '(types, items) item,
      match item with
      | VList elements =>
          Ok ((types ++ (type_of <$> elements))%list,
              (items ++ [PyStr.join "," (str <$> elements)])%list)
      | _ =>
          Raise (Exn ValueError
            ("With return format raw on a list, the elements " +:+
             "themselves be lists"))
      end) k acc argument = Raise e.
Proof.
  intros Hin Hitem. revert k acc.
  induction argument as [|first argument IH]; intros k [types items];
    [by apply elem_of_nil in Hin|].
  apply elem_of_cons in Hin as [<-|Hin]; simpl.
  - destruct item; simpl in *; try done; by eexists.
  - destruct first; simpl; try (by apply IH); by eexists.
Qed.

(** X12: a list of lists returned by a direct callback is rendered in the
    raw format as [RET#type:] and the lists joined by [&], the values of a
    list joined by commas, when there is at least one value and the values
    of all the lists are of one type among [int], [float], [bool] and
    [str].  A list without any value ([[]], or a list of empty lists) is
    answered [EXCEP#] with the message of an index error, and so is, with a
    message, a list with an element that is not a list. *)
Theorem raw_list_reply (rows : list (list pyval)) :
  (∀ t, t ∈ [t_int; t_float; t_bool; t_str] → List.concat rows ≠ [] →
     Forall (λ v, type_of v = t) (List.concat rows) →
     _format_return_raw (VList (VList <$> rows)) =
       text PUSH_RET
         (type_name t +:+ ":" +:+
          PyStr.join "&" ((λ row, PyStr.join "," (str <$> row)) <$> rows))) ∧
  (List.concat rows = [] →
     _format_return_raw (VList (VList <$> rows)) =
       text PUSH_EXCEP
         "Raw conversion failed with message:list index out of range") ∧
  (∀ argument item, item ∈ argument → type_of item ≠ t_list →
     ∃ m, _format_return_raw (VList argument) = text PUSH_EXCEP m).
Proof.
  split_and!.
  - intros t Ht Hne Hall. unfold _format_return_raw, _format_return_raw_list.
    rewrite raw_list_loop. simpl.
    destruct (List.concat rows) as [|first values] eqn:Hvalues; [done|]. simpl.
    apply Forall_cons in Hall as [Hfirst Hall]. rewrite Hfirst.
    rewrite decide_False.
    + unfold not_raw_type. by rewrite bool_decide_eq_false_2 by auto.
    + intros Hdiff. apply Hdiff. simpl. f_equal.
      rewrite length_fmap. clear -Hall.
      induction Hall as [|v values Hv _ IH]; simpl; [done|].
      by rewrite Hv, IH.
  - intros Hempty. unfold _format_return_raw, _format_return_raw_list.
    rewrite raw_list_loop, Hempty. done.
  - intros argument item Hin Hitem.
    unfold _format_return_raw, _format_return_raw_list.
    destruct (raw_list_loop_raises 0%nat ([], []) argument item Hin Hitem)
      as [e ->].
    by eexists.
Qed.

End raw_list.

Section raw_list_example.
Import Push.

(** Two points of floats, and the empty list. *)
Lemma raw_list_reply_witness :
  _format_return_raw (rt := Sample.runtime)
    (VList [VList [VFloat 7; VFloat 42]; VList [VFloat 8; VFloat 47]])
    = text "RET" "float:7.0,42.0&8.0,47.0" ∧
  _format_return_raw (rt := Sample.runtime) (VList [])
    = text "EXCEP"
        "Raw conversion failed with message:list index out of range".
Proof.
  split.
  - apply (proj1 (raw_list_reply (rt := Sample.runtime)
                    [[VFloat 7; VFloat 42]; [VFloat 8; VFloat 47]])
             t_float); [set_solver|done|by repeat constructor].
  - by apply (proj1 (proj2 (raw_list_reply (rt := Sample.runtime) []))).
Defined.

End raw_list_example.

(** ** Resetting the push socket *)

Section resets.
Import Push.
Context {rt : PyRuntime}.

(** X13: [set_last_to_none] makes [last] give [(None, None)] and leaves
    [updated] and every dictionary as they are; [clear_updated] empties the
    stored dictionary of [updated], so that [updated] gives [None] and an
    empty dictionary, and leaves [last] and every other dictionary as they
    are.  The push after a [clear_updated] starts [updated] anew: it has
    the items of that push only. *)
Theorem resets_of_the_push_socket st :
  valid st →
  (let st' := set_last_to_none st in
   valid st' ∧ last_property st' = (Ok (None, None), st') ∧
   heap st' = heap st ∧ updated (sock st') = updated (sock st) ∧
   updated_time (sock st') = updated_time (sock st)) ∧
  (let st' := clear_updated st in
   valid st' ∧ last (sock st') = last (sock st) ∧
   last_time (sock st') = last_time (sock st) ∧
   (∀ l, l ≠ updated (sock st) → heap st' !! l = heap st !! l) ∧
   (∃ copy st'',
      updated_property st' = (Ok (None, copy), st'') ∧
      heap st'' !! copy = Some []) ∧
   ∀ timestamp data,
     let st'' := (_set_data st' timestamp data).2 in
     heap st'' !! updated (sock st'') = Some (dict_update [] data)).
Proof.
  intros [[u Hu] Hlast]. split.
  - simpl. split_and!; done.
  - simpl.
    assert (valid (clear_updated st)) as Hvalid.
    { split; simpl.
      + rewrite lookup_alter_is_Some. by eexists.
      + intros l Hl. rewrite lookup_alter_is_Some. by apply Hlast. }
    split_and!; try done.
    + intros l Hl. unfold clear_updated. simpl.
      by rewrite lookup_alter_ne.
    + unfold updated_property, deref, alloc, clear_updated. simpl.
      rewrite lookup_alter_eq, Hu. simpl.
      do 2 eexists. split; [done|]. simpl. by rewrite lookup_insert_eq.
    + intros timestamp data.
      destruct (set_data_state _ timestamp data Hvalid)
        as (_ & _ & Hupd & _ & Hheap).
      rewrite Hupd, Hheap. simpl.
      rewrite lookup_alter_eq, lookup_insert_ne, lookup_alter_eq, Hu; [done|].
      intros Heq.
      pose proof (is_fresh (dom (alter (λ _ : dict, [])
                                   (updated (sock st)) (heap st)))) as Hfresh.
      rewrite Heq in Hfresh. apply Hfresh, elem_of_dom.
      rewrite lookup_alter_is_Some. by eexists.
Qed.

End resets.

Section resets_example.
Import Push.

(** A socket that has stored [{'a': 1}] is cleared, and then [b] is
    pushed. *)
Lemma resets_of_the_push_socket_witness :
  let st :=
    State (<[2%positive := [("a", VInt 1)]]> {[1%positive := [("a", VInt 1)]]})
      (SocketData store_last (Some 2%positive) 1%positive (Some 5%float)
         (Some 5%float) "push" None None None) in
  last_property (set_last_to_none st)
    = (Ok (None, None), set_last_to_none st) ∧
  let st' := (handle (rt := Sample.runtime) (clear_updated st) 6
                "raw_wn#b:int:2").2 in
  heap st' !! updated (sock st') = Some [("b", VInt 2)].
Proof.
  intros st.
  destruct (resets_of_the_push_socket (rt := Sample.runtime) st)
    as [(_ & Hnone & _) (_ & _ & _ & _ & _ & Hpush)].
  { split; [by eexists|]. intros l [= <-]. by eexists. }
  split; [exact Hnone|]. exact (Hpush 6%float [("b", VInt 2)]).
Defined.

End resets_example.

(** ** Construction of a push socket *)

Section push_construction.
Import Push.

(** X14: [DataPushSocket.__init__] returns exactly when the action is one
    of the four actions, a queue is given only with [enqueue], a callback
    is given with the two callback actions and with them only, the return
    format is one of the three formats (whatever the action), and the
    server binds.  The socket then has a queue with [enqueue] and
    [callback_async] and none with the two other actions, and it answers
    every request. *)
Theorem DataPushSocket_init_succeeds
    h name action queue callback return_format bind_error :
  (is_ok (DataPushSocket_init h name action queue callback return_format
            bind_error) = true ↔
   action ∈ ["store_last"; "enqueue"; "callback_async"; "callback_direct"] ∧
   (is_Some queue → action = "enqueue") ∧
   (is_Some callback ↔ action ∈ ["callback_async"; "callback_direct"]) ∧
   return_format ∈ ["json"; "raw"; "string"] ∧ bind_error = None) ∧
  ∀ st,
    DataPushSocket_init h name action queue callback return_format
      bind_error = Ok st →
    queue_ready st ∧
    (queue_property st = None ↔ action ∈ ["store_last"; "callback_direct"]) ∧
    (action = "enqueue" → queue_property st = Some (default [] queue)) ∧
    (action = "callback_async" → queue_property st = Some []).
Proof.
  unfold DataPushSocket_init, queue_ready, queue_property.
  destruct (decide (is_Some queue ∧ action ≠ "enqueue")) as [Hq|Hq].
  { split; [|done]. split; [done|]. intros (_ & Himp & _).
    destruct Hq as [Hsome Hne]. destruct (Hne (Himp Hsome)). }
  destruct (decide (is_Some callback ∧ _)) as [Hc|Hc].
  { split; [|done]. split; [done|]. intros (_ & _ & Hiff & _).
    destruct Hc as [Hsome Hne]. destruct (Hne (proj1 Hiff Hsome)). }
  destruct (decide (_ ∧ ¬ is_Some callback)) as [Hc'|Hc'].
  { split; [|done]. split; [done|]. intros (_ & _ & Hiff & _).
    destruct Hc' as [Hin Hnone]. destruct (Hnone (proj2 Hiff Hin)). }
  assert (is_Some queue → action = "enqueue") as Hqueue.
  { intros Hsome. destruct (decide (action = "enqueue")); [done|].
    destruct Hq. by split. }
  assert (is_Some callback ↔ action ∈ ["callback_async"; "callback_direct"])
    as Hcallback.
  { split.
    - intros Hsome.
      destruct (decide (action ∈ ["callback_async"; "callback_direct"]));
        [done|]. destruct Hc. by split.
    - intros Hin. destruct (decide (is_Some callback)); [done|].
      destruct Hc'. by split. }
  clear Hq Hc Hc'.
  destruct (decide (return_format = "json")) as [->|Hjson];
    [|destruct (decide (return_format = "raw")) as [->|Hraw];
      [|destruct (decide (return_format = "string")) as [->|Hstring]]].
  4: { split; [|done]. split; [done|]. intros (_ & _ & _ & Hin & _).
       set_solver. }
  all: unfold alloc; simpl.
  all: destruct (decide (action = "store_last")) as [->|Hstore];
         [|destruct (decide (action = "enqueue")) as [->|Henqueue];
           [|destruct (decide (action = "callback_async")) as [->|Hasync];
             [|destruct (decide (action = "callback_direct"))
                 as [->|Hdirect]]]]; simpl.
  all: try (split; [|done]; split; [done|]; intros (Hin & _); set_solver).
  all: destruct bind_error as [errno|]; simpl;
         [split; [|by destruct (decide (errno = 98))];
          split; [by destruct (decide (errno = 98))|naive_solver]|].
  all: split; [split; [intros _; split_and!; try done; set_solver|done]|].
  all: intros st [= <-]; simpl; split_and!; try done; try set_solver.
  all: try (intros _; by eexists).
  all: try (split; [done|]; set_solver).
  all: intros Hin; exfalso; set_solver.
Qed.

End push_construction.

Section async.
Import Push CallBack.
Context {rt : PyRuntime}.

Lemma mapM_lookup_frame (h h' : heap_t) (q : list loc) :
  (∀ l, l ∈ q → h' !! l = h !! l) →
  mapM (λ item, h' !! item) q = mapM (λ item, h !! item) q.
Proof.
  intros Hsame. induction q as [|item q IH]; [done|]. simpl.
  rewrite Hsame by set_solver. rewrite IH; [done|].
  intros l Hl. apply Hsame. set_solver.
Qed.

Lemma mapM_lookup_Some (h : heap_t) (q : list loc) ds :
  mapM (λ item, h !! item) q = Some ds → ∀ l, l ∈ q → is_Some (h !! l).
Proof.
  revert ds. induction q as [|item q IH]; intros ds; simpl.
  { intros _ l Hl. by apply elem_of_nil in Hl. }
  destruct (h !! item) as [d|] eqn:Hd; simpl; [|done].
  destruct (mapM _ q) as [ds'|] eqn:Hds; simpl; [|done].
  intros _ l [->|Hl]%elem_of_cons; [by eexists|by eapply IH].
Qed.

Lemma mapM_lookup_snoc (h : heap_t) (q : list loc) item ds d :
  mapM (λ item, h !! item) q = Some ds → h !! item = Some d →
  mapM (λ item, h !! item) (q ++ [item]) = Some (ds ++ [d])%list.
Proof.
  revert ds. induction q as [|first q IH]; intros ds; simpl.
  { intros [= <-] ->. done. }
  destruct (h !! first) as [d'|]; simpl; [|done].
  destruct (mapM _ q) as [ds'|] eqn:Hds; simpl; [|done].
  intros [= <-] Hitem. by rewrite (IH ds').
Qed.

Local Ltac same_queue Hfresh Hqueue pending :=
  split; simpl; [done|done|
    intros ? ?; apply Hfresh; congruence|
    exists pending; unfold waiting; by rewrite Hqueue].

Lemma queued_step s pushes ev :
  queued s pushes →
  queued (step s ev)
    (pushes ++ match ev with
               | request _ data => option_list (pushed data)
               | _ => []
               end).
Proof.
  intros [Hvalid Haction Hfresh (pending & Hwait & Hall)].
  destruct s as [t st]. simpl in *.
  unfold waiting in Hwait.
  destruct (queue (sock st)) as [q|] eqn:Hqueue; simpl in Hwait; [|done].
  assert (queue_ready st) as Hready by (intros _; by rewrite Hqueue).
  destruct ev as [timestamp data| |]; simpl.
  - rewrite (handle_state _ _ _ Hready).
    destruct (pushed data) as [d|] eqn:Hpushed; simpl.
    2: { rewrite (right_id_L [] app). same_queue Hfresh Hqueue pending. }
    destruct (set_data_state st timestamp d Hvalid)
      as (Hlast & _ & Hupd & _ & Hheap).
    destruct (set_data_config st timestamp d) as (Ha & _).
    pose proof (set_data_enqueues st timestamp d q) as Hq'.
    rewrite Haction in Hq'. specialize (Hq' ltac:(set_solver) Hqueue).
    assert (updated (sock st) ≠ fresh (dom (heap st))) as Hnew.
    { intros Heq. destruct Hvalid as [Hin%elem_of_dom _].
      rewrite Heq in Hin. by apply is_fresh in Hin. }
    split; simpl.
    + by apply set_data_valid.
    + by rewrite Ha.
    + intros q0. rewrite Hq', Hupd. intros [= <-].
      intros [Hin|Hin%list_elem_of_singleton]%elem_of_app; [|done].
      by apply (Hfresh q).
    + exists (pending ++ [d])%list. split; [|by rewrite (assoc_L app), Hall].
      unfold waiting. rewrite Hq'. simpl.
      apply mapM_lookup_snoc.
      * rewrite <-Hwait. apply mapM_lookup_frame. intros l Hl.
        rewrite Hheap, lookup_alter_ne, lookup_insert_ne; [done| |].
        -- intros <-. apply (mapM_lookup_Some _ _ _ Hwait) in Hl as [? Hl].
           pose proof (is_fresh (dom (heap st))) as Hf.
           apply Hf, elem_of_dom. by eexists.
        -- intros <-. by apply (Hfresh q).
      * rewrite Hheap, lookup_alter_ne, lookup_insert_eq by done.
        unfold after_callback. by rewrite Haction.
  - rewrite (right_id_L [] app). unfold run_pass.
    destruct (ended t) eqn:Hended.
    { same_queue Hfresh Hqueue pending. }
    destruct (_stop t).
    { same_queue Hfresh Hqueue pending. }
    unfold get. rewrite Hqueue. simpl.
    destruct q as [|item rest]; simpl in *.
    { same_queue Hfresh Hqueue pending. }
    unfold deref. simpl.
    destruct (heap st !! item) as [d|] eqn:Hitem; simpl in Hwait; [|done].
    destruct (mapM _ rest) as [ds|] eqn:Hrest; simpl in Hwait; [|done].
    injection Hwait as <-.
    assert (queued (Thread false (callback t) (called t ++ [d]) None,
                    State (heap st) (set_queue rest (sock st))) pushes
            ∧ ∀ e, queued (Thread false (callback t) (called t ++ [d])
                             (Some (Raise e)),
                           State (heap st) (set_queue rest (sock st)))
                     pushes) as [Hok Hraise].
    { split; [|intros e]; (split; simpl; try done;
        [intros q0 [= <-] Hin; apply (Hfresh (item :: rest)); set_solver|
         exists ds; unfold waiting; simpl; rewrite Hrest;
         split; [done|]; by rewrite <-(assoc_L app)]). }
    destruct (callback t d); [exact Hok|apply Hraise].
  - rewrite (right_id_L [] app). same_queue Hfresh Hqueue pending.
Qed.

Lemma queued_steps s pushes events :
  queued s pushes → queued (steps s events) (pushes ++ arrived events).
Proof.
  intros Hs. unfold steps, arrived.
  induction events as [|ev events IH] using rev_ind.
  { simpl. by rewrite (right_id_L [] app). }
  rewrite foldl_snoc, omap_app, (assoc_L app). simpl.
  apply (queued_step _ _ ev) in IH.
  destruct ev; simpl in *; done.
Qed.

(** Once [run] has ended, the thread calls no more. *)
Lemma ended_steps s events :
  is_Some (ended s.1) →
  called (steps s events).1 = called s.1 ∧
  ended (steps s events).1 = ended s.1.
Proof.
  intros Hended. unfold steps.
  induction events as [|ev events IH] using rev_ind; [done|].
  rewrite foldl_snoc. destruct IH as [Hcalled Hsame].
  rewrite <-Hcalled, <-Hsame. rewrite <-Hsame in Hended.
  destruct (foldl step s events) as [t st]. simpl in *.
  destruct ev; simpl; try done. unfold run_pass.
  destruct Hended as [r Hr]. by rewrite Hr.
Qed.

(** X15: with the action [callback_async], whatever the order in which the
    requests arrive, the thread passes through its loop and [stop] is
    called: the dictionaries the callback has been called with, followed by
    the dictionaries that wait in the queue, are the dictionaries pushed, in
    the order of their arrival.  So every push is given to the callback at
    most once and in order, and none is lost.  When a call of the callback
    raises, or after [stop], [run] ends and what comes later stays in the
    queue. *)
Theorem async_callbacks_keep_the_order
    (callback_function : dict → result pyval) st events later :
  valid st → action (sock st) = callback_async → queue (sock st) = Some [] →
  let s := steps (CallBackThread_init callback_function, st) events in
  (∃ pending,
     waiting s.2 = Some pending ∧
     (called s.1 ++ pending)%list = arrived events) ∧
  (is_Some (ended s.1) →
   ∃ pending,
     waiting (steps s later).2 = Some pending ∧
     called (steps s later).1 = called s.1 ∧
     (called s.1 ++ pending)%list = (arrived events ++ arrived later)%list).
Proof.
  intros Hvalid Haction Hqueue s.
  assert (queued (CallBackThread_init callback_function, st) []) as Hinit.
  { split; simpl; try done.
    - intros q. rewrite Hqueue. intros [= <-]. apply not_elem_of_nil.
    - exists []. unfold waiting. by rewrite Hqueue. }
  pose proof (queued_steps _ _ events Hinit) as Hs. simpl in Hs. fold s in Hs.
  split; [apply Hs|].
  intros Hended.
  destruct (queued_steps _ _ later Hs) as [_ _ _ (pending & Hwait & Hall)].
  destruct (ended_steps s later Hended) as [Hcalled _].
  exists pending. rewrite Hcalled in Hall. by rewrite Hcalled.
Qed.

End async.

Section async_example.
Import Push CallBack.

(** A callback that raises on a dictionary with the key [b]: the first push
    is called back, the second one makes [run] end, the third one stays in
    the queue. *)
Lemma async_callbacks_keep_the_order_witness :
  let callback_function (d : dict) :=
    match dict_get "b" d with
    | Some _ => Raise (Exn KeyError "b")
    | None => Ok VNone
    end in
  let st :=
    State {[1%positive := []]}
      (SocketData callback_async None 1%positive None None "push" (Some [])
         None None) in
  let s :=
    steps (rt := Sample.runtime) (CallBackThread_init callback_function, st)
      [request 1 "raw_wn#a:int:1"; pass; request 2 "raw_wn#b:int:2";
       request 3 "raw_wn#a:int:3"; pass; pass; pass] in
  called s.1 = [[("a", VInt 1)]; [("b", VInt 2)]] ∧
  ended s.1 = Some (Raise (Exn KeyError "b")) ∧
  ∃ pending,
    waiting s.2 = Some pending ∧
    (called s.1 ++ pending)%list
      = [[("a", VInt 1)]; [("b", VInt 2)]; [("a", VInt 3)]].
Proof.
  intros callback_function st s.
  split; [reflexivity|]. split; [reflexivity|].
  apply (proj1 (async_callbacks_keep_the_order (rt := Sample.runtime)
                  callback_function st
                  [request 1 "raw_wn#a:int:1"; pass;
                   request 2 "raw_wn#b:int:2"; request 3 "raw_wn#a:int:3";
                   pass; pass; pass] []
                  ltac:(split; [by eexists|done]) eq_refl eq_refl)).
Defined.

End async_example.

(** ** Look-ups by subscription *)

Section lookups.
Import WebSocketServer.
Context {rt : PyRuntime}.

Lemma list_index_find codename (known : list string) :
  list_index codename (VStr <$> known) =
    match list_find (λ name, name = codename) known with
    | Some (position, _) => Ok position
    | None => Raise (Exn ValueError (codename +:+ " is not in list"))
    end.
Proof.
  induction known as [|name known IH]; simpl; [done|].
  destruct (decide (name = codename)); [done|].
  change (list_fmap string message_t VStr known) with (VStr <$> known).
  rewrite IH. by destruct (list_find _ known) as [[position ?]|].
Qed.

(** The loop of [get_data]. *)
Lemma get_data_loop DATA source_id source known points names k acc :
  DATA !! source_id = Some source →
  codenames source = VList (VStr <$> known) → data source = VList points →
  match mapM (mirrored_point known points) names with
  | Some served =>
      for_each (λ (_ : nat) points codename,
          source ← getitem DATA source_id;
          index_in_global ← index (codenames source) codename;
          point ← getitem_at (data source) index_in_global;
          Ok (points ++ [point])%list) k acc names
        = Ok (acc ++ served)%list
  | None =>
      is_ok (for_each (λ (_ : nat) points codename,
          source ← getitem DATA source_id;
          index_in_global ← index (codenames source) codename;
          point ← getitem_at (data source) index_in_global;
          Ok (points ++ [point])%list) k acc names) = false
  end.
Proof.
  intros Hsource Hknown Hpoints.
  set (body := λ (_ : nat) (points0 : list pyval) (codename : string), _).
  assert (∀ k acc codename,
    match mirrored_point known points codename with
    | Some point => body k acc codename = Ok (acc ++ [point])%list
    | None => is_ok (body k acc codename) = false
    end) as Hbody.
  { intros k' acc' codename. subst body. simpl. unfold getitem.
    rewrite Hsource. simpl. rewrite Hknown, Hpoints. simpl.
    change (list_fmap string message_t VStr known) with (VStr <$> known).
    rewrite list_index_find. unfold mirrored_point.
    destruct (list_find _ known) as [[position name]|]; simpl; [|done].
    by destruct (points !! position). }
  clearbody body. revert k acc.
  induction names as [|codename names IH]; intros k acc; simpl.
  { by rewrite (right_id_L [] app). }
  specialize (Hbody k acc codename).
  destruct (mirrored_point known points codename) as [point|]; simpl.
  - rewrite Hbody. simpl. specialize (IH (S k) (acc ++ [point])%list).
    destruct (mapM _ names) as [served|]; simpl; [|done].
    by rewrite IH, <-(assoc_L app).
  - by destruct (body k acc codename).
Qed.

(** X16: a look-up with the number of a subscription is answered with the
    number and, for each codename of the subscription in the order of the
    subscription, the point that the source has at the position of the
    codename in its list of codenames.  The codenames of a subscription are
    not checked when it is made: when one of them is no codename of the
    source, or has no point, the look-up raises and nothing is sent. *)
Theorem get_data_serves_the_subscription
    DATA (subscriptions : subscriptions_t) msg z source_id names source
    known points :
  int_of_str msg = inr (VInt z) → (0 ≤ z)%Z →
  subscriptions !! Z.to_nat z = Some (source_id, names) →
  DATA !! source_id = Some source →
  codenames source = VList (VStr <$> known) → data source = VList points →
  match mapM (mirrored_point known points) names with
  | Some served =>
      get_data DATA subscriptions msg = Ok (VList [VInt z; VList served])
  | None => is_ok (get_data DATA subscriptions msg) = false
  end ∧
  (NoDup known →
   ∀ position codename, known !! position = Some codename →
     mirrored_point known points codename = points !! position).
Proof.
  intros Hint Hz Hsub Hsource Hknown Hpoints. split.
  - unfold get_data. rewrite Hint. simpl.
    rewrite option_guard_True by done. simpl. rewrite Hsub.
    pose proof (get_data_loop DATA source_id source known points names
                  0%nat [] Hsource Hknown Hpoints) as Hloop.
    destruct (mapM _ names) as [served|].
    + by rewrite Hloop.
    + by destruct (for_each _ _ _ _).
  - intros Hnodup position codename Hposition. unfold mirrored_point.
    destruct (list_find _ known) as [[i name]|] eqn:Hfind; simpl.
    + apply list_find_Some in Hfind as (Hi & -> & _).
      by rewrite (NoDup_lookup _ _ _ _ Hnodup Hi Hposition).
    + apply list_find_None in Hfind.
      apply Forall_lookup_1 with (i := position) (x := codename) in Hfind;
        done.
Qed.

(** X17: a message that starts with [subscribe] and has no [#], or more
    than one, or whose part after the [#] has no [;] or more than one, is
    not answered with the malformed-subscription message: the method raises
    [ValueError], nothing is sent and the subscriptions are as before. *)
Theorem subscribe_without_separators_raises
    (DATA : DATA_t) (subscriptions : subscriptions_t) (msg : string) :
  PyStr.count "#" msg ≠ 1%nat ∨
  (∃ head args, PyStr.split "#" msg = [head; args] ∧
     PyStr.count ";" args ≠ 1%nat) →
  ∃ m, subscribe DATA subscriptions msg
         = (Raise (Exn ValueError m), subscriptions) ∧
       (PyStr.startswith "subscribe" msg = true →
        onMessage DATA subscriptions msg false
          = (Raise (Exn ValueError m), subscriptions)).
Proof.
  intros Hmalformed. exists "need exactly 2 values to unpack".
  assert (subscribe DATA subscriptions msg
          = (Raise (Exn ValueError "need exactly 2 values to unpack"),
             subscriptions)) as Hsubscribe.
  { unfold subscribe.
    destruct Hmalformed as [Hcount|(head & args & Hsplit & Hcount)].
    - pose proof (split_length "#" msg) as Hlen.
      destruct (PyStr.split "#" msg) as [|? [|? [|]]]; try done.
      simpl in Hlen. lia.
    - rewrite Hsplit. pose proof (split_length ";" args) as Hlen.
      destruct (PyStr.split ";" args) as [|? [|? [|]]]; try done.
      simpl in Hlen. lia. }
  split; [done|]. intros Hstarts. unfold onMessage.
  by rewrite Hstarts, Hsubscribe.
Qed.

End lookups.

Section lookups_examples.
Import WebSocketServer.

Lemma get_data_serves_the_subscription_witness :
  get_data (rt := Sample.runtime) mirrored
    [("host:8000", ["t1"]); ("host:8000", ["t2"; "t1"])] "1"
    = Ok (VList [VInt 1; VList [VList [VInt 5; VFloat 2];
                                VList [VInt 5; VFloat 1]]]) ∧
  is_ok (get_data (rt := Sample.runtime) mirrored
           [("host:8000", ["t1"; "t3"])] "0") = false.
Proof.
  split.
  - exact (proj1 (get_data_serves_the_subscription (rt := Sample.runtime)
                    mirrored
                    [("host:8000", ["t1"]); ("host:8000", ["t2"; "t1"])]
                    "1" 1 "host:8000" ["t2"; "t1"] _ ["t1"; "t2"] _
                    eq_refl ltac:(lia) eq_refl eq_refl eq_refl eq_refl)).
  - exact (proj1 (get_data_serves_the_subscription (rt := Sample.runtime)
                    mirrored [("host:8000", ["t1"; "t3"])]
                    "0" 0 "host:8000" ["t1"; "t3"] _ ["t1"; "t2"] _
                    eq_refl ltac:(lia) eq_refl eq_refl eq_refl eq_refl)).
Defined.

Lemma subscribe_without_separators_raises_witness :
  (∃ m, onMessage (rt := Sample.runtime) mirrored [] "subscribe" false
          = (Raise (Exn ValueError m), [])) ∧
  (∃ m, onMessage (rt := Sample.runtime) mirrored []
          "subscribe#host:8000;t1;t2" false
          = (Raise (Exn ValueError m), [])).
Proof.
  split.
  - destruct (subscribe_without_separators_raises (rt := Sample.runtime)
                mirrored [] "subscribe") as (m & _ & Hon).
    { left. vm_compute. lia. }
    exists m. by apply Hon.
  - destruct (subscribe_without_separators_raises (rt := Sample.runtime)
                mirrored [] "subscribe#host:8000;t1;t2") as (m & _ & Hon).
    { right. exists "subscribe", "host:8000;t1;t2". split; [reflexivity|].
      vm_compute. lia. }
    exists m. by apply Hon.
Defined.

End lookups_examples.

(** ** The poller *)

Section poller.
Import WebSocketServer.
Context {rt : PyRuntime}.

(** One iteration of the loop for an answer that is a value. *)
Lemma run_step_answer network DATA c source datagram v :
  DATA !! ip_port c = Some source →
  network (List.length (sent c)) = Some datagram →
  json_loads datagram = inr v → v ≠ VNone →
  sleep (sane_interval source) = Ok () →
  run_step network DATA c =
    (Ok (), sendto "data" c, <[ip_port c := set_data v source]> DATA).
Proof.
  intros Hsource Hnet Hjson Hv Hsleep. unfold run_step, _send_and_get.
  rewrite Hnet, Hjson. simpl. unfold assign, getitem. simpl.
  rewrite Hsource. simpl.
  destruct v; try done; simpl; rewrite lookup_insert_eq; simpl;
    by rewrite Hsleep.
Qed.

(** One iteration of the loop when no answer comes, or the answer [None]. *)
Lemma run_step_silence network DATA c source :
  DATA !! ip_port c = Some source →
  (network (List.length (sent c)) = None ∨
   ∃ datagram, network (List.length (sent c)) = Some datagram ∧
     json_loads datagram = inr VNone) →
  sleep (sane_interval source) = Ok () →
  run_step network DATA c = (Ok (), set_stop (sendto "data" c), DATA).
Proof.
  intros Hsource Hnet Hsleep. unfold run_step, _send_and_get.
  destruct Hnet as [->|(datagram & -> & ->)]; simpl;
    unfold getitem; simpl; rewrite Hsource; simpl; by rewrite Hsleep.
Qed.

(** X18: a poller that is not stopped asks for [data] again and again and
    puts each answer in [DATA[ip_port]['data']]; at the first request that
    gets no answer within the timeout (or the answer [None]) it stops, and
    [run] returns.  [DATA] then has the last answer, and the poller has sent
    one request more than it got answers.  The sane interval of the source
    is taken to be a time that [time.sleep] accepts. *)
Theorem poller_mirrors_until_the_first_silence
    network DATA c source answers fuel :
  _stop c = false → DATA !! ip_port c = Some source →
  sleep (sane_interval source) = Ok () →
  answers_then_silence network (List.length (sent c)) answers →
  (List.length answers < fuel)%nat →
  ∃ c',
    run network fuel DATA c =
      Some (Ok (), c',
            match last answers with
            | Some v => <[ip_port c := set_data v source]> DATA
            | None => DATA
            end) ∧
    _stop c' = true ∧
    sent c' = (sent c ++ replicate (S (List.length answers)) "data")%list.
Proof.
  intros Hstop Hsource Hsleep [Hanswers Hsilence] Hfuel.
  revert c DATA source fuel Hstop Hsource Hsleep Hanswers Hsilence Hfuel.
  induction answers as [|v answers IH];
    intros c DATA source fuel Hstop Hsource Hsleep Hanswers Hsilence Hfuel.
  - destruct fuel as [|fuel]; [simpl in Hfuel; lia|]. simpl.
    rewrite Hstop. simpl in Hsilence. rewrite Nat.add_0_r in Hsilence.
    rewrite (run_step_silence _ _ _ _ Hsource Hsilence Hsleep).
    exists (set_stop (sendto "data" c)). by destruct fuel.
  - destruct fuel as [|fuel]; [simpl in Hfuel; lia|]. simpl.
    rewrite Hstop.
    destruct (Hanswers 0%nat v eq_refl) as (Hv & datagram & Hnet & Hjson).
    rewrite Nat.add_0_r in Hnet.
    rewrite (run_step_answer _ _ _ _ _ _ Hsource Hnet Hjson Hv Hsleep).
    destruct (IH (sendto "data" c)
                (<[ip_port c := set_data v source]> DATA)
                (set_data v source) fuel) as (c' & Hrun & Hstop' & Hsent).
    + done.
    + simpl. by rewrite lookup_insert_eq.
    + done.
    + intros i v' Hi. simpl. rewrite length_app. simpl.
      replace (List.length (sent c) + 1 + i)%nat
        with (List.length (sent c) + S i)%nat by lia.
      by apply Hanswers.
    + simpl. rewrite length_app. simpl. simpl in Hsilence.
      replace (List.length (sent c) + 1 + List.length answers)%nat
        with (List.length (sent c) + S (List.length answers))%nat by lia.
      done.
    + simpl in Hfuel. lia.
    + exists c'. rewrite Hrun. simpl in *. split_and!; [|done|].
      * do 3 f_equal. destruct answers as [|v' answers]; [done|].
        rewrite last_cons_cons.
        destruct (last (v' :: answers)) as [w|] eqn:Hlast;
          [apply insert_insert_eq|by apply last_None in Hlast].
      * by rewrite Hsent, <-(assoc_L app).
Qed.

(** X19: when the upstream answers the two queries of the handshake, the
    constructor puts the sane interval and the codenames in
    [DATA[ip_port]] and returns a poller that is not stopped, whose timeout
    is twice the sane interval.  When twice the sane interval is no timeout
    that [settimeout] accepts, the constructor raises, and it has put the
    sane interval in [DATA] all the same. *)
Theorem handshake_stores_the_answers
    network DATA ip_port host port_string port source
    first second sane_interval codenames :
  PyStr.split ":" ip_port = [host; port_string] →
  int_of_str port_string = inr port →
  DATA !! ip_port = Some source →
  network 0%nat = Some first → json_loads first = inr sane_interval →
  network 1%nat = Some second → json_loads second = inr codenames →
  sane_interval ≠ VNone → codenames ≠ VNone →
  match timeout_of sane_interval with
  | Ok timeout =>
      UDPConnection_init network DATA ip_port =
        (Ok (Connection false ip_port host port timeout
               ["sane_interval"; "codenames"]),
         <[ip_port := Source (data source) codenames sane_interval]> DATA)
  | Raise e =>
      UDPConnection_init network DATA ip_port =
        (Raise e,
         <[ip_port := Source (data source) (WebSocketServer.codenames source)
                        sane_interval]> DATA)
  end.
Proof.
  intros Hsplit Hport Hsource Hfirst Hjson1 Hsecond Hjson2 Hsi Hcn.
  unfold UDPConnection_init, _send_and_get. rewrite Hsplit, Hport. simpl.
  rewrite Hfirst, Hjson1. simpl. rewrite Hsecond, Hjson2. simpl.
  unfold assign, getitem. rewrite Hsource. simpl.
  rewrite lookup_insert_eq. simpl. rewrite insert_insert_eq.
  destruct (timeout_of sane_interval) as [timeout|e];
    destruct sane_interval; try done; destruct codenames; done.
Qed.

End poller.

Section poller_example.
Import WebSocketServer.

(** An upstream that answers [1] to the first two requests for data, and
    then no more. *)
Lemma poller_mirrors_until_the_first_silence_witness :
  let network : network_t :=
    λ k, if decide (k < 4)%nat then Some "1" else None in
  let DATA : DATA_t := {[ "host:8000" := Source VNone (VInt 1) (VInt 1) ]} in
  let c :=
    Connection false "host:8000" "host" (VInt 8000) (VInt 2)
      ["sane_interval"; "codenames"] in
  ∃ c',
    run (rt := Sample.runtime) network 10 DATA c =
      Some (Ok (), c',
            <["host:8000" := Source (VInt 1) (VInt 1) (VInt 1)]> DATA) ∧
    sent c' = ["sane_interval"; "codenames"; "data"; "data"; "data"].
Proof.
  intros network DATA c.
  destruct (poller_mirrors_until_the_first_silence (rt := Sample.runtime)
              network DATA c (Source VNone (VInt 1) (VInt 1))
              [VInt 1; VInt 1] 10) as (c' & Hrun & _ & Hsent).
  - reflexivity.
  - reflexivity.
  - reflexivity.
  - split.
    + intros [|[|i]] v; simpl; [| |done]; intros [= <-];
        (split; [done|]); by exists "1".
    + by left.
  - simpl. lia.
  - exists c'. split; [exact Hrun|exact Hsent].
Defined.

(** The handshake with an upstream that answers [1] to both queries. *)
Lemma handshake_stores_the_answers_witness :
  let network : network_t := λ _, Some "1" in
  let DATA : DATA_t := {[ "host:8000" := Source VNone VNone VNone ]} in
  UDPConnection_init (rt := Sample.runtime) network DATA "host:8000" =
    (Ok (Connection false "host:8000" "host" (VInt 8000) (VInt 2)
           ["sane_interval"; "codenames"]),
     <["host:8000" := Source VNone (VInt 1) (VInt 1)]> DATA).
Proof.
  intros network DATA.
  exact (handshake_stores_the_answers (rt := Sample.runtime) network DATA
           "host:8000" "host" "8000" (VInt 8000) (Source VNone VNone VNone)
           "1" "1" (VInt 1) (VInt 1) eq_refl eq_refl eq_refl eq_refl eq_refl
           eq_refl eq_refl ltac:(done) ltac:(done)).
Defined.

End poller_example.

(** ** The steward of the pollers *)

Section stewardship.
Import WebSocketServer Steward.
Context {rt : PyRuntime}.
Context (order : gset string → list string).

Lemma iterates_set X : iterates order → list_to_set (order X) = X.
Proof.
  intros Horder. rewrite (list_to_set_perm_L _ _ (Horder X)).
  apply list_to_set_elements_L.
Qed.

Lemma definitions_of_texts texts (definitions : gset string) :
  foldl (λ definitions text, {[text]} ∪ definitions) definitions texts
    = list_to_set texts ∪ definitions.
Proof.
  revert definitions. induction texts as [|text texts IH];
    intros definitions; simpl; [set_solver|]. rewrite IH. set_solver.
Qed.

(** The constructor of a connection leaves the keys of [DATA] as they
    are. *)
Lemma UDPConnection_init_dom network (DATA : DATA_t) ip_port :
  dom (UDPConnection_init network DATA ip_port).2 = dom DATA.
Proof.
  assert (∀ (D : DATA_t) f D', assign D ip_port f = Ok D' → dom D' = dom D)
    as Hassign.
  { intros D f D'. unfold assign, getitem.
    destruct (D !! ip_port) as [source|] eqn:Hsource; simpl; [|done].
    intros [= <-]. rewrite dom_insert_L.
    apply elem_of_dom_2 in Hsource. set_solver. }
  unfold UDPConnection_init.
  destruct (PyStr.split ":" ip_port) as [|ip_address [|port [|]]]; try done.
  destruct (value_error (int_of_str port)) as [p|]; [|done].
  destruct (_send_and_get network _ "sane_interval")
    as [[sane_interval|] c1]; [|done].
  destruct (_send_and_get network c1 "codenames") as [[codenames|] c2];
    [|done].
  set (stored := match assign DATA ip_port _ with Ok _ => _ | Raise _ => _ end).
  assert (dom stored.2 = dom DATA) as Hstored.
  { subst stored.
    destruct (assign DATA ip_port _) as [D1|] eqn:H1; [|done].
    apply Hassign in H1.
    destruct (timeout_of sane_interval); [|done].
    destruct (assign D1 ip_port _) as [D2|] eqn:H2; [|done].
    apply Hassign in H2. simpl. congruence. }
  clearbody stored. by destruct sane_interval, codenames.
Qed.

(** The loop of [_delete_dead_connections]. *)
Lemma delete_dead_loop is_alive l s (DATA : DATA_t) s' DATA' :
  for_each_in (λ '(s, DATA) ip_port,
      if (is_alive ip_port : bool) then (Ok (), (s, DATA))
      else
        match del (udp_connections s) ip_port with
        | Raise e => (Raise e, (s, DATA))
        | Ok connections =>
            let s := set_connections connections s in
            match del DATA ip_port with
            | Raise e => (Raise e, (s, DATA))
            | Ok DATA => (Ok (), (s, DATA))
            end
        end) (s, DATA) l = (Ok (), (s', DATA')) →
  let dead : gset string :=
    list_to_set (filter (λ ip_port, is_alive ip_port = false) l) in
  udp_definitions s' = udp_definitions s ∧
  dom (udp_connections s') = dom (udp_connections s) ∖ dead ∧
  dom DATA' = dom DATA ∖ dead ∧
  ∀ kept, is_alive kept = true →
    udp_connections s' !! kept = udp_connections s !! kept.
Proof.
  revert s DATA. induction l as [|ip_port l IH]; intros s DATA; simpl.
  { intros [= <- <-]. set_solver. }
  destruct (is_alive ip_port) eqn:Halive; simpl.
  { rewrite filter_cons_False by (by rewrite Halive). apply IH. }
  rewrite filter_cons_True by done. unfold del.
  destruct (udp_connections s !! ip_port); [|done].
  destruct (DATA !! ip_port); [|done]. simpl.
  intros (Hdefs & Hconnections & Hdata & Hkept)%IH. simpl in *.
  rewrite Hdefs, Hconnections, Hdata, !dom_delete_L.
  split_and!; [done|set_solver|set_solver|].
  intros kept Halive'. rewrite Hkept by done. apply lookup_delete_ne.
  intros ->. congruence.
Qed.

(** The loop of [_delete_removed_connections]. *)
Lemma delete_removed_loop l s (DATA : DATA_t) s' DATA' :
  for_each_in (λ '(s, DATA) ip_port,
      match getitem DATA ip_port with
      | Raise e => (Raise e, (s, DATA))
      | Ok source =>
          let sane := sane_interval source in
          match getitem (udp_connections s) ip_port with
          | Raise e => (Raise e, (s, DATA))
          | Ok connection =>
              let s :=
                set_connections
                  (<[ip_port := stop connection]> (udp_connections s)) s in
              match twice sane ≫= sleep with
              | Raise e => (Raise e, (s, DATA))
              | Ok _ =>
                  match del (udp_connections s) ip_port with
                  | Raise e => (Raise e, (s, DATA))
                  | Ok connections =>
                      let s := set_connections connections s in
                      match del DATA ip_port with
                      | Raise e => (Raise e, (s, DATA))
                      | Ok DATA => (Ok (), (s, DATA))
                      end
                  end
              end
          end
      end) (s, DATA) l = (Ok (), (s', DATA')) →
  udp_definitions s' = udp_definitions s ∧
  dom (udp_connections s') = dom (udp_connections s) ∖ list_to_set l ∧
  dom DATA' = dom DATA ∖ list_to_set l ∧
  ∀ kept, kept ∉ l →
    udp_connections s' !! kept = udp_connections s !! kept.
Proof.
  revert s DATA. induction l as [|ip_port l IH]; intros s DATA; simpl.
  { intros [= <- <-]. set_solver. }
  unfold getitem, del.
  destruct (DATA !! ip_port) as [source|]; [|done].
  destruct (udp_connections s !! ip_port) as [connection|]; [|done].
  simpl. destruct (twice (sane_interval source) ≫= sleep); [|done].
  rewrite lookup_insert_eq. simpl.
  intros (Hdefs & Hconnections & Hdata & Hkept)%IH. simpl in *.
  rewrite Hdefs, Hconnections, Hdata, !dom_delete_L, dom_insert_L.
  split_and!; [done|set_solver|set_solver|].
  intros kept [Hne Hin]%not_elem_of_cons. rewrite Hkept by done.
  by rewrite lookup_delete_ne, lookup_insert_ne.
Qed.

(** The loop of [_add_new_connections]. *)
Lemma add_new_loop (upstream : string → network_t) l s (DATA : DATA_t)
    s' DATA' :
  for_each_in (λ '(s, DATA) ip_port,
      let DATA := <[ip_port := Source VNone VNone VNone]> DATA in
      match UDPConnection_init (upstream ip_port) DATA ip_port with
      | (Raise e, DATA) => (Raise e, (s, DATA))
      | (Ok connection, DATA) =>
          (Ok (),
           (set_connections (<[ip_port := connection]> (udp_connections s)) s,
            DATA))
      end) (s, DATA) l = (Ok (), (s', DATA')) →
  udp_definitions s' = udp_definitions s ∧
  dom (udp_connections s') = dom (udp_connections s) ∪ list_to_set l ∧
  dom DATA' = dom DATA ∪ list_to_set l ∧
  ∀ kept, kept ∉ l →
    udp_connections s' !! kept = udp_connections s !! kept.
Proof.
  revert s DATA. induction l as [|ip_port l IH]; intros s DATA; simpl.
  { intros [= <- <-]. set_solver. }
  pose proof (UDPConnection_init_dom (upstream ip_port)
                (<[ip_port := Source VNone VNone VNone]> DATA) ip_port)
    as Hdom.
  destruct (UDPConnection_init _ _ _) as [[connection|e] D]; [|done].
  simpl in Hdom.
  intros (Hdefs & Hconnections & Hdata & Hkept)%IH. simpl in *.
  rewrite Hdefs, Hconnections, Hdata, Hdom, !dom_insert_L.
  split_and!; [done|set_solver|set_solver|].
  intros kept [Hne Hin]%not_elem_of_cons. rewrite Hkept by done.
  by rewrite lookup_insert_ne.
Qed.

Lemma add_new_loop_raises (upstream : string → network_t) l
    (w : steward * DATA_t) ip_port :
  ip_port ∈ l →
  (∀ DATA,
     is_ok (UDPConnection_init (upstream ip_port) DATA ip_port).1 = false) →
  is_ok (for_each_in (λ '(s, DATA) ip_port,
      let DATA := <[ip_port := Source VNone VNone VNone]> DATA in
      match UDPConnection_init (upstream ip_port) DATA ip_port with
      | (Raise e, DATA) => (Raise e, (s, DATA))
      | (Ok connection, DATA) =>
          (Ok (),
           (set_connections (<[ip_port := connection]> (udp_connections s)) s,
            DATA))
      end) w l).1 = false.
Proof.
  intros Hin Hraises. revert w.
  induction l as [|first l IH]; intros [s DATA];
    [by apply elem_of_nil in Hin|]. simpl.
  destruct (decide (first = ip_port)) as [->|Hne].
  - specialize (Hraises (<[ip_port := Source VNone VNone VNone]> DATA)).
    by destruct (UDPConnection_init _ _ _) as [[connection|e] D].
  - destruct (UDPConnection_init _ _ _) as [[connection|e] D]; [|done].
    apply IH. set_solver.
Qed.

(** X20: when a check of the connections returns, there is a connection,
    and an entry of [DATA], for each of the sources that the steward has as
    defined, and for no other: the connections of the threads that are dead
    and of the sources that are defined no more are gone with their
    entries, and the sources that are new, or whose thread was dead, have a
    new connection.  The sources defined are the ones of the file, or, when
    the file does not parse, the ones defined before. *)
Theorem check_brings_in_step
    is_alive file (upstream : string → network_t) s DATA s' DATA' :
  iterates order → dom (udp_connections s) = dom DATA →
  check order is_alive file upstream (s, DATA) = (Ok (), (s', DATA')) →
  in_step (s', DATA') ∧
  match file with
  | xml_tree texts => udp_definitions s' = list_to_set texts
  | _ => udp_definitions s' = udp_definitions s
  end ∧
  (∀ ip_port connection,
     udp_connections s !! ip_port = Some connection →
     is_alive ip_port = true → ip_port ∈ udp_definitions s' →
     udp_connections s' !! ip_port = Some connection).
Proof.
  intros Horder Hdom. unfold check, _delete_dead_connections.
  destruct (for_each_in _ (s, DATA) _) as [[[]|e] [s1 DATA1]] eqn:Hdead;
    [|done].
  apply delete_dead_loop in Hdead as (Hdefs1 & Hc1 & Hd1 & Hkept1).
  simpl in Hc1, Hd1. rewrite <-Hdom in Hd1. rewrite <-Hc1 in Hd1.
  destruct (_update_udp_definitions file s1) as [s2|] eqn:Hupdate; [|done].
  assert (udp_connections s2 = udp_connections s1 ∧
          match file with
          | xml_tree texts => udp_definitions s2 = list_to_set texts
          | _ => udp_definitions s2 = udp_definitions s
          end) as [Hc2 Hdefs2].
  { destruct file as [texts| |e]; simpl in Hupdate; simplify_eq/=;
      [|done]. split; [done|].
    rewrite definitions_of_texts. set_solver. }
  simpl. unfold _delete_removed_connections.
  destruct (for_each_in _ (s2, DATA1) _) as [[[]|e] [s3 DATA3]] eqn:Hremoved;
    [|done].
  apply delete_removed_loop in Hremoved as (Hdefs3 & Hc3 & Hd3 & Hkept3).
  rewrite iterates_set in Hc3, Hd3 by done.
  unfold _add_new_connections. rewrite Hc2.
  intros (Hdefs4 & Hc4 & Hd4 & Hkept4)%add_new_loop.
  rewrite iterates_set in Hc4, Hd4 by done.
  rewrite Hc2 in Hc3, Hd3.
  assert (udp_definitions s' = udp_definitions s2) as Hdefs'
    by congruence.
  split_and!.
  - split; simpl; rewrite Hdefs'.
    + rewrite Hc4, Hc3. apply set_eq. intros x.
      destruct (decide (x ∈ dom (udp_connections s1)));
        destruct (decide (x ∈ udp_definitions s2)); set_solver.
    + rewrite Hd4, Hd3, Hd1. apply set_eq. intros x.
      destruct (decide (x ∈ dom (udp_connections s1)));
        destruct (decide (x ∈ udp_definitions s2)); set_solver.
  - rewrite Hdefs'. by destruct file.
  - intros ip_port connection Hconnection Halive Hdefined.
    rewrite Hdefs' in Hdefined.
    assert (udp_connections s1 !! ip_port = Some connection) as Hin1.
    { by rewrite Hkept1. }
    rewrite Hkept4, Hkept3, Hc2; [done| |].
    + rewrite (Horder _), elem_of_elements. set_solver.
    + rewrite (Horder _), elem_of_elements.
      apply elem_of_dom_2 in Hin1. set_solver.
Qed.

(** X21: a source of the file whose name has not exactly one [:], so
    that [UDPConnection] cannot take it apart, makes every check raise:
    the exception leaves [run], and the thread of the steward ends. *)
Theorem malformed_definition_ends_the_steward
    is_alive texts (upstream : string → network_t) s (DATA : DATA_t)
    ip_port :
  iterates order → dom (udp_connections s) = dom DATA →
  ip_port ∈ texts → PyStr.count ":" ip_port ≠ 1%nat →
  ip_port ∉ dom (udp_connections s) →
  is_ok (check order is_alive (xml_tree texts) upstream (s, DATA)).1 = false.
Proof.
  intros Horder Hdom Hin Hcount Hnew. unfold check, _delete_dead_connections.
  destruct (for_each_in _ (s, DATA) _) as [[[]|e] [s1 DATA1]] eqn:Hdead;
    [|done].
  apply delete_dead_loop in Hdead as (Hdefs1 & Hc1 & Hd1 & Hkept1).
  simpl in Hc1. simpl. rewrite definitions_of_texts.
  unfold _delete_removed_connections.
  destruct (for_each_in _ (set_definitions _ s1, DATA1) _)
    as [[[]|e] w3] eqn:Hremoved; [|done].
  apply add_new_loop_raises with (ip_port := ip_port).
  - rewrite (Horder _), elem_of_elements. simpl. set_solver.
  - intros D. unfold UDPConnection_init.
    pose proof (split_length ":" ip_port) as Hlen.
    destruct (PyStr.split ":" ip_port) as [|? [|? [|]]]; try done.
    simpl in Hlen. lia.
Qed.

End stewardship.

Section stewardship_example.
Import WebSocketServer Steward.

(** A steward that has a living connection to [a:1] and a dead one to
    [b:2], and a file that defines [b:2] and [c:3], whose upstreams
    answer. *)
Lemma check_brings_in_step_witness :
  let old := Connection false "x" "x" (VInt 1) (VInt 2) [] in
  let s :=
    Steward false 300 1 {["a:1"; "b:2"]}
      {["a:1" := old; "b:2" := old]} in
  let DATA : DATA_t :=
    {["a:1" := Source VNone VNone (VInt 1);
      "b:2" := Source VNone VNone (VInt 1)]} in
  let w :=
    (check (rt := Sample.runtime) elements
       (λ ip_port, bool_decide (ip_port = "a:1"))
       (xml_tree ["b:2"; "c:3"]) (λ _ _, Some "1") (s, DATA)).2 in
  dom (udp_connections w.1) = {["b:2"; "c:3"]} ∧
  dom w.2 = ({["b:2"; "c:3"]} : gset string).
Proof.
  intros old s DATA w.
  assert (check (rt := Sample.runtime) elements
            (λ ip_port, bool_decide (ip_port = "a:1"))
            (xml_tree ["b:2"; "c:3"]) (λ _ _, Some "1") (s, DATA)
          = (Ok (), (w.1, w.2))) as Hcheck by (vm_compute; reflexivity).
  destruct (check_brings_in_step (rt := Sample.runtime) elements
              (λ ip_port, bool_decide (ip_port = "a:1"))
              (xml_tree ["b:2"; "c:3"]) (λ _ _, Some "1") s DATA w.1 w.2)
    as ([Hconnections Hdata] & Hdefinitions & _).
  - by intros X.
  - unfold s, DATA. simpl. by rewrite !dom_insert_L, !dom_singleton_L.
  - exact Hcheck.
  - simpl in *. rewrite Hconnections, Hdata, Hdefinitions. simpl.
    split; set_solver.
Defined.

(** A file that defines [b2], without a colon. *)
Lemma malformed_definition_ends_the_steward_witness :
  is_ok (check (rt := Sample.runtime) elements (λ _, true)
           (xml_tree ["a:1"; "b2"]) (λ _ _, Some "1")
           (UDPConnectionSteward_init, ∅)).1 = false.
Proof.
  apply (malformed_definition_ends_the_steward (rt := Sample.runtime)
           elements (λ _, true) ["a:1"; "b2"] (λ _ _, Some "1")
           UDPConnectionSteward_init ∅ "b2").
  - by intros X.
  - simpl. by rewrite !dom_empty_L.
  - set_solver.
  - vm_compute. lia.
  - simpl. rewrite dom_empty_L. set_solver.
Defined.

End stewardship_example.

(** ** What a constructor leaves *)

Section made.
Import Pull.
Context {rt : PyRuntime}.

(** The loop of the constructor gives each name its timeout. *)
Lemma init_points_timeouts cs dx dy pairs d ts :
  NoDup pairs.*1 → timeouts d = Some ts →
  (init_points cs dx dy true pairs d).1 = Ok () →
  ∃ ts', timeouts (init_points cs dx dy true pairs d).2 = Some ts' ∧
    (∀ c, c ∉ pairs.*1 → ts' !! c = ts !! c) ∧
    ∀ position c timeout, pairs !! position = Some (c, timeout) →
      ts' !! c = Some timeout.
Proof.
  revert d ts. induction pairs as [|[name timeout] pairs IH];
    intros d ts Hnodup Hts; simpl.
  { intros _. exists ts. by split_and!. }
  apply NoDup_cons in Hnodup as [Hnew Hnodup]. simpl in *.
  destruct (check_codename cs name) as [[]|e]; [|done]. intros Hok.
  destruct (IH (set_timeouts (insert name timeout <$> timeouts d)
                  (set_data <[name := (dx, dy)]> d))
              (<[name := timeout]> ts) Hnodup) as (ts' & Hts' & Hother & Hin);
    [by rewrite Hts|done|].
  exists ts'. split_and!; [done| |].
  - intros c [Hne Hc]%not_elem_of_cons.
    by rewrite Hother, lookup_insert_ne.
  - intros [|position] c timeout'; simpl.
    + intros [= <- <-]. by rewrite Hother, lookup_insert_eq.
    + apply Hin.
Qed.

(** The socket that [CommonDataPullSocket.__init__] leaves when it
    returns, for the two classes with timeouts. *)
Lemma CommonDataPullSocket_init_made
    DATA name cs port dx dy tos bind_error DATA' :
  CommonDataPullSocket_init DATA name cs port dx dy tos true bind_error
    = (Ok (), DATA') →
  ∃ d, DATA' = <[port := d]> DATA ∧ made_with d name cs dx dy tos ∧
    type d = None ∧ timestamps d = None.
Proof.
  intros Hinit.
  assert ((CommonDataPullSocket_init DATA name cs port dx dy tos true
             bind_error).1 = Ok ()) as Hok by (by rewrite Hinit).
  apply CommonDataPullSocket_init_succeeds in Hok
    as (Hport & Harity & Hnodup & _ & ->).
  destruct (CommonDataPullSocket_init_data _ _ _ _ _ _ _ _ _ _ Hinit)
    as (d & -> & _ & Hcs & _ & Hdom & Hty & Htms & Hval & _).
  exists d. split; [done|]. split; [|done].
  revert Hinit. unfold CommonDataPullSocket_init.
  rewrite decide_False by (rewrite Hport; by intros []).
  set (d0 := set_timeouts (Some ∅) _).
  assert (∀ l : list (option float),
    List.length l = List.length cs →
    (∀ position, timeout_at tos position = mjoin (l !! position) ∨
                 cs !! position = None) →
    (let '(r, d) := init_points cs dx dy true (zip cs l) d0 in
     match r with
     | Ok _ => (Ok (), <[port:=d]> DATA)
     | Raise e => (Raise e, <[port:=d]> DATA)
     end) = (Ok (), <[port:=d]> DATA) →
    made_with d name cs dx dy tos) as Hloop.
  { intros l Hlen Hat.
    pose proof (init_points_timeouts cs dx dy (zip cs l) d0 ∅) as Htimeouts.
    pose proof (init_points_data cs dx dy true (zip cs l) d0) as Hdata.
    destruct (init_points _ _ _ _ _ _) as [r d1]. simpl in *.
    destruct r as [[]|e]; [|done]. intros Heq.
    assert (d1 = d) as ->.
    { injection Heq as Heq.
      apply (f_equal (λ D : DATA_t, D !! port)) in Heq.
      rewrite !lookup_insert_eq in Heq. congruence. }
    destruct (Hdata eq_refl) as (_ & Hname & _).
    destruct Htimeouts as (ts' & Hts' & _ & Hin);
      [by rewrite fst_zip by lia|done|done|].
    split_and!; [done|done| |].
    - intros c Hc.
      assert (c ∈ dom (data d)) as [p Hp]%elem_of_dom
        by (rewrite Hdom; set_solver).
      by rewrite Hp, (Hval _ _ Hp).
    - intros position c Hc. unfold configured_timeout. rewrite Hts'. simpl.
      assert (is_Some (l !! position)) as [timeout Htimeout].
      { apply lookup_lt_is_Some. rewrite Hlen.
        by eapply lookup_lt_Some. }
      rewrite (Hin position c timeout).
      + destruct (Hat position) as [->|Hnone]; [|congruence].
        by rewrite Htimeout.
      + apply lookup_zip_with_Some. by exists c, timeout. }
  destruct tos as [timeout|l]; simpl in *.
  - apply Hloop; [apply length_replicate|].
    intros position. destruct (cs !! position) as [c|] eqn:Hc; [|by right].
    left. rewrite lookup_replicate_2; [done|]. by eapply lookup_lt_Some.
  - rewrite decide_False by (intros Hne; by apply Hne).
    apply Hloop; [done|]. intros position. by left.
Qed.

Lemma foldl_insert_lookup {V} (v : V) (cs : list string)
    (m : gmap string V) c :
  c ∈ cs → foldl (λ m c, <[c := v]> m) m cs !! c = Some v.
Proof.
  revert m. induction cs as [|first cs IH]; intros m Hin;
    [by apply elem_of_nil in Hin|]. simpl.
  destruct (decide (c ∈ cs)) as [Hc|Hc]; [by apply IH|].
  assert (c = first) as -> by set_solver. clear IH Hin.
  revert m. induction cs as [|second cs IH]; intros m; simpl.
  - apply lookup_insert_eq.
  - apply not_elem_of_cons in Hc as [Hne Hc].
    rewrite insert_insert_ne by done. by apply IH.
Qed.

(** X22: a date or x, y socket is made exactly when the port has no
    socket yet, a list of timeouts has one timeout for each codename, the
    codenames are pairwise different and without the characters [#,;:&],
    and the server binds.  The socket made has the name and the codenames
    given, the default point for each codename, and for each codename the
    timeout at the position of the codename (or the one timeout given for
    all); an x, y socket has the timestamp 0.0 for each codename.  The
    other sockets are as before. *)
Theorem pull_socket_as_made DATA name cs port dx dy tos bind_error :
  let date := DateDataPullSocket_init DATA name cs port dx dy tos bind_error in
  let xy := DataPullSocket_init DATA name cs port dx dy tos bind_error in
  (date.1 = Ok () ↔ can_be_made DATA cs port tos bind_error) ∧
  (xy.1 = Ok () ↔ can_be_made DATA cs port tos bind_error) ∧
  (date.1 = Ok () →
   ∃ d, date.2 = <[port := d]> DATA ∧ made_with d name cs dx dy tos ∧
     type d = Some type_date) ∧
  (xy.1 = Ok () →
   ∃ d tms, xy.2 = <[port := d]> DATA ∧ made_with d name cs dx dy tos ∧
     type d = Some type_data ∧ timestamps d = Some tms ∧
     ∀ c, c ∈ cs → tms !! c = Some 0%float).
Proof.
  intros date xy. subst date xy.
  unfold DateDataPullSocket_init, DataPullSocket_init, can_be_made.
  pose proof (CommonDataPullSocket_init_succeeds DATA name cs port dx dy
                tos true bind_error) as Hiff.
  pose proof (CommonDataPullSocket_init_made DATA name cs port dx dy tos
                bind_error) as Hmade.
  destruct (CommonDataPullSocket_init _ _ _ _ _ _ _ _ _) as [[[]|e] D];
    simpl in *.
  2: { split_and!; try done; by rewrite <-Hiff. }
  destruct (Hmade D eq_refl) as (d & -> & Hd & Hty & Htms).
  unfold update. rewrite !alter_insert_eq. split_and!; try done.
  - intros _. exists (set_type type_date d). by split_and!.
  - intros _. eexists _, _. split; [done|]. split; [exact Hd|].
    split; [done|]. split; [done|]. intros c Hc.
    by apply foldl_insert_lookup.
Qed.

End made.

Section made_example.
Import Pull.

(** A date socket with a timeout of 3 s for [a] and none for [b]. *)
Lemma pull_socket_as_made_witness :
  let date :=
    DateDataPullSocket_init ∅ "socket" ["a"; "b"] 9000 0 47
      (timeouts_list [Some 3%float; None]) None in
  ∃ d, date.2 !! 9000 = Some d ∧
    configured_timeout d "a" = Some 3%float ∧
    configured_timeout d "b" = None ∧ data d !! "b" = Some (0, 47)%float.
Proof.
  intros date.
  destruct (pull_socket_as_made ∅ "socket"
              ["a"; "b"] 9000 0 47 (timeouts_list [Some 3%float; None]) None)
    as (_ & _ & Hdate & _).
  destruct (Hdate eq_refl) as (d & Hd & (_ & _ & Hdata & Htimeouts) & _).
  exists d. fold date in Hd. rewrite Hd, lookup_insert_eq.
  split; [done|]. split; [apply (Htimeouts 0%nat "a" eq_refl)|].
  split; [apply (Htimeouts 1%nat "b" eq_refl)|]. apply Hdata. set_solver.
Defined.

End made_example.

(** ** The raw format, written and read *)

Section read_back.
Import Push.
Context {rt : PyRuntime}.

Lemma count_join c sep l :
  PyStr.count c sep = 0%nat → Forall (λ s, PyStr.count c s = 0%nat) l →
  PyStr.count c (PyStr.join sep l) = 0%nat.
Proof.
  intros Hsep Hall. induction Hall as [|s [|next rest] Hs Hrest IH]; try done.
  change (PyStr.join sep (s :: next :: rest))
    with (s +:+ sep +:+ PyStr.join sep (next :: rest)).
  rewrite !count_app, Hs, Hsep. by rewrite IH.
Qed.

Lemma clean_type_name v : simple v → clean (type_name (type_of v)).
Proof.
  unfold simple. intros Hv c Hc.
  destruct v; simpl in *;
    repeat (apply elem_of_cons in Hv as [?|Hv]; [try done|]);
    try (by apply elem_of_nil in Hv);
    repeat (apply elem_of_cons in Hc as [->|Hc]; [done|]);
    by apply elem_of_nil in Hc.
Qed.

(** An item that the raw format has written is read back by the loop of
    [_raw_with_names]. *)
Lemma raw_part_reads_back data_out key value :
  clean key → carried value →
  raw_part data_out (raw_item key value)
    = Ok (dict_set key value data_out) ∧
  PyStr.count ";" (raw_item key value) = 0%nat.
Proof.
  intros Hkey Hvalue.
  assert (∃ t f (l : list pyval),
    clean (type_name t) ∧ TYPE_FROM_STRING (type_name t) = Some f ∧
    raw_item key value
      = key +:+ String ":" (type_name t +:+
                            String ":" (PyStr.join "," (str <$> l))) ∧
    l ≠ [] ∧ Forall (λ v, clean (str v) ∧ f (str v) = Ok v) l ∧
    value = match l with [single] => single | _ => VList l end)
    as (t & f & l & Ht & Hf & -> & Hne & Hl & ->).
  { destruct Hvalue as [v (Hsimple & Hclean & f & Hf & Hback)
                       |first second rest Hall Hsame].
    - exists (type_of v), f, [v]. split_and!; try done.
      + by apply clean_type_name.
      + unfold raw_item, simple in *. by destruct v.
      + by repeat constructor.
    - pose proof Hall as Hfirst. apply Forall_cons in Hfirst
        as [(Hsimple & Hclean & f & Hf & Hback) _].
      exists (type_of first), f, (first :: second :: rest).
      split_and!; try done; [by apply clean_type_name|].
      assert (Forall (λ v, type_of v = type_of first)
                (first :: second :: rest)) as Hsame'
        by (by constructor).
      clear -Hall Hsame' Hf.
      induction Hall as [|v l (_ & Hclean & f' & Hf' & Hback) _ IH];
        [done|].
      apply Forall_cons in Hsame' as [Hv Hsame'].
      constructor; [|by apply IH]. split; [done|].
      rewrite Hv in Hf'. congruence. }
  assert (∀ c, c ∈ [","; ";"; ":"]%char → c ≠ ","%char →
            PyStr.count c (PyStr.join "," (str <$> l)) = 0%nat) as Hvalues.
  { intros c Hc Hcomma. apply count_join.
    - simpl. by rewrite decide_False.
    - apply Forall_fmap. eapply Forall_impl; [exact Hl|].
      intros v [Hclean _]. by apply Hclean. }
  split.
  - unfold raw_part.
    rewrite split_app by (apply Hkey; set_solver).
    rewrite split_app by (apply Ht; set_solver).
    rewrite split_none by (apply Hvalues; [set_solver|done]).
    rewrite Hf.
    rewrite split_join;
      [|by destruct l|
       apply Forall_fmap; eapply Forall_impl; [exact Hl|];
       intros v [Hclean _]; apply Hclean; set_solver].
    assert (mapM f (str <$> l) = Ok l) as ->.
    { clear -Hl. induction Hl as [|v l [_ Hv] _ IH]; [done|].
      rewrite fmap_cons.
      change (mapM f (str v :: (str <$> l)))
        with (y ← f (str v); k ← mapM f (str <$> l); mret (y :: k)).
      by rewrite Hv, IH. }
    simpl. by destruct l as [|? [|]].
  - rewrite !count_app. simpl. rewrite !count_app. simpl.
    rewrite (Hkey ";"%char), (Ht ";"%char) by set_solver.
    rewrite Hvalues by (set_solver || done). done.
Qed.

Lemma dict_set_new key value (d : dict) :
  key ∉ d.*1 → dict_set key value d = (d ++ [(key, value)])%list.
Proof.
  induction d as [|[k v] d IH]; simpl; [done|].
  intros [Hne Hnew]%not_elem_of_cons.
  rewrite decide_False by done. by rewrite IH.
Qed.

Lemma raw_parse_loop k acc (items : dict) :
  NoDup (acc.*1 ++ items.*1) →
  Forall (λ item, clean item.1 ∧ carried item.2) items →
  for_each (λ (_ : nat) data_out part, raw_part data_out part) k acc
    ((λ item, raw_item item.1 item.2) <$> items)
  = Ok (acc ++ items)%list.
Proof.
  revert k acc. induction items as [|[key value] items IH];
    intros k acc Hnodup Hitems; simpl.
  { by rewrite (right_id_L [] app). }
  apply Forall_cons in Hitems as [[Hkey Hvalue] Hitems]. simpl in *.
  rewrite (proj1 (raw_part_reads_back acc key value Hkey Hvalue)). simpl.
  rewrite dict_set_new.
  - rewrite IH, <-(assoc_L app); [done| |done].
    rewrite fmap_app. simpl. by rewrite <-(assoc_L app).
  - apply NoDup_app in Hnodup as (_ & Hdisjoint & _).
    intros Hin. apply (Hdisjoint _ Hin). set_solver.
Qed.

Lemma carried_raw_value value : carried value → raw_value value.
Proof.
  intros [v [Hv _]|first second rest Hall Hsame]; [by constructor|].
  apply Forall_cons in Hall as [[Hfirst _] _]. by constructor.
Qed.

(** X23: the raw format of a returned dictionary is the format of the
    data of [raw_wn]: what [_format_return_raw] writes after [RET#] for a
    dictionary that is not empty, whose keys have none of [,;:] and whose
    values are readable values, or lists of two or more readable values of
    one type, is read back by the parser of [raw_wn] as the same
    dictionary.  A list of one value is
    read back as the value itself, and the empty dictionary is written as
    the empty string, which the parser refuses. *)
Theorem raw_reply_reads_back (items : dict) :
  (items ≠ [] → NoDup items.*1 →
   Forall (λ item, clean item.1 ∧ carried item.2) items →
   ∃ payload,
     _format_return_raw (VDict items) = text PUSH_RET payload ∧
     raw_parse payload = Ok items) ∧
  (∀ key value, clean key → readable value →
   ∃ payload,
     _format_return_raw (VDict [(key, VList [value])])
       = text PUSH_RET payload ∧
     raw_parse payload = Ok [(key, value)]) ∧
  _format_return_raw (VDict []) = text PUSH_RET "" ∧
  is_ok (raw_parse "") = false.
Proof.
  split_and!; [| |done|done].
  - intros Hne Hnodup Hitems. eexists. split.
    + apply format_return_raw_dict.
      eapply Forall_impl; [exact Hitems|].
      intros item [_ Hvalue]. by apply carried_raw_value.
    + unfold raw_parse. rewrite split_join.
      * by apply (raw_parse_loop 0%nat []).
      * by destruct items.
      * apply Forall_fmap. eapply Forall_impl; [exact Hitems|].
        intros [key value] [Hkey Hvalue].
        by apply (raw_part_reads_back [] key value).
  - intros key value Hkey Hvalue.
    exists (raw_item key value). split.
    + rewrite (format_return_raw_dict [(key, VList [value])]).
      * simpl. unfold raw_item. destruct Hvalue as (Hsimple & _).
        unfold simple in Hsimple. destruct value; try done.
        simpl in Hsimple. set_solver.
      * constructor; [|constructor]. simpl.
        apply raw_list; [apply Hvalue|constructor].
    + destruct (raw_part_reads_back [] key value Hkey
                  (carried_scalar _ Hvalue)) as [Hpart Hcount].
      unfold raw_parse. rewrite split_none by done. simpl.
      by rewrite Hpart.
Qed.

End read_back.

Section read_back_example.
Import Push.

(** The dictionary of the documentation of [_format_return_raw]. *)
Lemma raw_reply_reads_back_witness :
  let items :=
    [("answer", VInt 42); ("values", VList [VInt 42; VInt 47]);
     ("answer_good", VBool false)] in
  ∃ payload,
    _format_return_raw (rt := Sample.runtime) (VDict items)
      = text PUSH_RET payload ∧
    raw_parse (rt := Sample.runtime) payload = Ok items.
Proof.
  intros items.
  assert (∀ v, v ∈ [VInt 42; VInt 47; VBool false] →
            readable (rt := Sample.runtime) v) as Hreadable.
  { intros v Hv. split_and!.
    - unfold simple. set_solver.
    - intros c Hc.
      repeat (apply elem_of_cons in Hv as [->|Hv];
              [repeat (apply elem_of_cons in Hc as [->|Hc]; [done|]);
               by apply elem_of_nil in Hc|]).
      by apply elem_of_nil in Hv.
    - repeat (apply elem_of_cons in Hv as [->|Hv]; [by eexists|]).
      by apply elem_of_nil in Hv. }
  apply (proj1 (raw_reply_reads_back (rt := Sample.runtime) items)).
  - done.
  - simpl. repeat constructor; set_solver.
  - assert (∀ s, s ∈ ["answer"; "values"; "answer_good"] → clean s)
      as Hclean.
    { intros s Hs c Hc.
      repeat (apply elem_of_cons in Hs as [->|Hs];
              [repeat (apply elem_of_cons in Hc as [->|Hc]; [done|]);
               by apply elem_of_nil in Hc|]).
      by apply elem_of_nil in Hs. }
    repeat first [apply Forall_nil_2 | apply Forall_cons_2].
    + split; [apply Hclean; set_solver|].
      apply carried_scalar, Hreadable. set_solver.
    + split; [apply Hclean; set_solver|]. apply carried_list.
      * repeat first [apply Forall_nil_2 | apply Forall_cons_2];
          apply Hreadable; set_solver.
      * by repeat constructor.
    + split; [apply Hclean; set_solver|].
      apply carried_scalar, Hreadable. set_solver.
Defined.

End read_back_example.

(** ** A subscription and its look-ups *)

Section subscription_lookup.
Import WebSocketServer.
Context {rt : PyRuntime}.

(** X24: the number that the reply to a subscription carries is the
    number to ask the data of the subscription with: a look-up with the
    numeral of that number is answered with the number and the points of
    the codenames subscribed, in the order of the subscription; and the
    look-ups of the subscriptions made earlier are answered as before.
    [int] is taken to read the numeral that [str] writes for the number. *)
Theorem subscription_then_lookup
    (DATA : DATA_t) (subscriptions : subscriptions_t)
    (source_id codenames_string : string) source known points served :
  PyStr.count "#" source_id = 0%nat →
  PyStr.count "#" codenames_string = 0%nat →
  PyStr.count ";" source_id = 0%nat →
  PyStr.count ";" codenames_string = 0%nat →
  source_id ≠ "" → "" ∉ PyStr.split "," codenames_string →
  DATA !! source_id = Some source →
  codenames source = VList (VStr <$> known) → data source = VList points →
  mapM (mirrored_point known points) (PyStr.split "," codenames_string)
    = Some served →
  let number := List.length subscriptions in
  int_of_str (PyStr.of_nat number) = inr (VInt (Z.of_nat number)) →
  let msg := "subscribe#" +:+ source_id +:+ ";" +:+ codenames_string in
  ∃ subscriptions',
    onMessage DATA subscriptions msg false =
      (Ok (Some (VStr (msg +:+ "#" +:+ PyStr.of_nat number +:+ "#" +:+
                       str (sane_interval source)))), subscriptions') ∧
    get_data DATA subscriptions' (PyStr.of_nat number)
      = Ok (VList [VInt (Z.of_nat number); VList served]) ∧
    ∀ earlier z,
      int_of_str earlier = inr (VInt z) →
      (0 ≤ z < Z.of_nat number)%Z →
      get_data DATA subscriptions' earlier = get_data DATA subscriptions earlier.
Proof.
  intros Hs Hc Hs' Hc' Hsource_id Hnames Hsource Hknown Hpoints Hserved
    number Hint msg.
  destruct (subscribe_splits source_id codenames_string Hs Hc Hs' Hc')
    as [Hsplit1 Hsplit2].
  exists (subscriptions ++ [(source_id, PyStr.split "," codenames_string)])%list.
  split_and!.
  - assert (PyStr.startswith "subscribe" msg = true) as Hstart by done.
    unfold onMessage, subscribe. rewrite Hstart. fold msg in Hsplit1.
    rewrite Hsplit1, Hsplit2.
    rewrite decide_False by (intros [?|?]; done). by rewrite Hsource.
  - unfold get_data. rewrite Hint. simpl.
    rewrite option_guard_True by lia. simpl.
    rewrite Nat2Z.id, lookup_app_r, Nat.sub_diag by done. simpl.
    pose proof (get_data_loop DATA source_id source known points
                  (PyStr.split "," codenames_string) 0%nat []
                  Hsource Hknown Hpoints) as Hloop.
    rewrite Hserved in Hloop. by rewrite Hloop.
  - intros earlier z Hearlier Hz. unfold get_data. rewrite Hearlier. simpl.
    rewrite !option_guard_True by lia. simpl.
    by rewrite lookup_app_l by lia.
Qed.

End subscription_lookup.

Section subscription_lookup_example.
Import WebSocketServer.

Lemma subscription_then_lookup_witness :
  ∃ subscriptions',
    onMessage (rt := Sample.runtime) mirrored [("host:8000", ["t1"])]
      "subscribe#host:8000;t2,t1" false
      = (Ok (Some (VStr "subscribe#host:8000;t2,t1#1#1")), subscriptions') ∧
    get_data (rt := Sample.runtime) mirrored subscriptions' "1"
      = Ok (VList [VInt 1; VList [VList [VInt 5; VFloat 2];
                                  VList [VInt 5; VFloat 1]]]).
Proof.
  destruct (subscription_then_lookup (rt := Sample.runtime) mirrored
              [("host:8000", ["t1"])] "host:8000" "t2,t1"
              (Source (VList [VList [VInt 5; VFloat 1];
                              VList [VInt 5; VFloat 2]])
                 (VList [VStr "t1"; VStr "t2"]) (VInt 1))
              ["t1"; "t2"]
              [VList [VInt 5; VFloat 1]; VList [VInt 5; VFloat 2]]
              [VList [VInt 5; VFloat 2]; VList [VInt 5; VFloat 1]]
              eq_refl eq_refl eq_refl eq_refl)
    as (subscriptions' & Hreply & Hdata & _); try done.
  - intros Hin. apply list_elem_of_In in Hin. simpl in Hin.
    intuition discriminate.
  - by exists subscriptions'.
Defined.

End subscription_lookup_example.
